(** * The spoke agent's ManagedClusterRoleBinding controller

    A shallow embedding of
    [pkg/agent/controller/managedclusterrolebinding_controller.go]:
    the reconciler that reads a ManagedClusterRoleBinding (the "Grant") from
    the hub cluster and materialises RBAC objects on the spoke cluster, and
    that sweeps those objects when the Grant is being deleted.

    The two API servers are modelled as typed object stores; a client is a
    handle that may additionally make any single call fail.  Go's
    [(value, error)] returns and run-time panics are threaded through a small
    state-and-error monad. *)

From stdpp Require Import gmap strings list fin_maps.

Open Scope string_scope.
Open Scope list_scope.

(** ** Kubernetes API types: the fields the controller reads or writes *)

(** [types.NamespacedName]: namespace first, then name; cluster-scoped
    objects have the empty namespace. *)
Abbreviation ObjectKey := (string * string)%type.

Module ObjectMeta.
Record t := mk {
  Name : string;
  Namespace : string;
  Labels : gmap string string;
  DeletionTimestamp : option Z;
  Finalizers : list string;
}.
Definition key (m : t) : ObjectKey := (Namespace m, Name m).
Definition withFinalizers (fs : list string) (m : t) : t :=
  mk (Name m) (Namespace m) (Labels m) (DeletionTimestamp m) fs.
End ObjectMeta.

Module Subject.
Record t := mk {
  Kind : string;
  APIGroup : string;
  Name : string;
  Namespace : string;
}.
End Subject.

Module RoleRef.
Record t := mk {
  APIGroup : string;
  Kind : string;
  Name : string;
}.
End RoleRef.

Module PolicyRule.
Record t := mk {
  Verbs : list string;
  APIGroups : list string;
  Resources : list string;
  ResourceNames : list string;
}.
End PolicyRule.

Module ServiceAccount.
Record t := mk { ObjectMeta : ObjectMeta.t }.
End ServiceAccount.

Module ClusterRole.
Record t := mk {
  ObjectMeta : ObjectMeta.t;
  Rules : list PolicyRule.t;
}.
Definition withRules (rs : list PolicyRule.t) (o : t) : t :=
  mk (ObjectMeta o) rs.
End ClusterRole.

Module ClusterRoleBinding.
Record t := mk {
  ObjectMeta : ObjectMeta.t;
  Subjects : list Subject.t;
  RoleRef : RoleRef.t;
}.
Definition withSubjects (ss : list Subject.t) (o : t) : t :=
  mk (ObjectMeta o) ss (RoleRef o).
Definition withRoleRef (rr : RoleRef.t) (o : t) : t :=
  mk (ObjectMeta o) (Subjects o) rr.
End ClusterRoleBinding.

Module RoleBinding.
Record t := mk {
  ObjectMeta : ObjectMeta.t;
  Subjects : list Subject.t;
  RoleRef : RoleRef.t;
}.
Definition withSubjects (ss : list Subject.t) (o : t) : t :=
  mk (ObjectMeta o) ss (RoleRef o).
Definition withRoleRef (rr : RoleRef.t) (o : t) : t :=
  mk (ObjectMeta o) (Subjects o) rr.
End RoleBinding.

(** [authzv1alpha1.ManagedClusterRoleBinding], the Grant, and its role
    reference.  The API package that declares them is not among the sources:
    these are the fields the controller uses.  [Namespaces] is a Go slice,
    whose [nil] value the controller tells apart from an empty list. *)
Module ClusterRoleRef.
Record t := mk {
  APIGroup : string;
  Kind : string;
  Name : string;
  Namespaces : option (list string);
}.
End ClusterRoleRef.

Module ManagedClusterRoleBinding.
Record t := mk {
  ObjectMeta : ObjectMeta.t;
  Subjects : list Subject.t;
  RoleRef : ClusterRoleRef.t;
}.
Definition withObjectMeta (m : ObjectMeta.t) (o : t) : t :=
  mk m (Subjects o) (RoleRef o).
End ManagedClusterRoleBinding.

(** [rbac.GroupName] *)
Definition rbac_GroupName : string := "rbac.authorization.k8s.io".

(** ** Errors, results and the state monad *)

Inductive Err :=
| ErrNotFound
| ErrAlreadyExists
| ErrOther (msg : string).

(** [kerr.IsNotFound] *)
Definition IsNotFound (e : Err) : bool :=
  match e with ErrNotFound => true | _ => false end.

(** What a Go call yields: a value with a [nil] error, a non-[nil] error, or
    a run-time panic (index out of range). *)
Inductive Result (A : Type) :=
| Ok (a : A)
| Fail (e : Err)
| Panic.
Arguments Ok {A} a.
Arguments Fail {A} e.
Arguments Panic {A}.

Definition M (S A : Type) : Type := S → Result A * S.

Definition ret {S A} (a : A) : M S A := λ s, (Ok a, s).
Definition fail {S A} (e : Err) : M S A := λ s, (Fail e, s).
Definition panic {S A} : M S A := λ s, (Panic, s).

Definition bind {S A B} (m : M S A) (k : A → M S B) : M S B :=
  λ s, match m s with
       | (Ok a, s1) => k a s1
       | (Fail e, s1) => (Fail e, s1)
       | (Panic, s1) => (Panic, s1)
       end.

Notation "'let*' x := m 'in' k" := (bind m (λ x, k))
  (at level 10, x name, m at level 100, k at level 200, only parsing).

(** [v, err := m] followed by a test of [err]: the error is handed to the
    caller as a value instead of being returned. *)
Definition attempt {S A} (m : M S A) : M S (Err + A) :=
  λ s, match m s with
       | (Ok a, s1) => (Ok (inr a), s1)
       | (Fail e, s1) => (Ok (inl e), s1)
       | (Panic, s1) => (Panic, s1)
       end.

(** [for _, x := range xs { if err := f(x); err != nil { return err } }] *)
Fixpoint forEach {S A} (f : A → M S unit) (xs : list A) : M S unit :=
  match xs with
  | [] => ret tt
  | x :: rest => let* _ := f x in forEach f rest
  end.

(** [xs[0]] on a Go slice. *)
Definition index0 {S A} (xs : list A) : M S A :=
  match xs with
  | [] => panic
  | x :: _ => ret x
  end.

(** ** The API servers and their clients *)

Inductive Kind :=
| KManagedClusterRoleBinding
| KServiceAccount
| KClusterRole
| KClusterRoleBinding
| KRoleBinding.

Inductive Verb := VGet | VList | VCreate | VUpdate | VPatch | VDelete.

(** One request as an API server sees it. *)
Record Call := mkCall {
  verb : Verb;
  kind : Kind;
  target : ObjectKey;
}.

(** The objects one API server holds, a table for each kind. *)
Record Store := mkStore {
  managedClusterRoleBindings : gmap ObjectKey ManagedClusterRoleBinding.t;
  serviceAccounts : gmap ObjectKey ServiceAccount.t;
  clusterRoles : gmap ObjectKey ClusterRole.t;
  clusterRoleBindings : gmap ObjectKey ClusterRoleBinding.t;
  roleBindings : gmap ObjectKey RoleBinding.t;
}.

Definition emptyStore : Store := mkStore ∅ ∅ ∅ ∅ ∅.

(** [client.Object]: what the generic client needs of a typed object. *)
Class Object (T : Type) := {
  kindOf : Kind;
  GetObjectMeta : T → ObjectMeta.t;
  table : Store → gmap ObjectKey T;
  setTable : gmap ObjectKey T → Store → Store;
}.
Arguments kindOf T {_}.

#[export] Instance ManagedClusterRoleBinding_Object : Object ManagedClusterRoleBinding.t := {
  kindOf := KManagedClusterRoleBinding;
  GetObjectMeta := ManagedClusterRoleBinding.ObjectMeta;
  table := managedClusterRoleBindings;
  setTable m s :=
    mkStore m (serviceAccounts s) (clusterRoles s) (clusterRoleBindings s) (roleBindings s);
}.

#[export] Instance ServiceAccount_Object : Object ServiceAccount.t := {
  kindOf := KServiceAccount;
  GetObjectMeta := ServiceAccount.ObjectMeta;
  table := serviceAccounts;
  setTable m s :=
    mkStore (managedClusterRoleBindings s) m (clusterRoles s) (clusterRoleBindings s)
      (roleBindings s);
}.

#[export] Instance ClusterRole_Object : Object ClusterRole.t := {
  kindOf := KClusterRole;
  GetObjectMeta := ClusterRole.ObjectMeta;
  table := clusterRoles;
  setTable m s :=
    mkStore (managedClusterRoleBindings s) (serviceAccounts s) m (clusterRoleBindings s)
      (roleBindings s);
}.

#[export] Instance ClusterRoleBinding_Object : Object ClusterRoleBinding.t := {
  kindOf := KClusterRoleBinding;
  GetObjectMeta := ClusterRoleBinding.ObjectMeta;
  table := clusterRoleBindings;
  setTable m s :=
    mkStore (managedClusterRoleBindings s) (serviceAccounts s) (clusterRoles s) m
      (roleBindings s);
}.

#[export] Instance RoleBinding_Object : Object RoleBinding.t := {
  kindOf := KRoleBinding;
  GetObjectMeta := RoleBinding.ObjectMeta;
  table := roleBindings;
  setTable m s :=
    mkStore (managedClusterRoleBindings s) (serviceAccounts s) (clusterRoles s)
      (clusterRoleBindings s) m;
}.

(** [client.ObjectKeyFromObject] *)
Definition keyOf `{Object T} (o : T) : ObjectKey :=
  ObjectMeta.key (GetObjectMeta o).

Definition labelsOf `{Object T} (o : T) : gmap string string :=
  ObjectMeta.Labels (GetObjectMeta o).

(** [labels.SelectorFromSet]: one [key = value] requirement for each entry
    of the set; the empty set gives the selector that matches everything. *)
Definition SelectorFromSet (ls : gmap string string) : gmap string string := ls.

Definition Matches (selector labels : gmap string string) : Prop :=
  map_Forall (λ k v, labels !! k = Some v) selector.

#[export] Instance Matches_dec selector labels : Decision (Matches selector labels).
Proof. unfold Matches. apply _. Defined.

(** [client.Client]: a connection to one API server.  Besides what the
    store itself answers (not found, already exists), any call may fail on
    its way (network, conflict, permission): [faults] names the calls that
    do, and with which error.  Whether a call fails depends on what it asks
    for, not on when it is made. *)
Record Client := mkClient {
  faults : Call → option Err;
}.

Definition call (c : Client) (v : Verb) (k : Kind) (key : ObjectKey) : M Store unit :=
  match faults c (mkCall v k key) with
  | Some e => fail e
  | None => ret tt
  end.

Section client.
Context {T : Type} `{!Object T}.

(** Modelled from the spec: the verbs of the controller-runtime client,
    which is not part of the sources ("supports get-by-identity,
    list-by-label-set, create, update, delete").  A call that fails on its
    way leaves the store alone; otherwise the store answers as an API server
    does: not-found for a missing object, already-exists for a second
    create. *)
Definition Get (c : Client) (key : ObjectKey) : M Store T :=
  let* _ := call c VGet (kindOf T) key in
  λ s, match table s !! key with
       | Some o => (Ok o, s)
       | None => (Fail ErrNotFound, s)
       end.

(** All objects of the kind, in every namespace, that match the selector,
    in the order the store keeps them in. *)
Definition List (c : Client) (selector : gmap string string) : M Store (list T) :=
  let* _ := call c VList (kindOf T) ("", "") in
  λ s, (Ok (filter (λ o, Matches selector (labelsOf o)) (map_to_list (table s)).*2), s).

Definition Create (c : Client) (o : T) : M Store unit :=
  let* _ := call c VCreate (kindOf T) (keyOf o) in
  λ s, match table s !! keyOf o with
       | Some _ => (Fail ErrAlreadyExists, s)
       | None => (Ok tt, setTable (<[keyOf o := o]> (table s)) s)
       end.

Definition Update (c : Client) (o : T) : M Store unit :=
  let* _ := call c VUpdate (kindOf T) (keyOf o) in
  λ s, match table s !! keyOf o with
       | Some _ => (Ok tt, setTable (<[keyOf o := o]> (table s)) s)
       | None => (Fail ErrNotFound, s)
       end.

(** A patch computed against the object just read: the server ends up
    holding the modified object. *)
Definition Patch (c : Client) (o : T) : M Store unit :=
  let* _ := call c VPatch (kindOf T) (keyOf o) in
  λ s, match table s !! keyOf o with
       | Some _ => (Ok tt, setTable (<[keyOf o := o]> (table s)) s)
       | None => (Fail ErrNotFound, s)
       end.

Definition Delete (c : Client) (o : T) : M Store unit :=
  let* _ := call c VDelete (kindOf T) (keyOf o) in
  λ s, match table s !! keyOf o with
       | Some _ => (Ok tt, setTable (delete (keyOf o) (table s)) s)
       | None => (Fail ErrNotFound, s)
       end.

(** [kutil.VerbType] *)
Inductive VerbType := VerbUnchanged | VerbCreated | VerbPatched.

(** Modelled from the spec: [cu.CreateOrPatch] of kmodules.xyz/client-go,
    the Resource Synchronizer, which is not part of the sources: "fetch by
    identity; if absent, create with desired state; if present, apply the
    mutator to the existing object's mutable fields only and update".  The
    object handed in is overwritten with what was written, so the caller
    gets it back. *)
Definition CreateOrPatch (c : Client) (obj : T) (transform : T → bool → T)
  : M Store (VerbType * T) :=
  let* got := attempt (Get c (keyOf obj)) in
  match got with
  | inl e =>
      if IsNotFound e then
        let modified := transform obj true in
        let* _ := Create c modified in ret (VerbCreated, modified)
      else fail e
  | inr cur =>
      let modified := transform cur false in
      let* _ := Patch c modified in ret (VerbPatched, modified)
  end.
End client.

(** [controllerutil.ContainsFinalizer], [AddFinalizer], [RemoveFinalizer] *)
Definition ContainsFinalizer (m : ObjectMeta.t) (finalizer : string) : bool :=
  existsb (λ e, bool_decide (e = finalizer)) (ObjectMeta.Finalizers m).

Definition AddFinalizer (m : ObjectMeta.t) (finalizer : string) : ObjectMeta.t :=
  if ContainsFinalizer m finalizer then m
  else ObjectMeta.withFinalizers (ObjectMeta.Finalizers m ++ [finalizer]) m.

Definition RemoveFinalizer (m : ObjectMeta.t) (finalizer : string) : ObjectMeta.t :=
  ObjectMeta.withFinalizers
    (List.filter (λ e, negb (bool_decide (e = finalizer))) (ObjectMeta.Finalizers m)) m.

(** ** The reconciler *)

(** The hub and the spoke cluster. *)
Record World := mkWorld {
  hub : Store;
  spoke : Store;
}.

(** A call through the hub's client, respectively through the spoke's. *)
Definition onHub {A} (m : M Store A) : M World A :=
  λ w, let '(r, s) := m (hub w) in (r, mkWorld s (spoke w)).

Definition onSpoke {A} (m : M Store A) : M World A :=
  λ w, let '(r, s) := m (spoke w) in (r, mkWorld (hub w) s).

(** [ManagedClusterRoleBindingReconciler]; [HubClient] is connected to the
    hub's API server and [SpokeClient] to the spoke's, so a call through the
    former runs [onHub] and a call through the latter [onSpoke]. *)
Record ManagedClusterRoleBindingReconciler := mkReconciler {
  HubClient : Client;
  SpokeClient : Client;
}.

(** [ctrl.Request] and [ctrl.Result] *)
Record Request := mkRequest { NamespacedName : ObjectKey }.

Record CtrlResult := mkResult {
  Requeue : bool;
  RequeueAfter : Z;
}.

(** [reconcile.Result{}] *)
Definition emptyResult : CtrlResult := mkResult false 0.

(** The impersonation proxy's service account, the subject of every
    impersonation binding. *)
Definition gatewaySubject : Subject.t :=
  Subject.mk "ServiceAccount" "" "cluster-gateway"
    "open-cluster-management-managed-serviceaccount".

(** [fmt.Sprintf("impersonate-%s-%s", userName, hubOwnerID)] *)
Definition impersonateName (userName hubOwnerID : string) : string :=
  ("impersonate-" ++ userName ++ "-" ++ hubOwnerID)%string.

(** [fmt.Sprintf("impersonate-%s-%s-rolebinding", userName, hubOwnerID)] *)
Definition impersonateBindingName (userName hubOwnerID : string) : string :=
  ("impersonate-" ++ userName ++ "-" ++ hubOwnerID ++ "-rolebinding")%string.

(** The object literals of [Reconcile], in the order it builds them.  The
    [TypeMeta] of the last two is left out: the kind of an object is the
    table it is stored in. *)
Definition impersonateClusterRole
    (managedCRB : ManagedClusterRoleBinding.t) (userName hubOwnerID : string)
  : ClusterRole.t :=
  ClusterRole.mk
    (ObjectMeta.mk (impersonateName userName hubOwnerID) ""
       (ObjectMeta.Labels (ManagedClusterRoleBinding.ObjectMeta managedCRB)) None [])
    [PolicyRule.mk ["impersonate"] [""] ["users"] [userName]].

Definition impersonateClusterRoleBinding
    (managedCRB : ManagedClusterRoleBinding.t) (userName hubOwnerID : string)
    (cr : ClusterRole.t)
  : ClusterRoleBinding.t :=
  ClusterRoleBinding.mk
    (ObjectMeta.mk (impersonateBindingName userName hubOwnerID) ""
       (ObjectMeta.Labels (ManagedClusterRoleBinding.ObjectMeta managedCRB)) None [])
    [gatewaySubject]
    (RoleRef.mk rbac_GroupName "ClusterRole" (ObjectMeta.Name (ClusterRole.ObjectMeta cr))).

(** [rbac.Subject{APIGroup: "", Kind: "User", Name: name}] *)
Definition userSubject (name : string) : Subject.t :=
  Subject.mk "User" "" name "".

Definition givenClusterRolebinding
    (managedCRB : ManagedClusterRoleBinding.t) (sub : list Subject.t)
  : ClusterRoleBinding.t :=
  ClusterRoleBinding.mk
    (ObjectMeta.mk (ObjectMeta.Name (ManagedClusterRoleBinding.ObjectMeta managedCRB)) ""
       (ObjectMeta.Labels (ManagedClusterRoleBinding.ObjectMeta managedCRB)) None [])
    sub
    (RoleRef.mk rbac_GroupName "ClusterRole"
       (ClusterRoleRef.Name (ManagedClusterRoleBinding.RoleRef managedCRB))).

Definition givenRolebinding
    (managedCRB : ManagedClusterRoleBinding.t) (sub : list Subject.t) (ns : string)
  : RoleBinding.t :=
  RoleBinding.mk
    (ObjectMeta.mk (ObjectMeta.Name (ManagedClusterRoleBinding.ObjectMeta managedCRB)) ns
       (ObjectMeta.Labels (ManagedClusterRoleBinding.ObjectMeta managedCRB)) None [])
    sub
    (RoleRef.mk rbac_GroupName "Role"
       (ClusterRoleRef.Name (ManagedClusterRoleBinding.RoleRef managedCRB))).

Module controller.
Section Controller.
(** [common.SpokeAuthorizationFinalizer] and
    [utils.GetUserIDAndHubOwnerIDFromLabelValues] are declared in packages
    of this repository that are not among the sources; the controller is
    verified for any value of the constant and any such function. *)
Variable SpokeAuthorizationFinalizer : string.
Variable GetUserIDAndHubOwnerIDFromLabelValues :
  ManagedClusterRoleBinding.t → string * string.

Implicit Types (r : ManagedClusterRoleBindingReconciler).
Implicit Types (managedCRB : ManagedClusterRoleBinding.t).

Definition addFinalizerIfNeeded r managedCRB : M World ManagedClusterRoleBinding.t :=
  if negb (ContainsFinalizer (ManagedClusterRoleBinding.ObjectMeta managedCRB)
             SpokeAuthorizationFinalizer)
  then
    let managedCRB :=
      ManagedClusterRoleBinding.withObjectMeta
        (AddFinalizer (ManagedClusterRoleBinding.ObjectMeta managedCRB)
           SpokeAuthorizationFinalizer)
        managedCRB in
    let* _ := onSpoke (Update (SpokeClient r) managedCRB) in
    ret managedCRB
  else ret managedCRB.

(** One of the three blocks of [deleteAssociatedResources]: list a kind by
    the Grant's labels and, when the list call did not fail, delete every
    item; a failed list call is skipped over. *)
Definition sweep (T : Type) `{!Object T} r managedCRB : M World unit :=
  let selector :=
    SelectorFromSet (ObjectMeta.Labels (ManagedClusterRoleBinding.ObjectMeta managedCRB)) in
  let* listed := attempt (onSpoke (List (T:=T) (SpokeClient r) selector)) in
  match listed with
  | inr items => forEach (λ item, onSpoke (Delete (SpokeClient r) item)) items
  | inl _ => ret tt
  end.

Definition deleteAssociatedResources r managedCRB : M World unit :=
  let* _ := sweep ServiceAccount.t r managedCRB in
  let* _ := sweep ClusterRole.t r managedCRB in
  let* _ := sweep ClusterRoleBinding.t r managedCRB in
  ret tt.

Definition Reconcile r (req : Request) : M World CtrlResult :=
  let* managedCRB := onHub (Get (HubClient r) (NamespacedName req)) in
  let hubOwnerID := (GetUserIDAndHubOwnerIDFromLabelValues managedCRB).2 in
  let* subject0 := index0 (ManagedClusterRoleBinding.Subjects managedCRB) in
  let userName := Subject.Name subject0 in
  match ObjectMeta.DeletionTimestamp (ManagedClusterRoleBinding.ObjectMeta managedCRB) with
  | Some _ =>
      (* the managedCRB is marked for deletion *)
      let* _ :=
        if ContainsFinalizer (ManagedClusterRoleBinding.ObjectMeta managedCRB)
             SpokeAuthorizationFinalizer
        then
          let* _ := deleteAssociatedResources r managedCRB in
          let managedCRB :=
            ManagedClusterRoleBinding.withObjectMeta
              (RemoveFinalizer (ManagedClusterRoleBinding.ObjectMeta managedCRB)
                 SpokeAuthorizationFinalizer)
              managedCRB in
          onSpoke (Update (SpokeClient r) managedCRB)
        else ret tt in
      ret emptyResult
  | None =>
      let* managedCRB := addFinalizerIfNeeded r managedCRB in
      (* impersonate clusterRole *)
      let cr := impersonateClusterRole managedCRB userName hubOwnerID in
      let* done := onSpoke (CreateOrPatch (SpokeClient r) cr
                              (λ in_ _, ClusterRole.withRules (ClusterRole.Rules cr) in_)) in
      let cr := done.2 in
      (* this clusterRoleBinding will give permission to the user *)
      let crb := impersonateClusterRoleBinding managedCRB userName hubOwnerID cr in
      let* _ := onSpoke (CreateOrPatch (SpokeClient r) crb
                           (λ in_ _, ClusterRoleBinding.withRoleRef
                                       (ClusterRoleBinding.RoleRef crb)
                                       (ClusterRoleBinding.withSubjects
                                          (ClusterRoleBinding.Subjects crb) in_))) in
      (* now give actual permission to the User *)
      let* subject0 := index0 (ManagedClusterRoleBinding.Subjects managedCRB) in
      let sub := [userSubject (Subject.Name subject0)] in
      let* _ :=
        match ClusterRoleRef.Namespaces (ManagedClusterRoleBinding.RoleRef managedCRB) with
        | None =>
            let given := givenClusterRolebinding managedCRB sub in
            let* _ := onSpoke (CreateOrPatch (SpokeClient r) given
                                 (λ in_ _, ClusterRoleBinding.withRoleRef
                                             (ClusterRoleBinding.RoleRef given)
                                             (ClusterRoleBinding.withSubjects
                                                (ClusterRoleBinding.Subjects given) in_))) in
            ret tt
        | Some namespaces =>
            forEach (λ ns,
              let given := givenRolebinding managedCRB sub ns in
              let* _ := onSpoke (CreateOrPatch (SpokeClient r) given
                                   (λ in_ _, RoleBinding.withRoleRef
                                               (RoleBinding.RoleRef given)
                                               (RoleBinding.withSubjects
                                                  (RoleBinding.Subjects given) in_))) in
              ret tt) namespaces
        end in
      ret emptyResult
  end.
End Controller.
End controller.

(** ** Notions used to state the properties *)

(** [table] and [setTable] read and replace one field of the store. *)
Class LawfulObject (T : Type) `{!Object T} := {
  table_setTable : ∀ m s, table (setTable m s) = m;
  setTable_table : ∀ s, setTable (table s) s = s;
  setTable_setTable : ∀ m1 m2 s, setTable m2 (setTable m1 s) = setTable m2 s;
}.

(** A command that cannot panic. *)
Definition no_panic {S A} (m : M S A) : Prop := ∀ s, (m s).1 ≠ Panic.

(** A command that leaves the hub's store as it found it. *)
Definition keeps_hub {A} (m : M World A) : Prop := ∀ w, hub (m w).2 = hub w.

(** An API server files every object under the object's own namespace and
    name. *)
Definition wf_table {T} `{!Object T} (m : gmap ObjectKey T) : Prop :=
  ∀ k o, m !! k = Some o → keyOf o = k.

Definition wf_store (s : Store) : Prop :=
  wf_table (managedClusterRoleBindings s) ∧
  wf_table (serviceAccounts s) ∧
  wf_table (clusterRoles s) ∧
  wf_table (clusterRoleBindings s) ∧
  wf_table (roleBindings s).

(** What a successful [CreateOrPatch] leaves under the object's key: the
    transformed desired object when nothing was there, the transformed
    existing object otherwise. *)
Definition upserted {T} `{!Object T} (obj : T) (transform : T → bool → T)
    (m : gmap ObjectKey T) : T :=
  match m !! keyOf obj with
  | Some cur => transform cur false
  | None => transform obj true
  end.

Definition upsert {T} `{!Object T} (obj : T) (transform : T → bool → T)
    (m : gmap ObjectKey T) : gmap ObjectKey T :=
  <[keyOf obj := upserted obj transform m]> m.

(** The Grant is what the hub returns for the request. *)
Definition loads (r : ManagedClusterRoleBindingReconciler) (req : Request) (w : World)
    (managedCRB : ManagedClusterRoleBinding.t) : Prop :=
  Get (HubClient r) (NamespacedName req) (hub w) = (Ok managedCRB, hub w).

(** The mutators [Reconcile] hands to [CreateOrPatch]: they copy the rules,
    or the subjects and the role reference, of the desired object. *)
Definition copyRules (desired : ClusterRole.t) : ClusterRole.t → bool → ClusterRole.t :=
  λ in_ _, ClusterRole.withRules (ClusterRole.Rules desired) in_.

Definition copyClusterBinding (desired : ClusterRoleBinding.t)
  : ClusterRoleBinding.t → bool → ClusterRoleBinding.t :=
  λ in_ _, ClusterRoleBinding.withRoleRef (ClusterRoleBinding.RoleRef desired)
             (ClusterRoleBinding.withSubjects (ClusterRoleBinding.Subjects desired) in_).

Definition copyBinding (desired : RoleBinding.t) : RoleBinding.t → bool → RoleBinding.t :=
  λ in_ _, RoleBinding.withRoleRef (RoleBinding.RoleRef desired)
             (RoleBinding.withSubjects (RoleBinding.Subjects desired) in_).

(** The effect of one successful [CreateOrPatch] on a store. *)
Definition applied {T} `{!Object T} (obj : T) (transform : T → bool → T) : Store → Store :=
  λ s, setTable (upsert obj transform (table s)) s.

(** The derived objects of a Grant, as [Reconcile] asks for them. *)
Definition desiredClusterRole (managedCRB : ManagedClusterRoleBinding.t)
    (userName hubOwnerID : string) : ClusterRole.t :=
  impersonateClusterRole managedCRB userName hubOwnerID.

Definition desiredImpersonateBinding (managedCRB : ManagedClusterRoleBinding.t)
    (userName hubOwnerID : string) : ClusterRoleBinding.t :=
  impersonateClusterRoleBinding managedCRB userName hubOwnerID
    (desiredClusterRole managedCRB userName hubOwnerID).

Definition desiredClusterBinding (managedCRB : ManagedClusterRoleBinding.t)
    (userName : string) : ClusterRoleBinding.t :=
  givenClusterRolebinding managedCRB [userSubject userName].

Definition desiredBinding (managedCRB : ManagedClusterRoleBinding.t)
    (userName : string) (ns : string) : RoleBinding.t :=
  givenRolebinding managedCRB [userSubject userName] ns.

(** The writes of one run of the materialising branch, in order. *)
Definition steps (managedCRB : ManagedClusterRoleBinding.t) (userName hubOwnerID : string)
  : list (Store → Store) :=
  let cr := desiredClusterRole managedCRB userName hubOwnerID in
  let crb := desiredImpersonateBinding managedCRB userName hubOwnerID in
  [applied cr (copyRules cr); applied crb (copyClusterBinding crb)] ++
  match ClusterRoleRef.Namespaces (ManagedClusterRoleBinding.RoleRef managedCRB) with
  | None =>
      let given := desiredClusterBinding managedCRB userName in
      [applied given (copyClusterBinding given)]
  | Some namespaces =>
      (λ ns, let given := desiredBinding managedCRB userName ns in
             applied given (copyBinding given)) <$> namespaces
  end.

Definition run (fs : list (Store → Store)) (s : Store) : Store :=
  foldl (λ s f, f s) s fs.

(** The store all the writes of one run leave, table by table. *)
Definition materialized (managedCRB : ManagedClusterRoleBinding.t)
    (userName hubOwnerID : string) (s : Store) : Store :=
  let cr := desiredClusterRole managedCRB userName hubOwnerID in
  let crb := desiredImpersonateBinding managedCRB userName hubOwnerID in
  let given := desiredClusterBinding managedCRB userName in
  let namespaces := ClusterRoleRef.Namespaces (ManagedClusterRoleBinding.RoleRef managedCRB) in
  mkStore
    (managedClusterRoleBindings s)
    (serviceAccounts s)
    (upsert cr (copyRules cr) (clusterRoles s))
    (let bound := upsert crb (copyClusterBinding crb) (clusterRoleBindings s) in
     match namespaces with
     | None => upsert given (copyClusterBinding given) bound
     | Some _ => bound
     end)
    (match namespaces with
     | None => roleBindings s
     | Some namespaces =>
         foldl (λ m ns, let given := desiredBinding managedCRB userName ns in
                        upsert given (copyBinding given) m)
           (roleBindings s) namespaces
     end).

(** The labels an object has after a successful write: its own when it was
    there before, those of the desired object otherwise. *)
Definition keptOrGiven {T} `{!Object T} (given : gmap string string) (before : option T)
  : gmap string string :=
  match before with
  | Some old => labelsOf old
  | None => given
  end.

#[export] Instance Verb_eq_dec : EqDecision Verb.
Proof. solve_decision. Defined.

#[export] Instance Kind_eq_dec : EqDecision Kind.
Proof. solve_decision. Defined.

#[export] Instance Call_eq_dec : EqDecision Call.
Proof. solve_decision. Defined.

#[export] Instance wf_table_dec {T} `{!Object T} (m : gmap ObjectKey T) :
  Decision (wf_table m).
Proof.
  change (Decision (map_Forall (λ k o, keyOf o = k) m)).
  apply map_Forall_dec. intros k o. apply _.
Defined.

#[export] Instance wf_store_dec s : Decision (wf_store s).
Proof. unfold wf_store. apply _. Defined.

(** The objects of a table that a selector does not match. *)
Definition unmatched {T} `{!Object T} (selector : gmap string string)
    (m : gmap ObjectKey T) : gmap ObjectKey T :=
  filter (λ ko, ¬ Matches selector (labelsOf ko.2)) m.

(** What a block of the sweeper that returns nil leaves of its table: the
    unmatched objects, or the whole table when its list call fails. *)
Definition swept (T : Type) `{!Object T} (c : Client) (selector : gmap string string)
    (m : gmap ObjectKey T) : gmap ObjectKey T :=
  match faults c (mkCall VList (kindOf T) ("", "")) with
  | None => unmatched selector m
  | Some _ => m
  end.

(** A table out of which nothing but objects matched by the selector was
    taken: no object was added or changed, and every unmatched object is
    still there. *)
Definition only_swept {T} `{!Object T} (selector : gmap string string)
    (before after : gmap ObjectKey T) : Prop :=
  (∀ k o, after !! k = Some o → before !! k = Some o)
  ∧ (∀ k o, before !! k = Some o → ¬ Matches selector (labelsOf o) →
            after !! k = Some o).

(** A table that changed under the given keys at most, and lost no object. *)
Definition changed_within {T} (keys : ObjectKey → Prop)
    (before after : gmap ObjectKey T) : Prop :=
  (∀ k, ¬ keys k → after !! k = before !! k)
  ∧ (∀ k, is_Some (before !! k) → is_Some (after !! k)).

(** The part of a spoke that the materialising branch may write for a Grant:
    the Grant's own entry (for the finalizer), the impersonation role, the
    impersonation binding, and the Grant's binding, cluster-wide or one in
    each of its namespaces.  Service accounts are out of its reach. *)
Definition footprint (managedCRB : ManagedClusterRoleBinding.t)
    (userName hubOwnerID : string) (before after : Store) : Prop :=
  let name := ObjectMeta.Name (ManagedClusterRoleBinding.ObjectMeta managedCRB) in
  let namespaces := ClusterRoleRef.Namespaces (ManagedClusterRoleBinding.RoleRef managedCRB) in
  changed_within (λ k, k = keyOf managedCRB)
    (managedClusterRoleBindings before) (managedClusterRoleBindings after)
  ∧ serviceAccounts after = serviceAccounts before
  ∧ changed_within (λ k, k = ("", impersonateName userName hubOwnerID))
      (clusterRoles before) (clusterRoles after)
  ∧ changed_within
      (λ k, k = ("", impersonateBindingName userName hubOwnerID)
            ∨ (namespaces = None ∧ k = ("", name)))
      (clusterRoleBindings before) (clusterRoleBindings after)
  ∧ changed_within
      (λ k, ∃ listed ns, namespaces = Some listed ∧ ns ∈ listed ∧ k = (ns, name))
      (roleBindings before) (roleBindings after).

(** ** A hub and a spoke to run the controller on *)

Module example.
Definition finalizer : string := "authorization.k8s.appscode.com/spoke".

(** The owner of a Grant, read off its labels. *)
Definition owner (g : ManagedClusterRoleBinding.t) : string * string :=
  (default "" (ObjectMeta.Labels (ManagedClusterRoleBinding.ObjectMeta g) !! "user"),
   default "" (ObjectMeta.Labels (ManagedClusterRoleBinding.ObjectMeta g) !! "hub-owner")).

Definition noFaults : Client := mkClient (λ _, None).

(** A client on which exactly one call fails. *)
Definition failingAt (c : Call) (e : Err) : Client :=
  mkClient (λ c', if decide (c' = c) then Some e else None).

Definition quiet : ManagedClusterRoleBindingReconciler := mkReconciler noFaults noFaults.

Definition labelsFor (app : string) : gmap string string :=
  <["hub-owner" := "hub1"]> {["app" := app]}.

Definition grant (name : string) (finalizers : list string) (deleted : option Z)
    (subjects : list Subject.t) (namespaces : option (list string))
  : ManagedClusterRoleBinding.t :=
  ManagedClusterRoleBinding.mk
    (ObjectMeta.mk name "" (labelsFor name) deleted finalizers)
    subjects
    (ClusterRoleRef.mk rbac_GroupName "ClusterRole" "viewer" namespaces).

Definition alice : list Subject.t := [userSubject "alice"].

(** Cluster-wide Grants for alice: active, new, being deleted. *)
Definition g1 := grant "g1" [finalizer] None alice None.
Definition g1_new := grant "g1" [] None alice None.
Definition g1_deleting := grant "g1" [finalizer] (Some 1%Z) alice None.

(** A second Grant for the same user and owner. *)
Definition g2 := grant "g2" [finalizer] None alice None.

(** A Grant scoped to three namespaces: active, being deleted. *)
Definition g3 := grant "g3" [finalizer] None alice (Some ["a"; "b"; "c"]).
Definition g3_deleting := grant "g3" [finalizer] (Some 1%Z) alice (Some ["a"; "b"; "c"]).

(** A Grant being deleted that names no subject. *)
Definition g4_deleting := grant "g4" [finalizer] (Some 1%Z) [] None.

Definition hubOf (gs : list ManagedClusterRoleBinding.t) : Store :=
  mkStore (list_to_map ((λ g, (keyOf g, g)) <$> gs)) ∅ ∅ ∅ ∅.

Definition request (name : string) : Request := mkRequest ("", name).

Definition reconcile (r : ManagedClusterRoleBindingReconciler) (name : string)
  : M World CtrlResult :=
  controller.Reconcile finalizer owner r (request name).

(** The spoke after [g1], respectively [g3], was materialised on an empty
    cluster. *)
Definition spokeOf_g1 : Store :=
  spoke (reconcile quiet "g1" (mkWorld (hubOf [g1]) emptyStore)).2.

Definition spokeOf_g3 : Store :=
  spoke (reconcile quiet "g3" (mkWorld (hubOf [g3]) emptyStore)).2.

(** A reconciler whose spoke client cannot delete the cluster role binding
    [g1]. *)
Definition flaky : ManagedClusterRoleBindingReconciler :=
  mkReconciler noFaults
    (failingAt (mkCall VDelete KClusterRoleBinding ("", "g1")) (ErrOther "unavailable")).

(** A reconciler whose spoke client cannot delete the cluster role
    [impersonate-alice-hub1]. *)
Definition stuck : ManagedClusterRoleBindingReconciler :=
  mkReconciler noFaults
    (failingAt (mkCall VDelete KClusterRole ("", "impersonate-alice-hub1"))
       (ErrOther "forbidden")).

(** A reconciler whose spoke client cannot patch the cluster role binding
    [g1]. *)
Definition readOnly : ManagedClusterRoleBindingReconciler :=
  mkReconciler noFaults
    (failingAt (mkCall VPatch KClusterRoleBinding ("", "g1")) (ErrOther "conflict")).

(** A reconciler whose spoke client cannot list cluster roles. *)
Definition shortSighted : ManagedClusterRoleBindingReconciler :=
  mkReconciler noFaults
    (failingAt (mkCall VList KClusterRole ("", "")) (ErrOther "timeout")).

Definition world_g1 : World := mkWorld (hubOf [g1]) emptyStore.
Definition world_g1_new : World := mkWorld (hubOf [g1_new]) emptyStore.
Definition world_g1_deleting : World := mkWorld (hubOf [g1_deleting]) spokeOf_g1.
Definition world_g2 : World := mkWorld (hubOf [g1; g2]) spokeOf_g1.
Definition world_g3 : World := mkWorld (hubOf [g3]) emptyStore.
Definition world_g3_deleting : World := mkWorld (hubOf [g3_deleting]) spokeOf_g3.
Definition world_g4_deleting : World := mkWorld (hubOf [g4_deleting]) emptyStore.

(** A spoke that happens to hold an object of the Grant's kind and name. *)
Definition world_g1_mirrored : World :=
  mkWorld (hubOf [g1_deleting]) (hubOf [g1_deleting]).

(** The Grant [g1], being deleted without ever having carried the
    finalizer, on the spoke that holds what was materialised for it. *)
Definition g1_orphaned := grant "g1" [] (Some 1%Z) alice None.
Definition world_g1_orphaned : World := mkWorld (hubOf [g1_orphaned]) spokeOf_g1.

(** A cluster role of the spoke that has nothing to do with any Grant. *)
Definition bystander : ClusterRole.t :=
  ClusterRole.mk (ObjectMeta.mk "admin" "" {["app" := "other"]} None [])
    [PolicyRule.mk ["*"] ["*"] ["*"] []].

Definition spoke_with_bystander : Store :=
  setTable (<[keyOf bystander := bystander]> (clusterRoles spokeOf_g1)) spokeOf_g1.

Definition world_g1_deleting_bystander : World :=
  mkWorld (hubOf [g1_deleting]) spoke_with_bystander.

(** A Grant without labels, being deleted. *)
Definition g5_deleting : ManagedClusterRoleBinding.t :=
  ManagedClusterRoleBinding.mk
    (ObjectMeta.mk "g5" "" ∅ (Some 1%Z) [finalizer])
    alice
    (ClusterRoleRef.mk rbac_GroupName "ClusterRole" "viewer" None).

Definition world_g5_deleting : World := mkWorld (hubOf [g5_deleting]) spoke_with_bystander.

(** A Grant whose list of namespaces is there and empty. *)
Definition g6 := grant "g6" [finalizer] None alice (Some []).
Definition world_g6 : World := mkWorld (hubOf [g6]) emptyStore.

(** A Grant for a group and a user, in that order. *)
Definition team : list Subject.t :=
  [Subject.mk "Group" rbac_GroupName "devs" ""; userSubject "bob"].

Definition g7 := grant "g7" [finalizer] None team None.
Definition world_g7 : World := mkWorld (hubOf [g7]) emptyStore.

(** A reconciler whose spoke client cannot create the cluster role binding
    [g1]. *)
Definition halfway : ManagedClusterRoleBindingReconciler :=
  mkReconciler noFaults
    (failingAt (mkCall VCreate KClusterRoleBinding ("", "g1")) (ErrOther "quota")).

(** The Grant [g1] on a spoke that holds the bystander and nothing else. *)
Definition world_g1_bystander : World :=
  mkWorld (hubOf [g1]) (mkStore ∅ ∅ {[keyOf bystander := bystander]} ∅ ∅).

(** A cluster-wide Grant that goes by the name of its own impersonation
    binding. *)
Definition g8 := grant "impersonate-alice-hub1-rolebinding" [finalizer] None alice None.
Definition world_g8 : World := mkWorld (hubOf [g8]) emptyStore.
End example.

(** * Properties *)

(** ** The monad *)

Lemma bind_unfold {S A B} (m : M S A) (k : A → M S B) s :
  bind m k s =
  match m s with
  | (Ok a, s1) => k a s1
  | (Fail e, s1) => (Fail e, s1)
  | (Panic, s1) => (Panic, s1)
  end.
Proof. reflexivity. Qed.

Lemma bind_ok {S A B} (m : M S A) (k : A → M S B) s a s1 :
  m s = (Ok a, s1) → bind m k s = k a s1.
Proof. intros E. by rewrite bind_unfold, E. Qed.

Lemma bind_fail {S A B} (m : M S A) (k : A → M S B) s e s1 :
  m s = (Fail e, s1) → bind m k s = (Fail e, s1).
Proof. intros E. by rewrite bind_unfold, E. Qed.

Ltac enter_no_panic s :=
  revert s;
  match goal with |- ∀ s', (?m s').1 ≠ Panic => change (no_panic m) end.

Lemma no_panic_ret {S A} (a : A) : no_panic (S:=S) (ret a).
Proof. by intros s. Qed.

Lemma no_panic_fail {S A} e : no_panic (S:=S) (A:=A) (fail e).
Proof. by intros s. Qed.

Lemma no_panic_bind {S A B} (m : M S A) (k : A → M S B) :
  no_panic m → (∀ a, no_panic (k a)) → no_panic (bind m k).
Proof.
  intros Hm Hk s. rewrite bind_unfold.
  specialize (Hm s). destruct (m s) as [[a|e|] s1]; simpl in *; try done.
  apply Hk.
Qed.

Lemma no_panic_attempt {S A} (m : M S A) : no_panic m → no_panic (attempt m).
Proof.
  intros Hm s. unfold attempt. specialize (Hm s).
  by destruct (m s) as [[a|e|] s1].
Qed.

Lemma no_panic_forEach {S A} (f : A → M S unit) xs :
  (∀ x, no_panic (f x)) → no_panic (forEach f xs).
Proof.
  intros Hf. induction xs as [|x xs IH]; simpl.
  - apply no_panic_ret.
  - apply no_panic_bind; auto.
Qed.

Lemma no_panic_index0 {S A} (x : A) xs : no_panic (S:=S) (index0 (x :: xs)).
Proof. by intros s. Qed.

Lemma no_panic_onHub {A} (m : M Store A) : no_panic m → no_panic (onHub m).
Proof.
  intros Hm w. unfold onHub. specialize (Hm (hub w)).
  by destruct (m (hub w)) as [[a|e|] s1].
Qed.

Lemma no_panic_onSpoke {A} (m : M Store A) : no_panic m → no_panic (onSpoke m).
Proof.
  intros Hm w. unfold onSpoke. specialize (Hm (spoke w)).
  by destruct (m (spoke w)) as [[a|e|] s1].
Qed.

Lemma no_panic_call c v k key : no_panic (call c v k key).
Proof. intros s. unfold call. by destruct (faults c _). Qed.

Create HintDb no_panic.
#[export] Hint Resolve no_panic_ret no_panic_fail no_panic_bind no_panic_attempt
  no_panic_forEach no_panic_index0 no_panic_onHub no_panic_onSpoke no_panic_call
  : no_panic.

Section client_no_panic.
Context {T : Type} `{!Object T}.

Lemma no_panic_Get c key : no_panic (Get (T:=T) c key).
Proof.
  unfold Get. apply no_panic_bind; [apply no_panic_call|].
  intros _ s. by destruct (table s !! key).
Qed.

Lemma no_panic_List c selector : no_panic (List (T:=T) c selector).
Proof. unfold List. apply no_panic_bind; [apply no_panic_call|]. by intros _ s. Qed.

Lemma no_panic_Create c (o : T) : no_panic (Create c o).
Proof.
  unfold Create. apply no_panic_bind; [apply no_panic_call|].
  intros _ s. by destruct (table s !! keyOf o).
Qed.

Lemma no_panic_Update c (o : T) : no_panic (Update c o).
Proof.
  unfold Update. apply no_panic_bind; [apply no_panic_call|].
  intros _ s. by destruct (table s !! keyOf o).
Qed.

Lemma no_panic_Patch c (o : T) : no_panic (Patch c o).
Proof.
  unfold Patch. apply no_panic_bind; [apply no_panic_call|].
  intros _ s. by destruct (table s !! keyOf o).
Qed.

Lemma no_panic_Delete c (o : T) : no_panic (Delete c o).
Proof.
  unfold Delete. apply no_panic_bind; [apply no_panic_call|].
  intros _ s. by destruct (table s !! keyOf o).
Qed.

Lemma no_panic_CreateOrPatch c (obj : T) transform :
  no_panic (CreateOrPatch c obj transform).
Proof.
  unfold CreateOrPatch.
  apply no_panic_bind; [apply no_panic_attempt, no_panic_Get|].
  intros [e|cur].
  - destruct (IsNotFound e); [|apply no_panic_fail].
    apply no_panic_bind; [apply no_panic_Create|]. intros _. apply no_panic_ret.
  - apply no_panic_bind; [apply no_panic_Patch|]. intros _. apply no_panic_ret.
Qed.
End client_no_panic.

#[export] Hint Resolve no_panic_Get no_panic_List no_panic_Create no_panic_Update
  no_panic_Patch no_panic_Delete no_panic_CreateOrPatch : no_panic.

(** ** The store *)

#[export] Instance ManagedClusterRoleBinding_Lawful : LawfulObject ManagedClusterRoleBinding.t.
Proof. split; [done | by intros [] | done]. Qed.

#[export] Instance ServiceAccount_Lawful : LawfulObject ServiceAccount.t.
Proof. split; [done | by intros [] | done]. Qed.

#[export] Instance ClusterRole_Lawful : LawfulObject ClusterRole.t.
Proof. split; [done | by intros [] | done]. Qed.

#[export] Instance ClusterRoleBinding_Lawful : LawfulObject ClusterRoleBinding.t.
Proof. split; [done | by intros [] | done]. Qed.

#[export] Instance RoleBinding_Lawful : LawfulObject RoleBinding.t.
Proof. split; [done | by intros [] | done]. Qed.

Lemma call_inv c v k key s res s' :
  call c v k key s = (res, s') →
  s' = s ∧
  ((res = Ok tt ∧ faults c (mkCall v k key) = None) ∨
   (∃ e, res = Fail e ∧ faults c (mkCall v k key) = Some e)).
Proof.
  unfold call. destruct (faults c _) as [e|]; intros [= <- <-]; split; eauto.
Qed.

Section client_facts.
Context {T : Type} `{!Object T}.
Implicit Types (o obj : T) (c : Client) (s : Store).

Lemma Get_inv c key s res s' :
  Get (T:=T) c key s = (res, s') →
  s' = s ∧
  ((∃ o, res = Ok o ∧ table s !! key = Some o
         ∧ faults c (mkCall VGet (kindOf T) key) = None) ∨
   (res = Fail ErrNotFound ∧ table s !! key = None) ∨
   (∃ e, res = Fail e ∧ faults c (mkCall VGet (kindOf T) key) = Some e)).
Proof.
  unfold Get. rewrite bind_unfold.
  destruct (call c VGet (kindOf T) key s) as [[[]|e|] s1] eqn:E;
    apply call_inv in E as [-> E]; destruct E as [[? ?]|[e' [? ?]]]; simplify_eq.
  - destruct (table s !! key) as [o|] eqn:L; intros [= <- <-]; split; eauto 10.
  - intros [= <- <-]. split; eauto 10.
Qed.

Lemma List_inv c selector s res s' :
  List (T:=T) c selector s = (res, s') →
  s' = s ∧
  ((res = Ok (filter (λ o, Matches selector (labelsOf o)) (map_to_list (table s)).*2)
    ∧ faults c (mkCall VList (kindOf T) ("", "")) = None) ∨
   (∃ e, res = Fail e ∧ faults c (mkCall VList (kindOf T) ("", "")) = Some e)).
Proof.
  unfold List. rewrite bind_unfold.
  destruct (call c VList (kindOf T) ("", "") s) as [[[]|e|] s1] eqn:E;
    apply call_inv in E as [-> E]; destruct E as [[? ?]|[e' [? ?]]]; simplify_eq;
    intros [= <- <-]; split; eauto.
Qed.

(** The three writing verbs that put an object under its key. *)
Lemma Create_inv c o s res s' :
  Create c o s = (res, s') →
  (res = Ok tt ∧ table s !! keyOf o = None ∧ s' = setTable (<[keyOf o := o]> (table s)) s) ∨
  (∃ e, res = Fail e ∧ s' = s).
Proof.
  unfold Create. rewrite bind_unfold.
  destruct (call c VCreate (kindOf T) (keyOf o) s) as [[[]|e|] s1] eqn:E;
    apply call_inv in E as [-> E]; destruct E as [[? ?]|[e' [? ?]]]; simplify_eq.
  - destruct (table s !! keyOf o) eqn:L; intros [= <- <-]; eauto.
  - intros [= <- <-]. eauto.
Qed.

Lemma Update_inv c o s res s' :
  Update c o s = (res, s') →
  (res = Ok tt ∧ is_Some (table s !! keyOf o)
   ∧ s' = setTable (<[keyOf o := o]> (table s)) s) ∨
  (∃ e, res = Fail e ∧ s' = s).
Proof.
  unfold Update. rewrite bind_unfold.
  destruct (call c VUpdate (kindOf T) (keyOf o) s) as [[[]|e|] s1] eqn:E;
    apply call_inv in E as [-> E]; destruct E as [[? ?]|[e' [? ?]]]; simplify_eq.
  - destruct (table s !! keyOf o) eqn:L; intros [= <- <-]; eauto.
  - intros [= <- <-]. eauto.
Qed.

Lemma Patch_inv c o s res s' :
  Patch c o s = (res, s') →
  (res = Ok tt ∧ is_Some (table s !! keyOf o)
   ∧ s' = setTable (<[keyOf o := o]> (table s)) s) ∨
  (∃ e, res = Fail e ∧ s' = s).
Proof.
  unfold Patch. rewrite bind_unfold.
  destruct (call c VPatch (kindOf T) (keyOf o) s) as [[[]|e|] s1] eqn:E;
    apply call_inv in E as [-> E]; destruct E as [[? ?]|[e' [? ?]]]; simplify_eq.
  - destruct (table s !! keyOf o) eqn:L; intros [= <- <-]; eauto.
  - intros [= <- <-]. eauto.
Qed.

Lemma Delete_inv c o s res s' :
  Delete c o s = (res, s') →
  (res = Ok tt ∧ is_Some (table s !! keyOf o)
   ∧ s' = setTable (delete (keyOf o) (table s)) s) ∨
  (∃ e, res = Fail e ∧ s' = s).
Proof.
  unfold Delete. rewrite bind_unfold.
  destruct (call c VDelete (kindOf T) (keyOf o) s) as [[[]|e|] s1] eqn:E;
    apply call_inv in E as [-> E]; destruct E as [[? ?]|[e' [? ?]]]; simplify_eq.
  - destruct (table s !! keyOf o) eqn:L; intros [= <- <-]; eauto.
  - intros [= <- <-]. eauto.
Qed.

(** [CreateOrPatch] either fails and leaves the store as it was, or succeeds
    and leaves [upserted] under the object's key. *)
Lemma CreateOrPatch_inv c obj transform s res s' :
  wf_table (table s) →
  (∀ o b, GetObjectMeta (transform o b) = GetObjectMeta o) →
  CreateOrPatch c obj transform s = (res, s') →
  (∃ v, res = Ok (v, upserted obj transform (table s))
        ∧ s' = setTable (upsert obj transform (table s)) s) ∨
  (∃ e, res = Fail e ∧ s' = s).
Proof.
  intros Hwf Hmeta. unfold CreateOrPatch. rewrite bind_unfold. unfold attempt.
  destruct (Get c (keyOf obj) s) as [[cur|e|] s1] eqn:G;
    apply Get_inv in G as [-> G].
  - destruct G as [(o & ? & L & _)|[[? _]|(e & ? & _)]]; simplify_eq.
    assert (keyOf (transform o false) = keyOf obj) as K.
    { unfold keyOf at 1. rewrite Hmeta. exact (Hwf _ _ L). }
    rewrite bind_unfold.
    destruct (Patch c (transform o false) s) as [[[]|e|] s1] eqn:P;
      apply Patch_inv in P; rewrite K in P; clear K;
      destruct P as [(? & _ & ->)|(e' & ? & ->)]; simplify_eq;
      intros [= <- <-]; [left|right]; eauto.
    exists VerbPatched. unfold upsert, upserted. by rewrite L.
  - destruct (IsNotFound e) eqn:NF; [|intros [= <- <-]; eauto].
    assert (keyOf (transform obj true) = keyOf obj) as K.
    { unfold keyOf. by rewrite Hmeta. }
    rewrite bind_unfold.
    destruct (Create c (transform obj true) s) as [[[]|e1|] s1] eqn:P;
      apply Create_inv in P; rewrite K in P; clear K;
      destruct P as [(? & L & ->)|(e' & ? & ->)]; simplify_eq;
      intros [= <- <-]; [left|right]; eauto.
    exists VerbCreated. unfold upsert, upserted. by rewrite L.
  - destruct G as [(o & ? & _)|[[? _]|(e & ? & _)]]; simplify_eq.
Qed.
End client_facts.

(** ** The two clusters *)

Lemma World_eta w : mkWorld (hub w) (spoke w) = w.
Proof. by destruct w. Qed.

Lemma onSpoke_inv {A} (m : M Store A) w res w' :
  onSpoke m w = (res, w') → ∃ s', m (spoke w) = (res, s') ∧ w' = mkWorld (hub w) s'.
Proof. unfold onSpoke. destruct (m (spoke w)) as [res0 s0]. intros [= <- <-]. eauto. Qed.

Lemma keeps_hub_ret {A} (a : A) : keeps_hub (ret a).
Proof. by intros w. Qed.

Lemma keeps_hub_fail {A} e : keeps_hub (A:=A) (fail e).
Proof. by intros w. Qed.

Lemma keeps_hub_panic {A} : keeps_hub (A:=A) panic.
Proof. by intros w. Qed.

Lemma keeps_hub_bind {A B} (m : M World A) (k : A → M World B) :
  keeps_hub m → (∀ a, keeps_hub (k a)) → keeps_hub (bind m k).
Proof.
  intros Hm Hk w. rewrite bind_unfold. specialize (Hm w).
  destruct (m w) as [[a|e|] w1]; simpl in *; try done.
  by rewrite Hk.
Qed.

Lemma keeps_hub_attempt {A} (m : M World A) : keeps_hub m → keeps_hub (attempt m).
Proof.
  intros Hm w. unfold attempt. specialize (Hm w).
  by destruct (m w) as [[a|e|] w1].
Qed.

Lemma keeps_hub_forEach {A} (f : A → M World unit) xs :
  (∀ x, keeps_hub (f x)) → keeps_hub (forEach f xs).
Proof.
  intros Hf. induction xs as [|x xs IH]; simpl.
  - apply keeps_hub_ret.
  - apply keeps_hub_bind; auto.
Qed.

Lemma keeps_hub_index0 {A} (xs : list A) : keeps_hub (index0 xs).
Proof. destruct xs; [apply keeps_hub_panic | apply keeps_hub_ret]. Qed.

Lemma keeps_hub_onSpoke {A} (m : M Store A) : keeps_hub (onSpoke m).
Proof. intros w. unfold onSpoke. by destruct (m (spoke w)). Qed.

Lemma keeps_hub_onHub_Get {T} `{!Object T} c key : keeps_hub (onHub (Get (T:=T) c key)).
Proof.
  intros w. unfold onHub.
  destruct (Get c key (hub w)) as [res s'] eqn:G. by apply Get_inv in G as [-> _].
Qed.

Create HintDb keeps_hub.
#[export] Hint Resolve keeps_hub_ret keeps_hub_fail keeps_hub_panic keeps_hub_bind
  keeps_hub_attempt keeps_hub_forEach keeps_hub_index0 keeps_hub_onSpoke
  keeps_hub_onHub_Get : keeps_hub.

(** ** The controller *)

Section Controller_facts.
Variable SpokeAuthorizationFinalizer : string.
Variable GetUserIDAndHubOwnerIDFromLabelValues :
  ManagedClusterRoleBinding.t → string * string.

Local Abbreviation Reconcile :=
  (controller.Reconcile SpokeAuthorizationFinalizer GetUserIDAndHubOwnerIDFromLabelValues).
Local Abbreviation addFinalizerIfNeeded :=
  (controller.addFinalizerIfNeeded SpokeAuthorizationFinalizer).
Local Abbreviation deleteAssociatedResources := controller.deleteAssociatedResources.
Local Abbreviation sweep := controller.sweep.

Implicit Types (r : ManagedClusterRoleBindingReconciler) (req : Request) (w : World).
Implicit Types (managedCRB : ManagedClusterRoleBinding.t).

Lemma loads_inv r req w managedCRB :
  loads r req w managedCRB →
  managedClusterRoleBindings (hub w) !! NamespacedName req = Some managedCRB.
Proof.
  intros G. apply Get_inv in G as [_ [(o & ? & L & _)|[[? _]|(e & ? & _)]]]; by simplify_eq.
Qed.

Lemma onHub_loads r req w managedCRB :
  loads r req w managedCRB →
  onHub (Get (HubClient r) (NamespacedName req)) w = (Ok managedCRB, w).
Proof. intros G. unfold onHub. rewrite G. by rewrite World_eta. Qed.

Lemma keeps_hub_addFinalizerIfNeeded r managedCRB :
  keeps_hub (addFinalizerIfNeeded r managedCRB).
Proof. unfold controller.addFinalizerIfNeeded. case_match; eauto with keeps_hub. Qed.

Lemma keeps_hub_sweep T `{!Object T} r managedCRB : keeps_hub (sweep T r managedCRB).
Proof.
  unfold controller.sweep. apply keeps_hub_bind; [eauto with keeps_hub|].
  intros [e|items]; eauto with keeps_hub.
Qed.

Lemma keeps_hub_deleteAssociatedResources r managedCRB :
  keeps_hub (deleteAssociatedResources r managedCRB).
Proof.
  unfold controller.deleteAssociatedResources.
  repeat (apply keeps_hub_bind; [apply keeps_hub_sweep|intros _]).
  apply keeps_hub_ret.
Qed.

(** No invocation writes to the hub. *)
Lemma keeps_hub_Reconcile r req : keeps_hub (Reconcile r req).
Proof.
  unfold controller.Reconcile.
  apply keeps_hub_bind; [eauto with keeps_hub|]. intros managedCRB.
  apply keeps_hub_bind; [eauto with keeps_hub|]. intros subject0.
  destruct (ObjectMeta.DeletionTimestamp _).
  - apply keeps_hub_bind; [|eauto with keeps_hub].
    case_match; [|eauto with keeps_hub].
    apply keeps_hub_bind; [apply keeps_hub_deleteAssociatedResources|].
    eauto with keeps_hub.
  - apply keeps_hub_bind; [apply keeps_hub_addFinalizerIfNeeded|]. intros g'.
    apply keeps_hub_bind; [eauto with keeps_hub|]. intros done.
    apply keeps_hub_bind; [eauto with keeps_hub|]. intros _.
    apply keeps_hub_bind; [eauto with keeps_hub|]. intros s0.
    apply keeps_hub_bind; [|eauto with keeps_hub].
    destruct (ClusterRoleRef.Namespaces _); eauto 10 with keeps_hub.
Qed.

(** *** Loading the Grant *)

Lemma Reconcile_load_failed r req w e s' :
  Get (T:=ManagedClusterRoleBinding.t) (HubClient r) (NamespacedName req) (hub w)
    = (Fail e, s') →
  Reconcile r req w = (Fail e, w).
Proof.
  intros G. unfold controller.Reconcile. apply bind_fail.
  unfold onHub. rewrite G. apply Get_inv in G as [-> _]. by rewrite World_eta.
Qed.

Lemma no_panic_sweep T `{!Object T} r managedCRB : no_panic (sweep T r managedCRB).
Proof.
  unfold controller.sweep. apply no_panic_bind; [eauto with no_panic|].
  intros [e|items]; eauto with no_panic.
Qed.

Lemma no_panic_deleteAssociatedResources r managedCRB :
  no_panic (deleteAssociatedResources r managedCRB).
Proof.
  unfold controller.deleteAssociatedResources.
  repeat (apply no_panic_bind; [apply no_panic_sweep|intros _]).
  apply no_panic_ret.
Qed.

(** [addFinalizerIfNeeded] hands back the Grant it was given, up to the list
    of finalizers. *)
Lemma addFinalizerIfNeeded_inv r managedCRB w res w' :
  addFinalizerIfNeeded r managedCRB w = (res, w') →
  (∃ g', res = Ok g'
     ∧ ManagedClusterRoleBinding.Subjects g' = ManagedClusterRoleBinding.Subjects managedCRB
     ∧ ManagedClusterRoleBinding.RoleRef g' = ManagedClusterRoleBinding.RoleRef managedCRB
     ∧ ObjectMeta.Name (ManagedClusterRoleBinding.ObjectMeta g')
       = ObjectMeta.Name (ManagedClusterRoleBinding.ObjectMeta managedCRB)
     ∧ ObjectMeta.Labels (ManagedClusterRoleBinding.ObjectMeta g')
       = ObjectMeta.Labels (ManagedClusterRoleBinding.ObjectMeta managedCRB)
     ∧ ∃ m, w' = mkWorld (hub w) (setTable (T:=ManagedClusterRoleBinding.t) m (spoke w)))
  ∨ (∃ e, res = Fail e ∧ w' = w).
Proof.
  unfold controller.addFinalizerIfNeeded.
  destruct (ContainsFinalizer _ _) eqn:C; simpl.
  - intros [= <- <-]. left. exists managedCRB. repeat split; try done.
    exists (managedClusterRoleBindings (spoke w)). by destruct w as [? []].
  - rewrite bind_unfold.
    destruct (onSpoke _ w) as [[[]|e|] w1] eqn:U;
      apply onSpoke_inv in U as (s' & U & ->);
      apply Update_inv in U as [(? & _ & ->)|(e' & ? & ->)]; simplify_eq;
      intros [= <- <-].
    + left. eexists. repeat split; try done.
      * unfold AddFinalizer. by rewrite C.
      * unfold AddFinalizer. by rewrite C.
      * eauto.
    + right. rewrite World_eta. eauto.
Qed.

Lemma no_panic_Reconcile_loaded r req w managedCRB :
  loads r req w managedCRB →
  ManagedClusterRoleBinding.Subjects managedCRB ≠ [] →
  (Reconcile r req w).1 ≠ Panic.
Proof.
  intros L NE. unfold controller.Reconcile.
  rewrite (bind_ok _ _ _ _ _ (onHub_loads _ _ _ _ L)).
  destruct (ManagedClusterRoleBinding.Subjects managedCRB) as [|subject0 rest] eqn:S;
    [done|clear NE].
  rewrite (bind_ok _ _ _ subject0 w) by done.
  destruct (ObjectMeta.DeletionTimestamp _).
  - clear L. enter_no_panic w. apply no_panic_bind; [|eauto with no_panic].
    case_match; [|eauto with no_panic].
    apply no_panic_bind; [apply no_panic_deleteAssociatedResources|].
    eauto with no_panic.
  - rewrite bind_unfold.
    destruct (addFinalizerIfNeeded r managedCRB w) as [res w1] eqn:A.
    apply addFinalizerIfNeeded_inv in A
      as [(g' & -> & S' & _ & _ & _ & _)|(e & -> & ->)]; [|done].
    enter_no_panic w1. apply no_panic_bind; [eauto with no_panic|]. intros done.
    apply no_panic_bind; [eauto with no_panic|]. intros _.
    rewrite S', S.
    apply no_panic_bind; [eauto with no_panic|]. intros s0.
    apply no_panic_bind; [|eauto with no_panic].
    destruct (ClusterRoleRef.Namespaces _); eauto 10 with no_panic.
Qed.

Lemma Reconcile_no_subject r req w managedCRB :
  loads r req w managedCRB →
  ManagedClusterRoleBinding.Subjects managedCRB = [] →
  Reconcile r req w = (Panic, w).
Proof.
  intros L S. unfold controller.Reconcile.
  rewrite (bind_ok _ _ _ _ _ (onHub_loads _ _ _ _ L)). by rewrite S.
Qed.

(** *** The cleanup sweeper *)

Lemma forEach_app {S A} (f : A → M S unit) xs ys s :
  forEach f (xs ++ ys) s = bind (forEach f xs) (λ _, forEach f ys) s.
Proof.
  revert s. induction xs as [|x xs IH]; intros s; simpl; [done|].
  rewrite !bind_unfold. destruct (f x s) as [[[]|e|] s1]; try done.
  all: by rewrite IH, bind_unfold.
Qed.

Lemma forEach_cons {S A} (f : A → M S unit) x xs s :
  forEach f (x :: xs) s = bind (f x) (λ _, forEach f xs) s.
Proof. done. Qed.

Lemma forEach_ext {S A} (f g : A → M S unit) xs :
  (∀ x, f x = g x) → forEach f xs = forEach g xs.
Proof. intros E. induction xs as [|x xs IH]; simpl; [done|]. by rewrite E, IH. Qed.

(** A loop stops at the first item whose body fails; the items after it are
    not visited. *)
Lemma forEach_stops {S A} (f : A → M S unit) visited x rest s s1 e s2 :
  forEach f visited s = (Ok tt, s1) →
  f x s1 = (Fail e, s2) →
  forEach f (visited ++ x :: rest) s = (Fail e, s2).
Proof.
  intros V F. rewrite forEach_app, bind_unfold, V. simpl.
  by rewrite bind_unfold, F.
Qed.

Section sweep_facts.
Context (T : Type) `{!Object T} `{!LawfulObject T}.

Lemma attempt_List_inv r selector w :
  (∃ e, faults (SpokeClient r) (mkCall VList (kindOf T) ("", "")) = Some e
        ∧ attempt (onSpoke (List (T:=T) (SpokeClient r) selector)) w = (Ok (inl e), w)) ∨
  (faults (SpokeClient r) (mkCall VList (kindOf T) ("", "")) = None
   ∧ attempt (onSpoke (List (T:=T) (SpokeClient r) selector)) w
     = (Ok (inr (filter (λ o, Matches selector (labelsOf o))
                   (map_to_list (table (spoke w))).*2)), w)).
Proof.
  unfold attempt, onSpoke.
  destruct (List (SpokeClient r) selector (spoke w)) as [res s'] eqn:L.
  apply List_inv in L as [-> [[-> F]|(e & -> & F)]]; rewrite World_eta; eauto.
Qed.

Lemma sweep_list_failed r managedCRB w e s' :
  List (T:=T) (SpokeClient r)
    (SelectorFromSet (ObjectMeta.Labels (ManagedClusterRoleBinding.ObjectMeta managedCRB)))
    (spoke w) = (Fail e, s') →
  sweep T r managedCRB w = (Ok tt, w).
Proof.
  intros L. unfold controller.sweep. rewrite bind_unfold.
  destruct (attempt_List_inv r
              (SelectorFromSet (ObjectMeta.Labels
                 (ManagedClusterRoleBinding.ObjectMeta managedCRB))) w)
    as [(e' & F & ->)|[F A]]; [done|].
  apply List_inv in L as [_ [[? _]|(e' & _ & F')]]; [done|congruence].
Qed.

Lemma sweep_listed r managedCRB w items s' :
  List (T:=T) (SpokeClient r)
    (SelectorFromSet (ObjectMeta.Labels (ManagedClusterRoleBinding.ObjectMeta managedCRB)))
    (spoke w) = (Ok items, s') →
  sweep T r managedCRB w
  = forEach (λ item, onSpoke (Delete (SpokeClient r) item)) items w.
Proof.
  intros L. unfold controller.sweep. rewrite bind_unfold.
  destruct (attempt_List_inv r
              (SelectorFromSet (ObjectMeta.Labels
                 (ManagedClusterRoleBinding.ObjectMeta managedCRB))) w)
    as [(e' & F & ->)|[F ->]].
  - apply List_inv in L as [_ [[_ F']|(e'' & ? & _)]]; [congruence|done].
  - apply List_inv in L as [_ [[[= ->] _]|(e'' & ? & _)]]; done.
Qed.

(** Deleting objects of one kind touches the spoke's table of that kind and
    nothing else. *)
Lemma forEach_Delete_frame c (items : list T) w res w' :
  forEach (λ item, onSpoke (Delete c item)) items w = (res, w') →
  ∃ m, w' = mkWorld (hub w) (setTable (T:=T) m (spoke w)).
Proof.
  revert w. induction items as [|item items IH]; intros w; simpl.
  - intros [= <- <-]. exists (table (spoke w)). by rewrite setTable_table, World_eta.
  - rewrite bind_unfold.
    destruct (onSpoke (Delete c item) w) as [[[]|e|] w1] eqn:D;
      apply onSpoke_inv in D as (s1 & D & ->);
      apply Delete_inv in D as [(? & _ & ->)|(e' & ? & ->)]; simplify_eq.
    + intros F. apply IH in F as [m ->]. simpl.
      rewrite setTable_setTable. eauto.
    + intros [= <- <-]. exists (table (spoke w)). by rewrite setTable_table.
Qed.

Lemma sweep_frame r managedCRB w res w' :
  sweep T r managedCRB w = (res, w') →
  ∃ m, w' = mkWorld (hub w) (setTable (T:=T) m (spoke w)).
Proof.
  unfold controller.sweep. rewrite bind_unfold.
  destruct (attempt_List_inv r
              (SelectorFromSet (ObjectMeta.Labels
                 (ManagedClusterRoleBinding.ObjectMeta managedCRB))) w)
    as [(e' & F & ->)|[F ->]].
  - intros [= <- <-]. exists (table (spoke w)). by rewrite setTable_table, World_eta.
  - apply forEach_Delete_frame.
Qed.
End sweep_facts.

Lemma deleteAssociatedResources_first_failed r managedCRB w e w1 :
  sweep ServiceAccount.t r managedCRB w = (Fail e, w1) →
  deleteAssociatedResources r managedCRB w = (Fail e, w1).
Proof. intros S1. unfold controller.deleteAssociatedResources. by apply bind_fail. Qed.

Lemma deleteAssociatedResources_second_failed r managedCRB w w1 e w2 :
  sweep ServiceAccount.t r managedCRB w = (Ok tt, w1) →
  sweep ClusterRole.t r managedCRB w1 = (Fail e, w2) →
  deleteAssociatedResources r managedCRB w = (Fail e, w2).
Proof.
  intros S1 S2. unfold controller.deleteAssociatedResources.
  rewrite (bind_ok _ _ _ _ _ S1). by apply bind_fail.
Qed.

Lemma deleteAssociatedResources_third r managedCRB w w1 w2 res w3 :
  sweep ServiceAccount.t r managedCRB w = (Ok tt, w1) →
  sweep ClusterRole.t r managedCRB w1 = (Ok tt, w2) →
  sweep ClusterRoleBinding.t r managedCRB w2 = (res, w3) →
  deleteAssociatedResources r managedCRB w = (res, w3).
Proof.
  intros S1 S2 S3. unfold controller.deleteAssociatedResources.
  rewrite (bind_ok _ _ _ _ _ S1), (bind_ok _ _ _ _ _ S2), bind_unfold, S3.
  by destruct res as [[]| |].
Qed.

(** The sweeper leaves the hub, and the spoke's Grants and role bindings,
    as they are. *)
Lemma deleteAssociatedResources_frame r managedCRB w res w' :
  deleteAssociatedResources r managedCRB w = (res, w') →
  hub w' = hub w
  ∧ managedClusterRoleBindings (spoke w') = managedClusterRoleBindings (spoke w)
  ∧ roleBindings (spoke w') = roleBindings (spoke w).
Proof.
  unfold controller.deleteAssociatedResources. rewrite bind_unfold.
  destruct (sweep ServiceAccount.t r managedCRB w) as [res1 w1] eqn:S1.
  apply sweep_frame in S1 as [m1 ->]; [|apply _].
  destruct res1 as [[]|e|]; [|by intros [= <- <-]..].
  rewrite bind_unfold.
  destruct (sweep ClusterRole.t r managedCRB _) as [res2 w2] eqn:S2.
  apply sweep_frame in S2 as [m2 ->]; [|apply _].
  destruct res2 as [[]|e|]; [|by intros [= <- <-]..].
  rewrite bind_unfold.
  destruct (sweep ClusterRoleBinding.t r managedCRB _) as [res3 w3] eqn:S3.
  apply sweep_frame in S3 as [m3 ->]; [|apply _].
  destruct res3 as [[]|e|]; by intros [= <- <-].
Qed.

(** *** One write of the materialiser *)

Section upsert_facts.
Context {T : Type} `{!Object T} `{!LawfulObject T}.
Implicit Types (obj : T) (m : gmap ObjectKey T) (transform : T → bool → T).

Lemma upsert_lookup obj transform m :
  upsert obj transform m !! keyOf obj = Some (upserted obj transform m).
Proof. unfold upsert. apply lookup_insert_eq. Qed.

Lemma upsert_lookup_ne obj transform m k :
  k ≠ keyOf obj → upsert obj transform m !! k = m !! k.
Proof. intros NE. unfold upsert. by apply lookup_insert_ne. Qed.

Lemma upserted_meta obj transform m :
  (∀ o b, GetObjectMeta (transform o b) = GetObjectMeta o) →
  GetObjectMeta (upserted obj transform m)
  = match m !! keyOf obj with
    | Some cur => GetObjectMeta cur
    | None => GetObjectMeta obj
    end.
Proof. intros Hmeta. unfold upserted. by destruct (m !! keyOf obj); rewrite Hmeta. Qed.

Lemma upserted_key obj transform m :
  wf_table m →
  (∀ o b, GetObjectMeta (transform o b) = GetObjectMeta o) →
  keyOf (upserted obj transform m) = keyOf obj.
Proof.
  intros Hwf Hmeta. unfold keyOf at 1. rewrite upserted_meta by done.
  destruct (m !! keyOf obj) as [cur|] eqn:L; [|done]. exact (Hwf _ _ L).
Qed.

Lemma wf_upsert obj transform m :
  wf_table m →
  (∀ o b, GetObjectMeta (transform o b) = GetObjectMeta o) →
  wf_table (upsert obj transform m).
Proof.
  intros Hwf Hmeta k o. destruct (decide (k = keyOf obj)) as [->|NE].
  - rewrite upsert_lookup. intros [= <-]. by apply upserted_key.
  - rewrite upsert_lookup_ne by done. apply Hwf.
Qed.

(** A write that finds what it would write changes nothing. *)
Lemma upsert_settled obj transform m cur :
  m !! keyOf obj = Some cur → transform cur false = cur →
  upsert obj transform m = m.
Proof.
  intros L Fix. unfold upsert, upserted. rewrite L, Fix. by apply insert_id.
Qed.

Lemma applied_settled obj transform s cur :
  table s !! keyOf obj = Some cur → transform cur false = cur →
  applied obj transform s = s.
Proof.
  intros L Fix. unfold applied. rewrite (upsert_settled _ _ _ _ L Fix).
  apply setTable_table.
Qed.

Lemma onSpoke_CreateOrPatch_inv c obj transform w res w' :
  wf_table (table (T:=T) (spoke w)) →
  (∀ o b, GetObjectMeta (transform o b) = GetObjectMeta o) →
  onSpoke (CreateOrPatch c obj transform) w = (res, w') →
  (∃ v, res = Ok (v, upserted obj transform (table (spoke w)))
        ∧ w' = mkWorld (hub w) (applied obj transform (spoke w))) ∨
  (∃ e, res = Fail e ∧ w' = w).
Proof.
  intros Hwf Hmeta E. apply onSpoke_inv in E as (s' & E & ->).
  apply CreateOrPatch_inv in E as [(v & -> & ->)|(e & -> & ->)]; try done.
  - left. eauto.
  - right. rewrite World_eta. eauto.
Qed.
End upsert_facts.

Lemma copyRules_meta desired o b :
  GetObjectMeta (copyRules desired o b) = GetObjectMeta o.
Proof. done. Qed.

Lemma copyClusterBinding_meta desired o b :
  GetObjectMeta (copyClusterBinding desired o b) = GetObjectMeta o.
Proof. done. Qed.

Lemma copyBinding_meta desired o b :
  GetObjectMeta (copyBinding desired o b) = GetObjectMeta o.
Proof. done. Qed.

Lemma wf_store_applied_ClusterRole obj desired s :
  wf_store s → wf_store (applied obj (copyRules desired) s).
Proof.
  intros (? & ? & ? & ? & ?). repeat split; try done.
  apply (wf_upsert (T:=ClusterRole.t)); [done|apply copyRules_meta].
Qed.

Lemma wf_store_applied_ClusterRoleBinding obj desired s :
  wf_store s → wf_store (applied obj (copyClusterBinding desired) s).
Proof.
  intros (? & ? & ? & ? & ?). repeat split; try done.
  apply (wf_upsert (T:=ClusterRoleBinding.t)); [done|apply copyClusterBinding_meta].
Qed.

Lemma wf_store_applied_RoleBinding obj desired s :
  wf_store s → wf_store (applied obj (copyBinding desired) s).
Proof.
  intros (? & ? & ? & ? & ?). repeat split; try done.
  apply (wf_upsert (T:=RoleBinding.t)); [done|apply copyBinding_meta].
Qed.

Lemma run_cons f fs s : run (f :: fs) s = run fs (f s).
Proof. done. Qed.

Lemma run_app fs gs s : run (fs ++ gs) s = run gs (run fs s).
Proof. unfold run. apply foldl_app. Qed.

Lemma run_bindings managedCRB userName namespaces s :
  run ((λ ns, let given := desiredBinding managedCRB userName ns in
              applied given (copyBinding given)) <$> namespaces) s
  = setTable (T:=RoleBinding.t)
      (foldl (λ m ns, let given := desiredBinding managedCRB userName ns in
                      upsert given (copyBinding given) m)
         (roleBindings s) namespaces) s.
Proof.
  revert s. induction namespaces as [|ns namespaces IH]; intros s.
  - by destruct s.
  - rewrite fmap_cons, run_cons, IH. by destruct s.
Qed.

Lemma run_steps managedCRB userName hubOwnerID s :
  run (steps managedCRB userName hubOwnerID) s
  = materialized managedCRB userName hubOwnerID s.
Proof.
  unfold steps, materialized. rewrite run_app.
  destruct (ClusterRoleRef.Namespaces _) as [namespaces|].
  - rewrite run_bindings. by destruct s.
  - by destruct s.
Qed.

(** *** The materialising branch of [Reconcile] *)

(** The loop over the Grant's namespaces performs the writes of a prefix of
    the list, all of it when it succeeds. *)
Lemma forEach_bindings_inv c managedCRB userName namespaces w res w' :
  wf_store (spoke w) →
  forEach (λ ns,
    let given := givenRolebinding managedCRB [userSubject userName] ns in
    bind (onSpoke (CreateOrPatch c given
                     (λ in_ _, RoleBinding.withRoleRef (RoleBinding.RoleRef given)
                                 (RoleBinding.withSubjects (RoleBinding.Subjects given) in_))))
      (λ _, ret tt)) namespaces w = (res, w') →
  ∃ written,
    written `prefix_of`
      ((λ ns, let given := desiredBinding managedCRB userName ns in
              applied given (copyBinding given)) <$> namespaces)
    ∧ w' = mkWorld (hub w) (run written (spoke w))
    ∧ ((res = Ok tt
        ∧ written = (λ ns, let given := desiredBinding managedCRB userName ns in
                           applied given (copyBinding given)) <$> namespaces)
       ∨ ∃ e, res = Fail e).
Proof.
  revert w res w'. induction namespaces as [|ns namespaces IH]; intros w res w' Hwf.
  - intros [= <- <-]. exists []. rewrite World_eta. split; [done|]. split; [done|]. by left.
  - rewrite forEach_cons. cbv zeta. rewrite bind_unfold, bind_unfold.
    destruct (onSpoke _ w) as [res1 w1] eqn:E.
    apply (onSpoke_CreateOrPatch_inv (T:=RoleBinding.t)) in E
      as [(v & -> & ->)|(e & -> & ->)]; [| |apply Hwf|done].
    + intros F. apply IH in F as (written & P & -> & R).
      2:{ exact (wf_store_applied_RoleBinding
                   (desiredBinding managedCRB userName ns)
                   (desiredBinding managedCRB userName ns) _ Hwf). }
      eexists (_ :: written). split; [by apply prefix_cons|]. split; [done|].
      destruct R as [[-> ->]|[e ->]]; [by left|eauto].
    + intros [= <- <-]. exists []. rewrite World_eta.
      split; [apply prefix_nil|]. split; [done|]. eauto.
Qed.

Lemma wf_store_setTable_Grants m s :
  wf_table (T:=ManagedClusterRoleBinding.t) m → wf_store s →
  wf_store (setTable (T:=ManagedClusterRoleBinding.t) m s).
Proof. intros ? (? & ? & ? & ? & ?). by repeat split. Qed.

Lemma addFinalizerIfNeeded_wf r managedCRB w g' w' :
  wf_store (spoke w) →
  addFinalizerIfNeeded r managedCRB w = (Ok g', w') →
  wf_store (spoke w').
Proof.
  intros Hwf. unfold controller.addFinalizerIfNeeded.
  destruct (ContainsFinalizer _ _) eqn:C; simpl.
  - by intros [= <- <-].
  - rewrite bind_unfold.
    destruct (onSpoke _ w) as [[[]|e|] w1] eqn:U; [|done..].
    apply onSpoke_inv in U as (s' & U & ->).
    apply Update_inv in U as [(_ & _ & ->)|(e' & ? & ->)]; [|done].
    intros [= <- <-]. simpl. apply wf_store_setTable_Grants; [|done].
    intros k o. destruct Hwf as [Hwf _].
    destruct (decide (k = keyOf (ManagedClusterRoleBinding.withObjectMeta
                         (AddFinalizer (ManagedClusterRoleBinding.ObjectMeta managedCRB)
                            SpokeAuthorizationFinalizer) managedCRB))) as [->|NE].
    + rewrite lookup_insert_eq. by intros [= <-].
    + rewrite lookup_insert_ne by done. apply Hwf.
Qed.

(** A run of the materialising branch either stops at the finalizer, or
    performs a prefix of [steps] on the spoke, all of them when it succeeds. *)
Lemma Reconcile_materialize_inv r req w managedCRB subject0 others res w' :
  loads r req w managedCRB →
  ObjectMeta.DeletionTimestamp (ManagedClusterRoleBinding.ObjectMeta managedCRB) = None →
  ManagedClusterRoleBinding.Subjects managedCRB = subject0 :: others →
  wf_store (spoke w) →
  Reconcile r req w = (res, w') →
  (∃ e, addFinalizerIfNeeded r managedCRB w = (Fail e, w) ∧ res = Fail e ∧ w' = w) ∨
  (∃ g' wA written,
      addFinalizerIfNeeded r managedCRB w = (Ok g', wA)
      ∧ written `prefix_of`
          steps managedCRB (Subject.Name subject0)
            (GetUserIDAndHubOwnerIDFromLabelValues managedCRB).2
      ∧ w' = mkWorld (hub w) (run written (spoke wA))
      ∧ ((res = Ok emptyResult
          ∧ written = steps managedCRB (Subject.Name subject0)
                        (GetUserIDAndHubOwnerIDFromLabelValues managedCRB).2)
         ∨ ∃ e, res = Fail e)).
Proof.
  intros L D S Hwf. unfold controller.Reconcile.
  rewrite (bind_ok _ _ _ _ _ (onHub_loads _ _ _ _ L)), S.
  rewrite (bind_ok _ _ _ subject0 w) by done. rewrite D.
  set (userName := Subject.Name subject0).
  set (hubOwnerID := (GetUserIDAndHubOwnerIDFromLabelValues managedCRB).2).
  rewrite bind_unfold.
  destruct (addFinalizerIfNeeded r managedCRB w) as [resA wA] eqn:A.
  pose proof A as A'.
  apply addFinalizerIfNeeded_inv in A'
    as [(g' & -> & S' & RR & N & LB & m & HwA)|(e & -> & ->)];
    cbv beta iota zeta; [|intros [= <- <-]; left; eauto].
  pose proof (addFinalizerIfNeeded_wf _ _ _ _ _ Hwf A) as HwfA.
  assert (hub wA = hub w) as HhA by (by rewrite HwA).
  intros H. right. exists g', wA. revert H.
  assert (impersonateClusterRole g' userName hubOwnerID
          = desiredClusterRole managedCRB userName hubOwnerID) as ->.
  { unfold desiredClusterRole, impersonateClusterRole. by rewrite LB. }
  set (cr := desiredClusterRole managedCRB userName hubOwnerID).
  rewrite bind_unfold.
  destruct (onSpoke _ wA) as [res1 w1] eqn:E1.
  apply (onSpoke_CreateOrPatch_inv (T:=ClusterRole.t)) in E1
    as [(v1 & -> & ->)|(e & -> & ->)]; [| |apply HwfA|done]; cycle 1.
  { intros [= <- <-]. exists []. rewrite <- HhA, World_eta.
    split; [done|]. split; [apply prefix_nil|]. split; [done|]. eauto. }
  cbn [snd].
  assert (impersonateClusterRoleBinding g' userName hubOwnerID
            (upserted cr (λ in_ _, ClusterRole.withRules (ClusterRole.Rules cr) in_)
               (table (spoke wA)))
          = desiredImpersonateBinding managedCRB userName hubOwnerID) as ->.
  { unfold desiredImpersonateBinding, impersonateClusterRoleBinding. rewrite LB.
    do 2 f_equal.
    pose proof (upserted_key (T:=ClusterRole.t) cr (copyRules cr) (table (spoke wA)))
      as K. unfold keyOf, ObjectMeta.key in K.
    destruct HwfA as (_ & _ & HwfCR & _).
    specialize (K HwfCR (copyRules_meta cr)). injection K as _ K. exact K. }
  set (crb := desiredImpersonateBinding managedCRB userName hubOwnerID).
  pose proof (wf_store_applied_ClusterRole cr cr _ HwfA) as Hwf1.
  rewrite bind_unfold.
  destruct (onSpoke _ _) as [res2 w2] eqn:E2.
  apply (onSpoke_CreateOrPatch_inv (T:=ClusterRoleBinding.t)) in E2
    as [(v2 & -> & ->)|(e & -> & ->)]; [| |apply Hwf1|done]; cycle 1.
  { intros [= <- <-]. exists [applied cr (copyRules cr)]. cbn [hub spoke]. rewrite HhA.
    split; [done|]. split; [by eexists|]. split; [done|]. eauto. }
  cbn [hub spoke].
  pose proof (wf_store_applied_ClusterRoleBinding crb crb _ Hwf1) as Hwf2.
  rewrite S', S. rewrite (bind_ok _ _ _ subject0 _) by done.
  fold userName. rewrite RR.
  rewrite bind_unfold.
  destruct (ClusterRoleRef.Namespaces (ManagedClusterRoleBinding.RoleRef managedCRB))
    as [namespaces|] eqn:NS.
  - assert (∀ ns, givenRolebinding g' [userSubject userName] ns
                  = givenRolebinding managedCRB [userSubject userName] ns) as EQ.
    { intros ns. unfold givenRolebinding. by rewrite LB, N, RR. }
    erewrite (forEach_ext _ _ namespaces); cycle 1.
    { intros ns. rewrite (EQ ns). reflexivity. }
    destruct (forEach _ namespaces _) as [res3 w3] eqn:E3.
    apply forEach_bindings_inv in E3 as (written & P & -> & R); [|apply Hwf2].
    intros H.
    exists ([applied cr (copyRules cr); applied crb (copyClusterBinding crb)] ++ written).
    split; [done|]. unfold steps. rewrite NS. fold cr crb.
    split; [by apply prefix_app|].
    rewrite run_app. cbn [hub spoke] in H. rewrite HhA in H.
    destruct R as [[-> ->]|[e ->]]; cbv beta iota in H; injection H as <- <-;
      (split; [done|]); eauto.
  - assert (givenClusterRolebinding g' [userSubject userName]
            = desiredClusterBinding managedCRB userName) as ->.
    { unfold desiredClusterBinding, givenClusterRolebinding. by rewrite LB, N, RR. }
    set (given := desiredClusterBinding managedCRB userName).
    rewrite bind_unfold.
    destruct (onSpoke _ _) as [res3 w3] eqn:E3.
    apply (onSpoke_CreateOrPatch_inv (T:=ClusterRoleBinding.t)) in E3
      as [(v3 & -> & ->)|(e & -> & ->)]; [| |apply Hwf2|done].
    + intros [= <- <-]. eexists. split; [done|]. unfold steps. rewrite NS.
      fold cr crb given. split; [done|]. cbn [hub spoke]. rewrite HhA.
      split; [done|]. by left.
    + intros [= <- <-].
      exists [applied cr (copyRules cr); applied crb (copyClusterBinding crb)].
      split; [done|]. unfold steps. rewrite NS. fold cr crb.
      split; [by eexists|]. cbn [hub spoke]. rewrite HhA. split; [done|]. eauto.
Qed.

(** *** What the writes leave in each table *)

Lemma upserted_copyRules desired m :
  ClusterRole.Rules (upserted desired (copyRules desired) m) = ClusterRole.Rules desired.
Proof. unfold upserted. by destruct (m !! keyOf desired). Qed.

Lemma upserted_copyClusterBinding desired m :
  ClusterRoleBinding.Subjects (upserted desired (copyClusterBinding desired) m)
  = ClusterRoleBinding.Subjects desired
  ∧ ClusterRoleBinding.RoleRef (upserted desired (copyClusterBinding desired) m)
    = ClusterRoleBinding.RoleRef desired.
Proof. unfold upserted. by destruct (m !! keyOf desired). Qed.

Lemma upserted_copyBinding desired m :
  RoleBinding.Subjects (upserted desired (copyBinding desired) m)
  = RoleBinding.Subjects desired
  ∧ RoleBinding.RoleRef (upserted desired (copyBinding desired) m)
    = RoleBinding.RoleRef desired.
Proof. unfold upserted. by destruct (m !! keyOf desired). Qed.

(** A mutator leaves alone an object that already has what it copies. *)
Lemma copyRules_fixed desired o b :
  ClusterRole.Rules o = ClusterRole.Rules desired → copyRules desired o b = o.
Proof. destruct o. simpl. by intros ->. Qed.

Lemma copyClusterBinding_fixed desired o b :
  ClusterRoleBinding.Subjects o = ClusterRoleBinding.Subjects desired →
  ClusterRoleBinding.RoleRef o = ClusterRoleBinding.RoleRef desired →
  copyClusterBinding desired o b = o.
Proof. destruct o. simpl. by intros -> ->. Qed.

Lemma copyBinding_fixed desired o b :
  RoleBinding.Subjects o = RoleBinding.Subjects desired →
  RoleBinding.RoleRef o = RoleBinding.RoleRef desired →
  copyBinding desired o b = o.
Proof. destruct o. simpl. by intros -> ->. Qed.

Section materialized_facts.
Variables (managedCRB : ManagedClusterRoleBinding.t) (userName hubOwnerID : string).

Local Abbreviation grantName :=
  (ObjectMeta.Name (ManagedClusterRoleBinding.ObjectMeta managedCRB)).
Local Abbreviation grantLabels :=
  (ObjectMeta.Labels (ManagedClusterRoleBinding.ObjectMeta managedCRB)).
Local Abbreviation roleName :=
  (ClusterRoleRef.Name (ManagedClusterRoleBinding.RoleRef managedCRB)).
Local Abbreviation grantNamespaces :=
  (ClusterRoleRef.Namespaces (ManagedClusterRoleBinding.RoleRef managedCRB)).
Local Abbreviation upsertBinding :=
  (λ m ns, let given := desiredBinding managedCRB userName ns in
           upsert given (copyBinding given) m).

Lemma materialized_clusterRole s :
  ∃ cr,
    clusterRoles (materialized managedCRB userName hubOwnerID s)
      !! ("", impersonateName userName hubOwnerID) = Some cr
    ∧ ClusterRole.Rules cr = [PolicyRule.mk ["impersonate"] [""] ["users"] [userName]]
    ∧ GetObjectMeta cr
      = match clusterRoles s !! ("", impersonateName userName hubOwnerID) with
        | Some old => GetObjectMeta old
        | None => ObjectMeta.mk (impersonateName userName hubOwnerID) "" grantLabels None []
        end.
Proof.
  set (cr := desiredClusterRole managedCRB userName hubOwnerID).
  exists (upserted cr (copyRules cr) (clusterRoles s)). split; [|split].
  - exact (upsert_lookup (T:=ClusterRole.t) cr (copyRules cr) (clusterRoles s)).
  - apply upserted_copyRules.
  - exact (upserted_meta (T:=ClusterRole.t) cr _ _ (copyRules_meta cr)).
Qed.

Lemma materialized_clusterRoles_other s k :
  k ≠ ("", impersonateName userName hubOwnerID) →
  clusterRoles (materialized managedCRB userName hubOwnerID s) !! k = clusterRoles s !! k.
Proof.
  intros NE.
  exact (upsert_lookup_ne (T:=ClusterRole.t)
           (desiredClusterRole managedCRB userName hubOwnerID) _ _ _ NE).
Qed.

Lemma materialized_impersonateBinding s :
  (grantNamespaces = None → grantName ≠ impersonateBindingName userName hubOwnerID) →
  ∃ crb,
    clusterRoleBindings (materialized managedCRB userName hubOwnerID s)
      !! ("", impersonateBindingName userName hubOwnerID) = Some crb
    ∧ ClusterRoleBinding.Subjects crb = [gatewaySubject]
    ∧ ClusterRoleBinding.RoleRef crb
      = RoleRef.mk rbac_GroupName "ClusterRole" (impersonateName userName hubOwnerID)
    ∧ GetObjectMeta crb
      = match clusterRoleBindings s !! ("", impersonateBindingName userName hubOwnerID) with
        | Some old => GetObjectMeta old
        | None =>
            ObjectMeta.mk (impersonateBindingName userName hubOwnerID) "" grantLabels None []
        end.
Proof.
  intros NC. set (crb := desiredImpersonateBinding managedCRB userName hubOwnerID).
  exists (upserted crb (copyClusterBinding crb) (clusterRoleBindings s)).
  split; [|split; [|split]].
  - unfold materialized. cbn [clusterRoleBindings]. fold crb.
    change ("", impersonateBindingName userName hubOwnerID) with (keyOf crb).
    destruct grantNamespaces.
    + apply (upsert_lookup (T:=ClusterRoleBinding.t)).
    + rewrite (upsert_lookup_ne (T:=ClusterRoleBinding.t)).
      * apply (upsert_lookup (T:=ClusterRoleBinding.t)).
      * intros [= E]. by apply NC.
  - apply upserted_copyClusterBinding.
  - apply upserted_copyClusterBinding.
  - exact (upserted_meta (T:=ClusterRoleBinding.t) crb _ _ (copyClusterBinding_meta crb)).
Qed.

Lemma materialized_clusterBinding s :
  grantNamespaces = None →
  ∃ b,
    clusterRoleBindings (materialized managedCRB userName hubOwnerID s) !! ("", grantName)
      = Some b
    ∧ ClusterRoleBinding.Subjects b = [userSubject userName]
    ∧ ClusterRoleBinding.RoleRef b = RoleRef.mk rbac_GroupName "ClusterRole" roleName
    ∧ labelsOf b
      = match clusterRoleBindings s !! ("", grantName) with
        | Some old => labelsOf old
        | None => grantLabels
        end.
Proof.
  intros NS. set (crb := desiredImpersonateBinding managedCRB userName hubOwnerID).
  set (given := desiredClusterBinding managedCRB userName).
  set (bound := upsert crb (copyClusterBinding crb) (clusterRoleBindings s)).
  exists (upserted given (copyClusterBinding given) bound).
  split; [|split; [|split]].
  - unfold materialized. cbn [clusterRoleBindings]. rewrite NS.
    exact (upsert_lookup (T:=ClusterRoleBinding.t) given _ _).
  - apply upserted_copyClusterBinding.
  - apply upserted_copyClusterBinding.
  - unfold labelsOf. rewrite (upserted_meta (T:=ClusterRoleBinding.t))
      by apply copyClusterBinding_meta.
    change (keyOf given) with ("", grantName). unfold bound.
    destruct (decide (("", grantName) = keyOf crb)) as [E|NE].
    + rewrite E, (upsert_lookup (T:=ClusterRoleBinding.t)).
      rewrite (upserted_meta (T:=ClusterRoleBinding.t)) by apply copyClusterBinding_meta.
      by destruct (clusterRoleBindings s !! keyOf crb).
    + rewrite (upsert_lookup_ne (T:=ClusterRoleBinding.t)) by done.
      by destruct (clusterRoleBindings s !! ("", grantName)).
Qed.

Lemma materialized_clusterRoleBindings_other s k :
  k ≠ ("", impersonateBindingName userName hubOwnerID) →
  (grantNamespaces = None → k ≠ ("", grantName)) →
  clusterRoleBindings (materialized managedCRB userName hubOwnerID s) !! k
  = clusterRoleBindings s !! k.
Proof.
  intros NE1 NE2. unfold materialized. cbn [clusterRoleBindings].
  destruct grantNamespaces.
  - by apply (upsert_lookup_ne (T:=ClusterRoleBinding.t)).
  - rewrite (upsert_lookup_ne (T:=ClusterRoleBinding.t)) by (by apply NE2).
    by apply (upsert_lookup_ne (T:=ClusterRoleBinding.t)).
Qed.

Lemma foldl_upsertBinding_other namespaces m k :
  (∀ ns, ns ∈ namespaces → k ≠ (ns, grantName)) →
  foldl upsertBinding m namespaces !! k = m !! k.
Proof.
  revert m. induction namespaces as [|n rest IH]; intros m NE; [done|].
  cbn [foldl]. rewrite IH by (intros ns ?; apply NE; by right).
  apply (upsert_lookup_ne (T:=RoleBinding.t)), NE. by left.
Qed.

Lemma foldl_upsertBinding_lookup namespaces m ns :
  ns ∈ namespaces →
  ∃ rb,
    foldl upsertBinding m namespaces !! (ns, grantName) = Some rb
    ∧ RoleBinding.Subjects rb = [userSubject userName]
    ∧ RoleBinding.RoleRef rb = RoleRef.mk rbac_GroupName "Role" roleName
    ∧ GetObjectMeta rb
      = match m !! (ns, grantName) with
        | Some old => GetObjectMeta old
        | None => ObjectMeta.mk grantName ns grantLabels None []
        end.
Proof.
  revert m. induction namespaces as [|n rest IH]; intros m IN; [by apply elem_of_nil in IN|].
  cbn [foldl].
  set (given := desiredBinding managedCRB userName n).
  destruct (decide (ns ∈ rest)) as [INr|NINr].
  - destruct (IH (upsert given (copyBinding given) m) INr) as (rb & L & SU & RR & ME).
    exists rb. repeat (split; [done|]). rewrite ME.
    destruct (decide (n = ns)) as [->|NE].
    + change (ns, grantName) with (keyOf given).
      rewrite (upsert_lookup (T:=RoleBinding.t)).
      rewrite (upserted_meta (T:=RoleBinding.t)) by apply copyBinding_meta.
      by destruct (m !! keyOf given).
    + rewrite (upsert_lookup_ne (T:=RoleBinding.t)); [done|].
      intros [= E]. by apply NE.
  - assert (n = ns) as -> by (apply elem_of_cons in IN as [->|?]; done).
    rewrite foldl_upsertBinding_other; cycle 1.
    { intros ns' IN' [= ->]. done. }
    exists (upserted given (copyBinding given) m). split; [|split; [|split]].
    + exact (upsert_lookup (T:=RoleBinding.t) given _ _).
    + apply upserted_copyBinding.
    + apply upserted_copyBinding.
    + exact (upserted_meta (T:=RoleBinding.t) given _ _ (copyBinding_meta given)).
Qed.

Lemma materialized_bindings s namespaces ns :
  grantNamespaces = Some namespaces → ns ∈ namespaces →
  ∃ rb,
    roleBindings (materialized managedCRB userName hubOwnerID s) !! (ns, grantName) = Some rb
    ∧ RoleBinding.Subjects rb = [userSubject userName]
    ∧ RoleBinding.RoleRef rb = RoleRef.mk rbac_GroupName "Role" roleName
    ∧ GetObjectMeta rb
      = match roleBindings s !! (ns, grantName) with
        | Some old => GetObjectMeta old
        | None => ObjectMeta.mk grantName ns grantLabels None []
        end.
Proof.
  intros NS IN. unfold materialized. cbn [roleBindings]. rewrite NS.
  by apply foldl_upsertBinding_lookup.
Qed.

Lemma materialized_bindings_other s namespaces k :
  grantNamespaces = Some namespaces →
  (∀ ns, ns ∈ namespaces → k ≠ (ns, grantName)) →
  roleBindings (materialized managedCRB userName hubOwnerID s) !! k = roleBindings s !! k.
Proof.
  intros NS NE. unfold materialized. cbn [roleBindings]. rewrite NS.
  by apply foldl_upsertBinding_other.
Qed.

Lemma materialized_roleBindings_cluster_wide s :
  grantNamespaces = None →
  roleBindings (materialized managedCRB userName hubOwnerID s) = roleBindings s.
Proof. intros NS. unfold materialized. cbn [roleBindings]. by rewrite NS. Qed.
End materialized_facts.

(** *** Running the writes again *)

Lemma steps_wf managedCRB userName hubOwnerID f s :
  f ∈ steps managedCRB userName hubOwnerID → wf_store s → wf_store (f s).
Proof.
  unfold steps. intros IN Hwf.
  apply elem_of_app in IN as [IN|IN].
  - apply elem_of_cons in IN as [->|IN]; [by apply wf_store_applied_ClusterRole|].
    apply list_elem_of_singleton in IN as ->.
    by apply wf_store_applied_ClusterRoleBinding.
  - destruct (ClusterRoleRef.Namespaces _) as [namespaces|].
    + apply list_elem_of_fmap in IN as (ns & -> & _).
      by apply wf_store_applied_RoleBinding.
    + apply list_elem_of_singleton in IN as ->.
      by apply wf_store_applied_ClusterRoleBinding.
Qed.

Lemma run_wf fs s :
  (∀ f s', f ∈ fs → wf_store s' → wf_store (f s')) → wf_store s → wf_store (run fs s).
Proof.
  revert s. induction fs as [|f fs IH]; intros s Hf Hwf; [done|].
  rewrite run_cons. apply IH.
  - intros g s' IN. apply Hf. by right.
  - apply Hf; [by left|done].
Qed.

Lemma wf_store_materialized managedCRB userName hubOwnerID s :
  wf_store s → wf_store (materialized managedCRB userName hubOwnerID s).
Proof.
  intros Hwf. rewrite <- run_steps. apply run_wf; [|done].
  intros f s'. apply steps_wf.
Qed.

(** Writes that each change nothing change nothing together, however many
    of them are performed. *)
Lemma run_settled fs written s :
  (∀ f, f ∈ fs → f s = s) → written `prefix_of` fs → run written s = s.
Proof.
  intros Hf [rest ->]. induction written as [|f written IH]; [done|].
  rewrite run_cons, Hf by (by left). apply IH.
  intros g IN. apply Hf. by right.
Qed.

(** After a full run, every write of the run finds what it would write,
    unless the Grant's own cluster-wide binding goes by the name of the
    impersonation binding. *)
Lemma steps_settled managedCRB userName hubOwnerID s f :
  (ClusterRoleRef.Namespaces (ManagedClusterRoleBinding.RoleRef managedCRB) = None →
   ObjectMeta.Name (ManagedClusterRoleBinding.ObjectMeta managedCRB)
   ≠ impersonateBindingName userName hubOwnerID) →
  f ∈ steps managedCRB userName hubOwnerID →
  f (materialized managedCRB userName hubOwnerID s)
  = materialized managedCRB userName hubOwnerID s.
Proof.
  intros NC IN. unfold steps in IN.
  apply elem_of_app in IN as [IN|IN].
  - apply elem_of_cons in IN as [->|IN].
    + destruct (materialized_clusterRole managedCRB userName hubOwnerID s)
        as (cr & L & R & _).
      apply (applied_settled (T:=ClusterRole.t) _ _ _ cr); [exact L|].
      by apply copyRules_fixed.
    + apply list_elem_of_singleton in IN as ->.
      destruct (materialized_impersonateBinding managedCRB userName hubOwnerID s NC)
        as (crb & L & SU & RR & _).
      apply (applied_settled (T:=ClusterRoleBinding.t) _ _ _ crb); [exact L|].
      by apply copyClusterBinding_fixed.
  - destruct (ClusterRoleRef.Namespaces _) as [namespaces|] eqn:NS.
    + apply list_elem_of_fmap in IN as (ns & -> & IN).
      destruct (materialized_bindings managedCRB userName hubOwnerID s namespaces ns NS IN)
        as (rb & L & SU & RR & _).
      apply (applied_settled (T:=RoleBinding.t) _ _ _ rb); [exact L|].
      by apply copyBinding_fixed.
    + apply list_elem_of_singleton in IN as ->.
      destruct (materialized_clusterBinding managedCRB userName hubOwnerID s NS)
        as (b & L & SU & RR & _).
      apply (applied_settled (T:=ClusterRoleBinding.t) _ _ _ b); [exact L|].
      by apply copyClusterBinding_fixed.
Qed.

(** A mutator for bindings overwrites all that another one wrote. *)
Lemma copyClusterBinding_absorb d1 d2 o b1 b2 :
  copyClusterBinding d2 (copyClusterBinding d1 o b1) b2 = copyClusterBinding d2 o b2.
Proof. done. Qed.

(** All the writes of a run, performed once more, change nothing: also when
    the two cluster-wide bindings share their name, where the second write
    undoes the first and is then redone. *)
Lemma materialized_idempotent managedCRB userName hubOwnerID s :
  materialized managedCRB userName hubOwnerID
    (materialized managedCRB userName hubOwnerID s)
  = materialized managedCRB userName hubOwnerID s.
Proof.
  destruct (ClusterRoleRef.Namespaces (ManagedClusterRoleBinding.RoleRef managedCRB))
    as [namespaces|] eqn:NS.
  { rewrite <- (run_steps _ _ _ (materialized _ _ _ s)).
    apply (run_settled (steps managedCRB userName hubOwnerID)); [|done].
    intros f. apply steps_settled. by rewrite NS. }
  destruct (decide (ObjectMeta.Name (ManagedClusterRoleBinding.ObjectMeta managedCRB)
                    = impersonateBindingName userName hubOwnerID)) as [E|NE].
  2:{ rewrite <- (run_steps _ _ _ (materialized _ _ _ s)).
      apply (run_settled (steps managedCRB userName hubOwnerID)); [|done].
      intros f. by apply steps_settled. }
  set (cr := desiredClusterRole managedCRB userName hubOwnerID).
  set (crb := desiredImpersonateBinding managedCRB userName hubOwnerID).
  set (given := desiredClusterBinding managedCRB userName).
  assert (keyOf given = keyOf crb) as K.
  { unfold keyOf, ObjectMeta.key. simpl. by rewrite E. }
  destruct (materialized_clusterRole managedCRB userName hubOwnerID s) as (cr' & L & R & _).
  destruct (materialized_clusterBinding managedCRB userName hubOwnerID s NS)
    as (b & Lb & SU & RR & _).
  set (ms := materialized managedCRB userName hubOwnerID s) in *.
  assert (upsert cr (copyRules cr) (clusterRoles ms) = clusterRoles ms) as HCR.
  { apply (upsert_settled (T:=ClusterRole.t) cr (copyRules cr) (clusterRoles ms) cr');
      [exact L|]. by apply copyRules_fixed. }
  assert (upsert given (copyClusterBinding given)
            (upsert crb (copyClusterBinding crb) (clusterRoleBindings ms))
          = clusterRoleBindings ms) as HCRB.
  { change ("", ObjectMeta.Name (ManagedClusterRoleBinding.ObjectMeta managedCRB))
      with (keyOf given) in Lb.
    rewrite K in Lb.
    unfold upsert, upserted. rewrite K, lookup_insert_eq, insert_insert_eq, Lb.
    rewrite copyClusterBinding_absorb.
    rewrite (copyClusterBinding_fixed given b false) by done.
    by apply insert_id. }
  unfold materialized at 1. rewrite NS. fold cr crb given ms.
  rewrite HCR, HCRB. by destruct ms.
Qed.

Lemma addFinalizerIfNeeded_present r managedCRB w :
  ContainsFinalizer (ManagedClusterRoleBinding.ObjectMeta managedCRB)
    SpokeAuthorizationFinalizer = true →
  addFinalizerIfNeeded r managedCRB w = (Ok managedCRB, w).
Proof. intros C. unfold controller.addFinalizerIfNeeded. by rewrite C. Qed.

(** A successful run of the materialising branch leaves the hub alone and
    performs all of [steps] on the spoke, after the finalizer update when
    there is one. *)
Lemma Reconcile_materialize_ok r req w managedCRB subject0 others res w' :
  loads r req w managedCRB →
  ObjectMeta.DeletionTimestamp (ManagedClusterRoleBinding.ObjectMeta managedCRB) = None →
  ManagedClusterRoleBinding.Subjects managedCRB = subject0 :: others →
  wf_store (spoke w) →
  Reconcile r req w = (Ok res, w') →
  res = emptyResult ∧ hub w' = hub w ∧
  ∃ sA,
    spoke w' = materialized managedCRB (Subject.Name subject0)
                 (GetUserIDAndHubOwnerIDFromLabelValues managedCRB).2 sA
    ∧ wf_store sA
    ∧ serviceAccounts sA = serviceAccounts (spoke w)
    ∧ clusterRoles sA = clusterRoles (spoke w)
    ∧ clusterRoleBindings sA = clusterRoleBindings (spoke w)
    ∧ roleBindings sA = roleBindings (spoke w)
    ∧ (ContainsFinalizer (ManagedClusterRoleBinding.ObjectMeta managedCRB)
         SpokeAuthorizationFinalizer = true → sA = spoke w).
Proof.
  intros L D S Hwf R.
  destruct (Reconcile_materialize_inv _ _ _ _ _ _ _ _ L D S Hwf R)
    as [(e & _ & ? & _)|(g' & wA & written & A & P & -> & [[[= <-] ->]|[e ?]])];
    [done| |done].
  split; [done|]. split; [done|]. exists (spoke wA). rewrite run_steps.
  split; [done|]. split; [by eapply addFinalizerIfNeeded_wf|].
  pose proof A as A'.
  apply addFinalizerIfNeeded_inv in A'
    as [(g'' & _ & _ & _ & _ & _ & m & HwA)|(e & ? & _)]; [|done].
  do 4 (split; [by rewrite HwA|]).
  intros C. rewrite (addFinalizerIfNeeded_present _ _ _ C) in A. by injection A as _ <-.
Qed.

(** * The specification, claim by claim *)

(** C3 (amended).  When loading the Grant fails, with not-found as with
    any other error, [Reconcile] touches neither cluster and hands the load
    error back to its caller: the invocation is reported as failed, not as
    succeeded. *)
Theorem load_error_is_returned r req w e s' :
  Get (T:=ManagedClusterRoleBinding.t) (HubClient r) (NamespacedName req) (hub w)
    = (Fail e, s') →
  Reconcile r req w = (Fail e, w).
Proof. apply Reconcile_load_failed. Qed.

(** C10.  Once the Grant is loaded, its first subject is read before the
    deletion marker is looked at: a Grant without subjects makes the
    invocation panic whatever its deletion marker and finalizers are (so also
    on the cleanup path, which has no use for the subject), and a Grant with
    at least one subject never does: the index is in range. *)
Theorem first_subject_is_read_before_branching r req w managedCRB :
  loads r req w managedCRB →
  (ManagedClusterRoleBinding.Subjects managedCRB = [] → Reconcile r req w = (Panic, w))
  ∧ (ManagedClusterRoleBinding.Subjects managedCRB ≠ [] → (Reconcile r req w).1 ≠ Panic).
Proof.
  intros L. split.
  - by apply Reconcile_no_subject.
  - by apply no_panic_Reconcile_loaded.
Qed.

(** C7.  For a Grant that is being deleted and carries the finalizer: when
    the sweep fails, [Reconcile] returns the sweep's error from the world the
    sweep stopped in, and no Grant has been written on either cluster, so the
    Grant still carries the finalizer; only when the sweep has succeeded is
    the update that removes the finalizer issued, and its outcome is the
    invocation's. *)
Theorem finalizer_is_kept_until_the_sweep_succeeds r req w managedCRB :
  loads r req w managedCRB →
  is_Some (ObjectMeta.DeletionTimestamp (ManagedClusterRoleBinding.ObjectMeta managedCRB)) →
  ContainsFinalizer (ManagedClusterRoleBinding.ObjectMeta managedCRB)
    SpokeAuthorizationFinalizer = true →
  ManagedClusterRoleBinding.Subjects managedCRB ≠ [] →
  (∀ e w1,
     deleteAssociatedResources r managedCRB w = (Fail e, w1) →
     Reconcile r req w = (Fail e, w1)
     ∧ managedClusterRoleBindings (hub w1) = managedClusterRoleBindings (hub w)
     ∧ managedClusterRoleBindings (spoke w1) = managedClusterRoleBindings (spoke w)
     ∧ ∃ kept,
         managedClusterRoleBindings (hub w1) !! NamespacedName req = Some kept
         ∧ ContainsFinalizer (ManagedClusterRoleBinding.ObjectMeta kept)
             SpokeAuthorizationFinalizer = true)
  ∧ (∀ w1,
       deleteAssociatedResources r managedCRB w = (Ok tt, w1) →
       Reconcile r req w
       = bind (onSpoke (Update (SpokeClient r)
                          (ManagedClusterRoleBinding.withObjectMeta
                             (RemoveFinalizer
                                (ManagedClusterRoleBinding.ObjectMeta managedCRB)
                                SpokeAuthorizationFinalizer)
                             managedCRB)))
           (λ _, ret emptyResult) w1).
Proof.
  intros L [t D] C NE.
  destruct (ManagedClusterRoleBinding.Subjects managedCRB) as [|subject0 others] eqn:S;
    [done|clear NE].
  assert (∀ k : unit → M World CtrlResult,
            Reconcile r req w
            = bind (bind (deleteAssociatedResources r managedCRB)
                      (λ _, onSpoke (Update (SpokeClient r)
                                       (ManagedClusterRoleBinding.withObjectMeta
                                          (RemoveFinalizer
                                             (ManagedClusterRoleBinding.ObjectMeta managedCRB)
                                             SpokeAuthorizationFinalizer)
                                          managedCRB))))
                (λ _, ret emptyResult) w) as R.
  { intros _. unfold controller.Reconcile.
    rewrite (bind_ok _ _ _ _ _ (onHub_loads _ _ _ _ L)), S.
    rewrite (bind_ok _ _ _ subject0 w) by done. by rewrite D, C. }
  specialize (R (λ _, ret emptyResult)). split.
  - intros e w1 F. pose proof (deleteAssociatedResources_frame _ _ _ _ _ F) as (Hh & Hs & _).
    split; [|split; [by rewrite Hh|split; [done|]]].
    + rewrite R. apply bind_fail. by apply bind_fail.
    + exists managedCRB. rewrite Hh. split; [by apply loads_inv in L|done].
  - intros w1 F. rewrite R, bind_unfold. by rewrite (bind_ok _ _ _ _ _ F).
Qed.

(** C8.  In the sweeper, for each kind: a failed list call makes the block
    for that kind succeed without deleting anything, as on an empty list, and
    a failed delete call ends the block at once with that error, the items
    after it being left alone.  Over the three kinds: the error of a block
    ends the sweep there, the later kinds untouched, while a block that
    succeeded (so also one whose list call failed) is followed by the next. *)
Theorem list_errors_are_skipped_delete_errors_abort r managedCRB w :
  let selector :=
    SelectorFromSet (ObjectMeta.Labels (ManagedClusterRoleBinding.ObjectMeta managedCRB)) in
  (∀ T `(!Object T) e s',
     List (T:=T) (SpokeClient r) selector (spoke w) = (Fail e, s') →
     sweep T r managedCRB w = (Ok tt, w))
  ∧ (∀ T `(!Object T) s',
       List (T:=T) (SpokeClient r) selector (spoke w) = (Ok [], s') →
       sweep T r managedCRB w = (Ok tt, w))
  ∧ (∀ T `(!Object T) items s' deleted item rest w1 e w2,
       List (T:=T) (SpokeClient r) selector (spoke w) = (Ok items, s') →
       items = deleted ++ item :: rest →
       forEach (λ x, onSpoke (Delete (SpokeClient r) x)) deleted w = (Ok tt, w1) →
       onSpoke (Delete (SpokeClient r) item) w1 = (Fail e, w2) →
       sweep T r managedCRB w = (Fail e, w1))
  ∧ (∀ e w1,
       sweep ServiceAccount.t r managedCRB w = (Fail e, w1) →
       deleteAssociatedResources r managedCRB w = (Fail e, w1)
       ∧ clusterRoles (spoke w1) = clusterRoles (spoke w)
       ∧ clusterRoleBindings (spoke w1) = clusterRoleBindings (spoke w))
  ∧ (∀ w1 e w2,
       sweep ServiceAccount.t r managedCRB w = (Ok tt, w1) →
       sweep ClusterRole.t r managedCRB w1 = (Fail e, w2) →
       deleteAssociatedResources r managedCRB w = (Fail e, w2)
       ∧ clusterRoleBindings (spoke w2) = clusterRoleBindings (spoke w))
  ∧ (∀ w1 w2 res w3,
       sweep ServiceAccount.t r managedCRB w = (Ok tt, w1) →
       sweep ClusterRole.t r managedCRB w1 = (Ok tt, w2) →
       sweep ClusterRoleBinding.t r managedCRB w2 = (res, w3) →
       deleteAssociatedResources r managedCRB w = (res, w3)).
Proof.
  intros selector. split; [|split; [|split; [|split; [|split]]]].
  - intros T ? e s' F. by eapply sweep_list_failed.
  - intros T ? s' F. by rewrite (sweep_listed T _ _ _ _ _ F).
  - intros T ? items s' deleted item rest w1 e w2 F -> V D.
    rewrite (sweep_listed T _ _ _ _ _ F).
    apply onSpoke_inv in D as (s1 & D & ->). pose proof D as D'.
    apply Delete_inv in D' as [(? & _)|(e' & _ & ->)]; [done|].
    eapply forEach_stops; [exact V|].
    unfold onSpoke. rewrite D. by rewrite World_eta.
  - intros e w1 S1. split; [by apply deleteAssociatedResources_first_failed|].
    apply sweep_frame in S1 as [m ->]; [done|apply _].
  - intros w1 e w2 S1 S2.
    split; [by eapply deleteAssociatedResources_second_failed|].
    apply sweep_frame in S1 as [m1 ->]; [|apply _].
    apply sweep_frame in S2 as [m2 ->]; [done|apply _].
  - intros w1 w2 res w3. apply deleteAssociatedResources_third.
Qed.

(** C4.  For a cluster-wide Grant [g1] with first subject [alice], owner
    [hub1] and role [viewer], a successful invocation leaves on the spoke:
    the cluster role [impersonate-alice-hub1] whose rules are the one rule
    (impersonate, "", users, alice); the cluster role binding
    [impersonate-alice-hub1-rolebinding] of the gateway service account to
    that cluster role; and the cluster role binding [g1] of the user [alice]
    to the cluster role [viewer].  No other cluster role or cluster role
    binding is touched, nor any role binding, service account or the hub. *)
Theorem scenario_cluster_wide_grant r req w managedCRB subject0 others res w' :
  loads r req w managedCRB →
  ObjectMeta.DeletionTimestamp (ManagedClusterRoleBinding.ObjectMeta managedCRB) = None →
  ObjectMeta.Name (ManagedClusterRoleBinding.ObjectMeta managedCRB) = "g1" →
  ManagedClusterRoleBinding.Subjects managedCRB = subject0 :: others →
  Subject.Name subject0 = "alice" →
  (GetUserIDAndHubOwnerIDFromLabelValues managedCRB).2 = "hub1" →
  ClusterRoleRef.Name (ManagedClusterRoleBinding.RoleRef managedCRB) = "viewer" →
  ClusterRoleRef.Namespaces (ManagedClusterRoleBinding.RoleRef managedCRB) = None →
  wf_store (spoke w) →
  Reconcile r req w = (Ok res, w') →
  (∃ cr,
     clusterRoles (spoke w') !! ("", "impersonate-alice-hub1") = Some cr
     ∧ ObjectMeta.Name (ClusterRole.ObjectMeta cr) = "impersonate-alice-hub1"
     ∧ ClusterRole.Rules cr = [PolicyRule.mk ["impersonate"] [""] ["users"] ["alice"]])
  ∧ (∃ crb,
       clusterRoleBindings (spoke w') !! ("", "impersonate-alice-hub1-rolebinding")
         = Some crb
       ∧ ObjectMeta.Name (ClusterRoleBinding.ObjectMeta crb)
         = "impersonate-alice-hub1-rolebinding"
       ∧ ClusterRoleBinding.Subjects crb = [gatewaySubject]
       ∧ ClusterRoleBinding.RoleRef crb
         = RoleRef.mk rbac_GroupName "ClusterRole" "impersonate-alice-hub1")
  ∧ (∃ given,
       clusterRoleBindings (spoke w') !! ("", "g1") = Some given
       ∧ ObjectMeta.Name (ClusterRoleBinding.ObjectMeta given) = "g1"
       ∧ ClusterRoleBinding.Subjects given = [Subject.mk "User" "" "alice" ""]
       ∧ ClusterRoleBinding.RoleRef given
         = RoleRef.mk rbac_GroupName "ClusterRole" "viewer")
  ∧ (∀ k, k ≠ ("", "impersonate-alice-hub1") →
          clusterRoles (spoke w') !! k = clusterRoles (spoke w) !! k)
  ∧ (∀ k, k ≠ ("", "impersonate-alice-hub1-rolebinding") → k ≠ ("", "g1") →
          clusterRoleBindings (spoke w') !! k = clusterRoleBindings (spoke w) !! k)
  ∧ roleBindings (spoke w') = roleBindings (spoke w)
  ∧ serviceAccounts (spoke w') = serviceAccounts (spoke w)
  ∧ hub w' = hub w.
Proof.
  intros L D N S U O RN NS Hwf R.
  destruct (Reconcile_materialize_ok _ _ _ _ _ _ _ _ L D S Hwf R)
    as (_ & Hh & sA & Hs & HwfA & HSA & HCR & HCRB & HRB & _).
  pose proof (wf_store_materialized managedCRB (Subject.Name subject0)
                (GetUserIDAndHubOwnerIDFromLabelValues managedCRB).2 sA HwfA)
    as (_ & _ & WCR & WCRB & _).
  rewrite <- Hs in WCR, WCRB. rewrite U, O in Hs.
  split; [|split; [|split; [|split; [|split; [|split; [|split]]]]]].
  - destruct (materialized_clusterRole managedCRB "alice" "hub1" sA) as (cr & Lc & Rc & _).
    rewrite <- Hs in Lc. exists cr. split; [exact Lc|]. split; [|exact Rc].
    specialize (WCR _ _ Lc). by injection WCR.
  - destruct (materialized_impersonateBinding managedCRB "alice" "hub1" sA)
      as (crb & Lc & Sc & Rc & _).
    { intros _. by rewrite N. }
    rewrite <- Hs in Lc. exists crb. split; [exact Lc|]. split; [|by split].
    specialize (WCRB _ _ Lc). by injection WCRB.
  - destruct (materialized_clusterBinding managedCRB "alice" "hub1" sA NS)
      as (b & Lc & Sc & Rc & _).
    rewrite <- Hs, N in Lc. rewrite RN in Rc. exists b. split; [exact Lc|].
    split; [|by split]. specialize (WCRB _ _ Lc). by injection WCRB.
  - intros k NE. rewrite Hs, <- HCR.
    by apply materialized_clusterRoles_other.
  - intros k NE1 NE2. rewrite Hs, <- HCRB.
    apply materialized_clusterRoleBindings_other; [done|]. intros _. by rewrite N.
  - rewrite Hs, <- HRB. by apply materialized_roleBindings_cluster_wide.
  - by rewrite Hs, <- HSA.
  - done.
Qed.

(** C5.  For an active Grant scoped to three distinct namespaces [a], [b]
    and [c], a successful invocation leaves in each of them a role binding
    that has the Grant's name, binds the Grant's user and refers to the
    Grant's role as a namespaced [Role]; these are three different objects,
    no other role binding is touched, and no cluster-wide binding for the
    Grant is written. *)
Theorem namespace_fan_out r req w managedCRB subject0 others a b c res w' :
  loads r req w managedCRB →
  ObjectMeta.DeletionTimestamp (ManagedClusterRoleBinding.ObjectMeta managedCRB) = None →
  ContainsFinalizer (ManagedClusterRoleBinding.ObjectMeta managedCRB)
    SpokeAuthorizationFinalizer = true →
  ManagedClusterRoleBinding.Subjects managedCRB = subject0 :: others →
  ClusterRoleRef.Namespaces (ManagedClusterRoleBinding.RoleRef managedCRB)
    = Some [a; b; c] →
  a ≠ b → a ≠ c → b ≠ c →
  wf_store (spoke w) →
  Reconcile r req w = (Ok res, w') →
  let name := ObjectMeta.Name (ManagedClusterRoleBinding.ObjectMeta managedCRB) in
  (∀ ns, ns ∈ [a; b; c] →
     ∃ rb,
       roleBindings (spoke w') !! (ns, name) = Some rb
       ∧ ObjectMeta.Name (RoleBinding.ObjectMeta rb) = name
       ∧ ObjectMeta.Namespace (RoleBinding.ObjectMeta rb) = ns
       ∧ RoleBinding.Subjects rb = [Subject.mk "User" "" (Subject.Name subject0) ""]
       ∧ RoleBinding.RoleRef rb
         = RoleRef.mk rbac_GroupName "Role"
             (ClusterRoleRef.Name (ManagedClusterRoleBinding.RoleRef managedCRB)))
  ∧ NoDup [(a, name); (b, name); (c, name)]
  ∧ (∀ k, k ∉ [(a, name); (b, name); (c, name)] →
          roleBindings (spoke w') !! k = roleBindings (spoke w) !! k)
  ∧ (∀ k, k ≠ ("", impersonateBindingName (Subject.Name subject0)
                     (GetUserIDAndHubOwnerIDFromLabelValues managedCRB).2) →
          clusterRoleBindings (spoke w') !! k = clusterRoleBindings (spoke w) !! k).
Proof.
  intros L D C S NS AB AC BC Hwf R name.
  destruct (Reconcile_materialize_ok _ _ _ _ _ _ _ _ L D S Hwf R)
    as (_ & Hh & sA & Hs & HwfA & HSA & HCR & HCRB & HRB & _).
  pose proof (wf_store_materialized managedCRB (Subject.Name subject0)
                (GetUserIDAndHubOwnerIDFromLabelValues managedCRB).2 sA HwfA)
    as (_ & _ & _ & _ & WRB).
  rewrite <- Hs in WRB.
  split; [|split; [|split]].
  - intros ns IN.
    destruct (materialized_bindings managedCRB (Subject.Name subject0)
                (GetUserIDAndHubOwnerIDFromLabelValues managedCRB).2 sA _ ns NS IN)
      as (rb & Lr & Sr & Rr & _).
    rewrite <- Hs in Lr. exists rb. split; [exact Lr|].
    specialize (WRB _ _ Lr). injection WRB as W1 W2. by repeat split.
  - apply NoDup_cons. split; [|apply NoDup_cons; split; [|apply NoDup_singleton]].
    + intros IN. apply elem_of_cons in IN as [[= ?]|IN]; [done|].
      by apply list_elem_of_singleton in IN as [= ?].
    + intros IN. by apply list_elem_of_singleton in IN as [= ?].
  - intros k NI. rewrite Hs, <- HRB.
    apply (materialized_bindings_other _ _ _ _ [a; b; c]); [done|].
    intros ns IN ->. apply NI.
    exact (list_elem_of_fmap_2 (λ n, (n, name)) [a; b; c] ns IN).
  - intros k NE. rewrite Hs, <- HCRB.
    apply materialized_clusterRoleBindings_other; [done|]. by rewrite NS.
Qed.

(** What a second invocation does to the spoke a first, successful one left:
    nothing when it succeeds as well; nothing either when it fails, unless
    the Grant is cluster-wide and named like its own impersonation binding
    (the one case in which two writes of a run hit the same object). *)
Lemma second_run_inv r1 r2 req w managedCRB subject0 others res1 w1 out2 w2 :
  loads r1 req w managedCRB →
  ObjectMeta.DeletionTimestamp (ManagedClusterRoleBinding.ObjectMeta managedCRB) = None →
  ContainsFinalizer (ManagedClusterRoleBinding.ObjectMeta managedCRB)
    SpokeAuthorizationFinalizer = true →
  ManagedClusterRoleBinding.Subjects managedCRB = subject0 :: others →
  wf_store (spoke w) →
  Reconcile r1 req w = (Ok res1, w1) →
  Reconcile r2 req w1 = (out2, w2) →
  (∃ res2, out2 = Ok res2)
  ∨ ¬ (ClusterRoleRef.Namespaces (ManagedClusterRoleBinding.RoleRef managedCRB) = None
       ∧ ObjectMeta.Name (ManagedClusterRoleBinding.ObjectMeta managedCRB)
         = impersonateBindingName (Subject.Name subject0)
             (GetUserIDAndHubOwnerIDFromLabelValues managedCRB).2) →
  w2 = w1.
Proof.
  intros L D C S Hwf R1 R2 Hcase.
  destruct (Reconcile_materialize_ok _ _ _ _ _ _ _ _ L D S Hwf R1)
    as (_ & Hh & sA & Hs & HwfA & _ & _ & _ & _ & HsA).
  rewrite (HsA C) in Hs, HwfA. clear HsA sA.
  set (userName := Subject.Name subject0) in *.
  set (hubOwnerID := (GetUserIDAndHubOwnerIDFromLabelValues managedCRB).2) in *.
  destruct (Get (T:=ManagedClusterRoleBinding.t) (HubClient r2) (NamespacedName req) (hub w1))
    as [resG sG] eqn:G.
  pose proof G as G'.
  apply Get_inv in G' as [-> [(o & -> & Lo & _)|[[-> _]|(e & -> & _)]]];
    [|rewrite (Reconcile_load_failed _ _ _ _ _ G) in R2; by injection R2 as _ <-..].
  assert (o = managedCRB) as ->.
  { apply loads_inv in L. rewrite Hh in Lo.
    change (managedClusterRoleBindings (hub w) !! NamespacedName req = Some o) in Lo.
    congruence. }
  assert (wf_store (spoke w1)) as Hwf1.
  { rewrite Hs. by apply wf_store_materialized. }
  destruct (Reconcile_materialize_inv _ _ _ _ _ _ _ _ G D S Hwf1 R2)
    as [(e & _ & _ & ->)|(g' & wA & written & A & P & -> & Hres)]; [done|].
  rewrite (addFinalizerIfNeeded_present _ _ _ C) in A. injection A as _ <-.
  rewrite <- (World_eta w1) at 3. f_equal. rewrite Hs.
  destruct Hcase as [[res2 ->]|NC].
  - destruct Hres as [[_ ->]|[e ?]]; [|done].
    rewrite run_steps. apply materialized_idempotent.
  - apply (run_settled (steps managedCRB userName hubOwnerID)); [|done].
    intros f. apply steps_settled. intros NS E. apply NC. by split.
Qed.

(** A second invocation that fails part of the way changes nothing either,
    the Grant named like its impersonation binding apart. *)
Lemma failed_second_reconcile_changes_nothing
    r1 r2 req w managedCRB subject0 others res1 w1 out2 w2 :
  loads r1 req w managedCRB →
  ObjectMeta.DeletionTimestamp (ManagedClusterRoleBinding.ObjectMeta managedCRB) = None →
  ContainsFinalizer (ManagedClusterRoleBinding.ObjectMeta managedCRB)
    SpokeAuthorizationFinalizer = true →
  ManagedClusterRoleBinding.Subjects managedCRB = subject0 :: others →
  wf_store (spoke w) →
  ObjectMeta.Name (ManagedClusterRoleBinding.ObjectMeta managedCRB)
  ≠ impersonateBindingName (Subject.Name subject0)
      (GetUserIDAndHubOwnerIDFromLabelValues managedCRB).2 →
  Reconcile r1 req w = (Ok res1, w1) →
  Reconcile r2 req w1 = (out2, w2) →
  w2 = w1.
Proof.
  intros L D C S Hwf NE R1 R2.
  eapply second_run_inv; try done. right. by intros [_ E].
Qed.

(** C6.  After a successful invocation on an active Grant, a second
    successful invocation on the same, unchanged Grant (the hub is as the
    first one left it; the calls that fail on their way need not be the
    same) leaves the spoke, and the hub, exactly as the first one left
    them. *)
Theorem second_reconcile_changes_nothing
    r1 r2 req w managedCRB subject0 others res1 w1 res2 w2 :
  loads r1 req w managedCRB →
  ObjectMeta.DeletionTimestamp (ManagedClusterRoleBinding.ObjectMeta managedCRB) = None →
  ContainsFinalizer (ManagedClusterRoleBinding.ObjectMeta managedCRB)
    SpokeAuthorizationFinalizer = true →
  ManagedClusterRoleBinding.Subjects managedCRB = subject0 :: others →
  wf_store (spoke w) →
  Reconcile r1 req w = (Ok res1, w1) →
  Reconcile r2 req w1 = (Ok res2, w2) →
  spoke w2 = spoke w1 ∧ hub w2 = hub w1.
Proof.
  intros L D C S Hwf R1 R2.
  assert (w2 = w1) as ->; [|done].
  eapply second_run_inv; try done. left. by eexists.
Qed.

(** C9 (amended).  After a successful invocation of the materialising
    branch, each derived object (the impersonation role, the impersonation
    binding, the cluster-wide binding of a cluster-wide Grant, the binding
    in each namespace of a scoped Grant) exists on the spoke, and it carries
    the Grant's labels when it was created by this invocation; an object
    that was already there keeps the labels it had. *)
Theorem created_objects_carry_the_grant_labels
    r req w managedCRB subject0 others res w' :
  loads r req w managedCRB →
  ObjectMeta.DeletionTimestamp (ManagedClusterRoleBinding.ObjectMeta managedCRB) = None →
  ManagedClusterRoleBinding.Subjects managedCRB = subject0 :: others →
  wf_store (spoke w) →
  Reconcile r req w = (Ok res, w') →
  let labels := ObjectMeta.Labels (ManagedClusterRoleBinding.ObjectMeta managedCRB) in
  let name := ObjectMeta.Name (ManagedClusterRoleBinding.ObjectMeta managedCRB) in
  let userName := Subject.Name subject0 in
  let hubOwnerID := (GetUserIDAndHubOwnerIDFromLabelValues managedCRB).2 in
  (∃ cr,
     clusterRoles (spoke w') !! ("", impersonateName userName hubOwnerID) = Some cr
     ∧ labelsOf cr
       = keptOrGiven labels
           (clusterRoles (spoke w) !! ("", impersonateName userName hubOwnerID)))
  ∧ (∃ crb,
       clusterRoleBindings (spoke w') !! ("", impersonateBindingName userName hubOwnerID)
         = Some crb
       ∧ labelsOf crb
         = keptOrGiven labels
             (clusterRoleBindings (spoke w)
                !! ("", impersonateBindingName userName hubOwnerID)))
  ∧ (ClusterRoleRef.Namespaces (ManagedClusterRoleBinding.RoleRef managedCRB) = None →
     ∃ given,
       clusterRoleBindings (spoke w') !! ("", name) = Some given
       ∧ labelsOf given
         = keptOrGiven labels (clusterRoleBindings (spoke w) !! ("", name)))
  ∧ (∀ namespaces ns,
       ClusterRoleRef.Namespaces (ManagedClusterRoleBinding.RoleRef managedCRB)
         = Some namespaces →
       ns ∈ namespaces →
       ∃ given,
         roleBindings (spoke w') !! (ns, name) = Some given
         ∧ labelsOf given
           = keptOrGiven labels (roleBindings (spoke w) !! (ns, name))).
Proof.
  intros L D S Hwf R labels name userName hubOwnerID.
  destruct (Reconcile_materialize_ok _ _ _ _ _ _ _ _ L D S Hwf R)
    as (_ & Hh & sA & Hs & HwfA & HSA & HCR & HCRB & HRB & _).
  fold userName hubOwnerID in Hs. rewrite Hs, <- HCR, <- HCRB, <- HRB.
  assert (ClusterRoleRef.Namespaces (ManagedClusterRoleBinding.RoleRef managedCRB) = None →
          ∃ given,
            clusterRoleBindings (materialized managedCRB userName hubOwnerID sA)
              !! ("", name) = Some given
            ∧ labelsOf given = keptOrGiven labels (clusterRoleBindings sA !! ("", name)))
    as Hgiven.
  { intros NS.
    destruct (materialized_clusterBinding managedCRB userName hubOwnerID sA NS)
      as (b & Lb & _ & _ & LAB).
    exists b. split; [exact Lb|]. rewrite LAB. unfold keptOrGiven.
    by destruct (clusterRoleBindings sA !! _). }
  split; [|split; [|split]].
  - destruct (materialized_clusterRole managedCRB userName hubOwnerID sA)
      as (cr & Lc & _ & ME).
    exists cr. split; [exact Lc|]. unfold labelsOf, keptOrGiven. rewrite ME.
    by destruct (clusterRoles sA !! _).
  - destruct (decide (ClusterRoleRef.Namespaces
                        (ManagedClusterRoleBinding.RoleRef managedCRB) = None
                      ∧ name = impersonateBindingName userName hubOwnerID)) as [[NS E]|NC].
    + rewrite <- E. by apply Hgiven.
    + destruct (materialized_impersonateBinding managedCRB userName hubOwnerID sA)
        as (crb & Lc & _ & _ & ME).
      { intros NS E. apply NC. by split. }
      exists crb. split; [exact Lc|]. unfold labelsOf, keptOrGiven. rewrite ME.
      by destruct (clusterRoleBindings sA
                     !! ("", impersonateBindingName userName hubOwnerID)).
  - exact Hgiven.
  - intros namespaces ns NS IN.
    destruct (materialized_bindings managedCRB userName hubOwnerID sA _ ns NS IN)
      as (rb & Lr & _ & _ & ME).
    exists rb. split; [exact Lr|]. unfold labelsOf, keptOrGiven. rewrite ME.
    by destruct (roleBindings sA !! _).
Qed.

(** * Further properties of the controller *)

(** ** What the sweeper deletes *)

Section swept_facts.
Context (T : Type) `{!Object T} `{!LawfulObject T}.

Lemma foldl_delete_lookup (items : list T) (m : gmap ObjectKey T) k :
  foldl (λ m o, delete (keyOf o) m) m items !! k
  = if decide (k ∈ keyOf <$> items) then None else m !! k.
Proof.
  revert m. induction items as [|o items IH]; intros m; [done|].
  cbn [foldl]. rewrite IH, fmap_cons.
  destruct (decide (k ∈ keyOf <$> items)) as [IN|NI].
  - rewrite decide_True; [done|by right].
  - destruct (decide (k = keyOf o)) as [->|NE].
    + rewrite decide_True by (by left). apply lookup_delete_eq.
    + rewrite decide_False; [by apply lookup_delete_ne|].
      intros IN. by apply elem_of_cons in IN as [?|?].
Qed.

(** A loop of deletes removes a prefix of the items, all of them when it
    succeeds. *)
Lemma forEach_Delete_inv c (items : list T) w res w' :
  forEach (λ item, onSpoke (Delete c item)) items w = (res, w') →
  ∃ deleted,
    deleted `prefix_of` items
    ∧ w' = mkWorld (hub w)
             (setTable (foldl (λ m o, delete (keyOf o) m) (table (spoke w)) deleted)
                (spoke w))
    ∧ (res = Ok tt → deleted = items).
Proof.
  revert w. induction items as [|item items IH]; intros w; simpl.
  - intros [= <- <-]. exists []. cbn [foldl]. by rewrite setTable_table, World_eta.
  - rewrite bind_unfold.
    destruct (onSpoke (Delete c item) w) as [[[]|e|] w1] eqn:D;
      apply onSpoke_inv in D as (s1 & D & ->);
      apply Delete_inv in D as [(? & _ & ->)|(e' & ? & ->)]; simplify_eq.
    + intros F. apply IH in F as (deleted & P & -> & Hok).
      exists (item :: deleted). split; [by apply prefix_cons|].
      cbn [hub spoke foldl]. rewrite table_setTable, setTable_setTable.
      split; [done|]. intros E. by rewrite Hok.
    + intros [= <- <-]. exists []. split; [apply prefix_nil|].
      cbn [foldl]. by rewrite setTable_table.
Qed.

Lemma elem_of_listed (selector : gmap string string) (m : gmap ObjectKey T) (o : T) :
  o ∈ filter (λ o, Matches selector (labelsOf o)) (map_to_list m).*2
  ↔ Matches selector (labelsOf o) ∧ ∃ k, m !! k = Some o.
Proof.
  rewrite list_elem_of_filter, list_elem_of_fmap. split.
  - intros [HM ([k o'] & -> & IN)]. apply elem_of_map_to_list in IN. eauto.
  - intros [HM [k L]]. split; [done|]. exists (k, o). split; [done|].
    by apply elem_of_map_to_list.
Qed.

Lemma only_swept_refl (selector : gmap string string) (m : gmap ObjectKey T) :
  only_swept selector m m.
Proof. by split. Qed.

(** One block of the sweeper takes objects that match the Grant's labels
    out of its own table, and when it returns nil with the list call
    answered, all of them. *)
Lemma sweep_inv r managedCRB w res w' :
  let selector :=
    SelectorFromSet (ObjectMeta.Labels (ManagedClusterRoleBinding.ObjectMeta managedCRB)) in
  wf_table (table (T:=T) (spoke w)) →
  sweep T r managedCRB w = (res, w') →
  ∃ m',
    w' = mkWorld (hub w) (setTable (T:=T) m' (spoke w))
    ∧ only_swept selector (table (spoke w)) m'
    ∧ (res = Ok tt → m' = swept T (SpokeClient r) selector (table (spoke w))).
Proof.
  intros selector Hwf. unfold controller.sweep. cbv zeta. fold selector.
  rewrite bind_unfold.
  destruct (attempt_List_inv T r selector w) as [(e' & F & ->)|[F ->]].
  - intros [= <- <-]. exists (table (spoke w)). rewrite setTable_table, World_eta.
    split; [done|]. split; [apply only_swept_refl|]. intros _. unfold swept. by rewrite F.
  - intros E. apply forEach_Delete_inv in E as (deleted & P & -> & Hok).
    eexists. split; [done|]. split; [split|].
    + intros k o. rewrite foldl_delete_lookup. by case_decide.
    + intros k o L NM. rewrite foldl_delete_lookup, decide_False; [done|].
      intros IN. apply list_elem_of_fmap in IN as (o' & -> & IN).
      apply (elem_of_prefix _ _ _ IN) in P. apply elem_of_listed in P as [HM [k' L']].
      rewrite <- (Hwf _ _ L') in L'. rewrite L in L'. by simplify_eq.
    + intros E. rewrite (Hok E). unfold swept, unmatched. rewrite F.
      apply map_eq. intros k. rewrite foldl_delete_lookup.
      destruct (decide _) as [IN|NI].
      * symmetry. apply map_lookup_filter_None. right. intros o L NM.
        apply list_elem_of_fmap in IN as (o' & -> & IN).
        apply elem_of_listed in IN as [HM [k' L']].
        rewrite <- (Hwf _ _ L') in L'. rewrite L in L'. by simplify_eq.
      * destruct (table (spoke w) !! k) as [o|] eqn:L.
        -- symmetry. apply map_lookup_filter_Some. split; [done|]. intros HM.
           apply NI. rewrite <- (Hwf _ _ L). apply list_elem_of_fmap_2.
           apply elem_of_listed. eauto.
        -- symmetry. apply map_lookup_filter_None. by left.
Qed.
End swept_facts.

(** The three blocks together: each works on its own table. *)
Lemma deleteAssociatedResources_inv r managedCRB w res w' :
  let selector :=
    SelectorFromSet (ObjectMeta.Labels (ManagedClusterRoleBinding.ObjectMeta managedCRB)) in
  wf_store (spoke w) →
  deleteAssociatedResources r managedCRB w = (res, w') →
  ∃ m1 m2 m3,
    w' = mkWorld (hub w)
           (mkStore (managedClusterRoleBindings (spoke w)) m1 m2 m3 (roleBindings (spoke w)))
    ∧ only_swept selector (serviceAccounts (spoke w)) m1
    ∧ only_swept selector (clusterRoles (spoke w)) m2
    ∧ only_swept selector (clusterRoleBindings (spoke w)) m3
    ∧ (res = Ok tt →
       m1 = swept ServiceAccount.t (SpokeClient r) selector (serviceAccounts (spoke w))
       ∧ m2 = swept ClusterRole.t (SpokeClient r) selector (clusterRoles (spoke w))
       ∧ m3 = swept ClusterRoleBinding.t (SpokeClient r) selector
                (clusterRoleBindings (spoke w))).
Proof.
  intros selector (_ & W1 & W2 & W3 & _).
  destruct w as [h [gs sa cr crb rb]]. cbn [hub spoke] in *.
  cbn [serviceAccounts clusterRoles clusterRoleBindings] in *.
  unfold controller.deleteAssociatedResources. rewrite bind_unfold.
  destruct (sweep ServiceAccount.t r managedCRB _) as [res1 w1] eqn:S1.
  apply sweep_inv in S1 as (m1 & -> & O1 & E1); [|apply _|exact W1].
  cbn [hub spoke table setTable ServiceAccount_Object] in *.
  destruct res1 as [[]|e|]; cycle 1.
  { intros [= <- <-]. exists m1, cr, crb. by do 4 (split; [done|]). }
  { intros [= <- <-]. exists m1, cr, crb. by do 4 (split; [done|]). }
  rewrite bind_unfold.
  destruct (sweep ClusterRole.t r managedCRB _) as [res2 w2] eqn:S2.
  apply sweep_inv in S2 as (m2 & -> & O2 & E2); [|apply _|exact W2].
  cbn [hub spoke table setTable ClusterRole_Object] in *.
  destruct res2 as [[]|e|]; cycle 1.
  { intros [= <- <-]. exists m1, m2, crb. by do 4 (split; [done|]). }
  { intros [= <- <-]. exists m1, m2, crb. by do 4 (split; [done|]). }
  rewrite bind_unfold.
  destruct (sweep ClusterRoleBinding.t r managedCRB _) as [res3 w3] eqn:S3.
  apply sweep_inv in S3 as (m3 & -> & O3 & E3); [|apply _|exact W3].
  cbn [hub spoke table setTable ClusterRoleBinding_Object] in *.
  destruct res3 as [[]|e|]; intros [= <- <-]; exists m1, m2, m3;
    do 4 (split; [done|]); [|done..].
  intros _. by rewrite E1, E2, E3.
Qed.

(** ** What the materialiser can reach *)

Lemma changed_within_refl {T} (keys : ObjectKey → Prop) (m : gmap ObjectKey T) :
  changed_within keys m m.
Proof. by split. Qed.

Lemma changed_within_trans {T} (keys : ObjectKey → Prop) (m1 m2 m3 : gmap ObjectKey T) :
  changed_within keys m1 m2 → changed_within keys m2 m3 → changed_within keys m1 m3.
Proof.
  intros [E1 S1] [E2 S2]. split.
  - intros k NK. by rewrite E2, E1.
  - intros k IS. by apply S2, S1.
Qed.

Lemma changed_within_insert {T} (keys : ObjectKey → Prop) (m : gmap ObjectKey T) k v :
  keys k → changed_within keys m (<[k := v]> m).
Proof.
  intros HK. split.
  - intros k' NK. apply lookup_insert_ne. by intros ->.
  - intros k' IS. destruct (decide (k = k')) as [->|NE].
    + rewrite lookup_insert_eq. eauto.
    + by rewrite lookup_insert_ne.
Qed.

Lemma changed_within_upsert {T} `{!Object T} (keys : ObjectKey → Prop)
    (obj : T) (transform : T → bool → T) (m : gmap ObjectKey T) :
  keys (keyOf obj) → changed_within keys m (upsert obj transform m).
Proof. apply changed_within_insert. Qed.

Lemma footprint_refl managedCRB userName hubOwnerID s :
  footprint managedCRB userName hubOwnerID s s.
Proof. unfold footprint. repeat split; auto. Qed.

Lemma footprint_trans managedCRB userName hubOwnerID s1 s2 s3 :
  footprint managedCRB userName hubOwnerID s1 s2 →
  footprint managedCRB userName hubOwnerID s2 s3 →
  footprint managedCRB userName hubOwnerID s1 s3.
Proof.
  intros (G1 & A1 & R1 & B1 & N1) (G2 & A2 & R2 & B2 & N2).
  split; [by eapply changed_within_trans|]. split; [by rewrite A2|].
  split; [by eapply changed_within_trans|].
  split; by eapply changed_within_trans.
Qed.

Lemma steps_footprint managedCRB userName hubOwnerID f s :
  f ∈ steps managedCRB userName hubOwnerID →
  footprint managedCRB userName hubOwnerID s (f s).
Proof.
  unfold steps. intros IN. destruct s as [gs sa cr crb rb].
  apply elem_of_app in IN as [IN|IN].
  - apply elem_of_cons in IN as [->|IN].
    + split; [apply changed_within_refl|]. split; [done|].
      split; [by apply (changed_within_upsert (T:=ClusterRole.t))|].
      split; apply changed_within_refl.
    + apply list_elem_of_singleton in IN as ->.
      split; [apply changed_within_refl|]. split; [done|].
      split; [apply changed_within_refl|].
      split; [|apply changed_within_refl].
      apply (changed_within_upsert (T:=ClusterRoleBinding.t)). by left.
  - destruct (ClusterRoleRef.Namespaces _) as [namespaces|] eqn:NS.
    + apply list_elem_of_fmap in IN as (ns & -> & IN).
      split; [apply changed_within_refl|]. split; [done|].
      split; [apply changed_within_refl|].
      split; [apply changed_within_refl|].
      apply (changed_within_upsert (T:=RoleBinding.t)). rewrite NS. by exists namespaces, ns.
    + apply list_elem_of_singleton in IN as ->.
      split; [apply changed_within_refl|]. split; [done|].
      split; [apply changed_within_refl|].
      split; [|apply changed_within_refl].
      apply (changed_within_upsert (T:=ClusterRoleBinding.t)). rewrite NS. by right.
Qed.

Lemma run_footprint_in managedCRB userName hubOwnerID fs s :
  (∀ f, f ∈ fs → f ∈ steps managedCRB userName hubOwnerID) →
  footprint managedCRB userName hubOwnerID s (run fs s).
Proof.
  revert s. induction fs as [|f fs IH]; intros s IN.
  - apply footprint_refl.
  - rewrite run_cons. eapply footprint_trans.
    + apply steps_footprint, IN. by left.
    + apply IH. intros g INg. apply IN. by right.
Qed.

Lemma run_footprint managedCRB userName hubOwnerID written s :
  written `prefix_of` steps managedCRB userName hubOwnerID →
  footprint managedCRB userName hubOwnerID s (run written s).
Proof.
  intros P. apply run_footprint_in. intros f INf. by eapply elem_of_prefix.
Qed.

Lemma keyOf_AddFinalizer managedCRB finalizer :
  keyOf (ManagedClusterRoleBinding.withObjectMeta
           (AddFinalizer (ManagedClusterRoleBinding.ObjectMeta managedCRB) finalizer)
           managedCRB)
  = keyOf managedCRB.
Proof. unfold AddFinalizer. by destruct (ContainsFinalizer _ _). Qed.

Lemma addFinalizerIfNeeded_ok_inv r managedCRB w g' w' :
  addFinalizerIfNeeded r managedCRB w = (Ok g', w') →
  g' = ManagedClusterRoleBinding.withObjectMeta
         (AddFinalizer (ManagedClusterRoleBinding.ObjectMeta managedCRB)
            SpokeAuthorizationFinalizer) managedCRB
  ∧ ((ContainsFinalizer (ManagedClusterRoleBinding.ObjectMeta managedCRB)
        SpokeAuthorizationFinalizer = true ∧ w' = w)
     ∨ (ContainsFinalizer (ManagedClusterRoleBinding.ObjectMeta managedCRB)
          SpokeAuthorizationFinalizer = false
        ∧ is_Some (managedClusterRoleBindings (spoke w) !! keyOf managedCRB)
        ∧ w' = mkWorld (hub w)
                 (setTable (<[keyOf managedCRB := g']> (managedClusterRoleBindings (spoke w)))
                    (spoke w)))).
Proof.
  unfold controller.addFinalizerIfNeeded.
  destruct (ContainsFinalizer _ _) eqn:C; simpl.
  - intros [= <- <-]. split; [|by left].
    unfold AddFinalizer. rewrite C. by destruct managedCRB.
  - rewrite bind_unfold.
    destruct (onSpoke _ w) as [[[]|e|] w1] eqn:U; [|done..].
    apply onSpoke_inv in U as (s' & U & ->).
    apply Update_inv in U as [(_ & IS & ->)|(e' & ? & ->)]; [|done].
    rewrite keyOf_AddFinalizer in IS. rewrite keyOf_AddFinalizer.
    intros [= <- <-]. split; [done|]. right. by split.
Qed.

Lemma addFinalizerIfNeeded_footprint r managedCRB userName hubOwnerID w g' w' :
  addFinalizerIfNeeded r managedCRB w = (Ok g', w') →
  footprint managedCRB userName hubOwnerID (spoke w) (spoke w').
Proof.
  intros A. apply addFinalizerIfNeeded_ok_inv in A as [_ [[_ ->]|(_ & _ & ->)]].
  - apply footprint_refl.
  - destruct w as [h [gs sa cr crb rb]].
    split; [by apply changed_within_insert|]. split; [done|].
    split; [apply changed_within_refl|]. split; apply changed_within_refl.
Qed.

(** Whatever its outcome, a run of the materialising branch stays within the
    Grant's footprint and leaves the hub alone. *)
Lemma Reconcile_footprint r req w managedCRB subject0 others res w' :
  loads r req w managedCRB →
  ObjectMeta.DeletionTimestamp (ManagedClusterRoleBinding.ObjectMeta managedCRB) = None →
  ManagedClusterRoleBinding.Subjects managedCRB = subject0 :: others →
  wf_store (spoke w) →
  Reconcile r req w = (res, w') →
  hub w' = hub w
  ∧ footprint managedCRB (Subject.Name subject0)
      (GetUserIDAndHubOwnerIDFromLabelValues managedCRB).2 (spoke w) (spoke w').
Proof.
  intros L D S Hwf R.
  destruct (Reconcile_materialize_inv _ _ _ _ _ _ _ _ L D S Hwf R)
    as [(e & _ & _ & ->)|(g' & wA & written & A & P & -> & _)].
  - split; [done|apply footprint_refl].
  - split; [done|]. cbn [spoke]. eapply footprint_trans.
    + by eapply addFinalizerIfNeeded_footprint.
    + by apply run_footprint.
Qed.

(** ** Picking up after a failed attempt *)

(** A write whose mutator overwrites what it wrote before changes nothing
    the second time. *)
Lemma upsert_twice {T} `{!Object T} (obj : T) (transform : T → bool → T)
    (m : gmap ObjectKey T) :
  (∀ o b, transform (transform o b) false = transform o b) →
  upsert obj transform (upsert obj transform m) = upsert obj transform m.
Proof.
  intros Idem. apply (upsert_settled obj transform _ (upserted obj transform m)).
  - apply upsert_lookup.
  - unfold upserted. destruct (m !! keyOf obj); apply Idem.
Qed.

Lemma copyRules_twice desired o b :
  copyRules desired (copyRules desired o b) false = copyRules desired o b.
Proof. done. Qed.

Lemma copyClusterBinding_twice desired o b :
  copyClusterBinding desired (copyClusterBinding desired o b) false
  = copyClusterBinding desired o b.
Proof. done. Qed.

Lemma foldl_upsertBinding_settled managedCRB userName namespaces m :
  (∀ ns, ns ∈ namespaces →
     ∃ rb, m !! (ns, ObjectMeta.Name (ManagedClusterRoleBinding.ObjectMeta managedCRB))
           = Some rb
           ∧ RoleBinding.Subjects rb = [userSubject userName]
           ∧ RoleBinding.RoleRef rb
             = RoleRef.mk rbac_GroupName "Role"
                 (ClusterRoleRef.Name (ManagedClusterRoleBinding.RoleRef managedCRB))) →
  foldl (λ m ns, let given := desiredBinding managedCRB userName ns in
                 upsert given (copyBinding given) m) m namespaces
  = m.
Proof.
  induction namespaces as [|n rest IH]; intros H; [done|].
  cbn [foldl]. cbv zeta.
  destruct (H n) as (rb & L & SU & RR); [by left|].
  change (n, ObjectMeta.Name (ManagedClusterRoleBinding.ObjectMeta managedCRB))
    with (keyOf (desiredBinding managedCRB userName n)) in L.
  rewrite (upsert_settled (T:=RoleBinding.t) (desiredBinding managedCRB userName n) _ _ rb L).
  - apply IH. intros ns IN. apply H. by right.
  - by apply copyBinding_fixed.
Qed.

(** The role bindings written for some of the namespaces are written again
    unchanged by a pass over all of them. *)
Lemma foldl_upsertBinding_resume managedCRB userName written rest m :
  foldl (λ m ns, let given := desiredBinding managedCRB userName ns in
                 upsert given (copyBinding given) m)
    (foldl (λ m ns, let given := desiredBinding managedCRB userName ns in
                    upsert given (copyBinding given) m) m written)
    (written ++ rest)
  = foldl (λ m ns, let given := desiredBinding managedCRB userName ns in
                   upsert given (copyBinding given) m) m (written ++ rest).
Proof.
  rewrite !foldl_app. f_equal. apply foldl_upsertBinding_settled.
  intros ns IN.
  destruct (foldl_upsertBinding_lookup managedCRB userName written m ns IN)
    as (rb & L & SU & RR & _).
  eauto.
Qed.

Lemma prefix_of_fmap_inv {A B} (f : A → B) (l : list B) (k : list A) :
  l `prefix_of` f <$> k → ∃ k1 k2, l = f <$> k1 ∧ k = k1 ++ k2.
Proof.
  intros [rest E]. apply fmap_app_inv in E as (k1 & k2 & -> & -> & ->). eauto.
Qed.

Ltac store_cbn :=
  cbn [foldl managedClusterRoleBindings serviceAccounts clusterRoles clusterRoleBindings
       roleBindings table setTable ClusterRole_Object ClusterRoleBinding_Object
       RoleBinding_Object].

(** The writes of a whole run make up for whatever part of them an earlier,
    interrupted run has already performed. *)
Lemma materialized_absorbs_prefix managedCRB userName hubOwnerID written s :
  written `prefix_of` steps managedCRB userName hubOwnerID →
  materialized managedCRB userName hubOwnerID (run written s)
  = materialized managedCRB userName hubOwnerID s.
Proof.
  intros P. pose proof P as P0. unfold steps in P.
  set (cr := desiredClusterRole managedCRB userName hubOwnerID) in *.
  set (crb := desiredImpersonateBinding managedCRB userName hubOwnerID) in *.
  pose proof (upsert_twice (T:=ClusterRole.t) cr (copyRules cr)) as TR.
  pose proof (upsert_twice (T:=ClusterRoleBinding.t) crb (copyClusterBinding crb)) as TB.
  destruct written as [|f1 written]; [done|].
  cbn [app] in P. pose proof (prefix_cons_inv_1 _ _ _ _ P) as ->.
  apply prefix_cons_inv_2 in P.
  destruct written as [|f2 written].
  { destruct s as [gs sa crs crbs rbs]. unfold run, materialized, applied. store_cbn.
    fold cr. by rewrite TR. }
  pose proof (prefix_cons_inv_1 _ _ _ _ P) as ->.
  apply prefix_cons_inv_2 in P.
  destruct (ClusterRoleRef.Namespaces (ManagedClusterRoleBinding.RoleRef managedCRB))
    as [namespaces|] eqn:NS.
  - apply prefix_of_fmap_inv in P as (done & rest & -> & ->).
    rewrite !run_cons, run_bindings.
    destruct s as [gs sa crs crbs rbs]. unfold materialized, applied. store_cbn.
    rewrite NS. fold cr crb. rewrite TR, TB by done. f_equal.
    apply foldl_upsertBinding_resume.
  - destruct written as [|f3 written].
    + destruct s as [gs sa crs crbs rbs]. unfold run, materialized, applied. store_cbn.
      rewrite NS. fold cr crb. by rewrite TR, TB.
    + pose proof (prefix_cons_inv_1 _ _ _ _ P) as ->.
      apply prefix_cons_inv_2, prefix_nil_inv in P as ->.
      assert (steps managedCRB userName hubOwnerID
              = [applied cr (copyRules cr); applied crb (copyClusterBinding crb);
                 applied (desiredClusterBinding managedCRB userName)
                   (copyClusterBinding (desiredClusterBinding managedCRB userName))])
        as <- by (unfold steps; by rewrite NS).
      rewrite run_steps. apply materialized_idempotent.
Qed.

Lemma steps_Grants managedCRB userName hubOwnerID f s :
  f ∈ steps managedCRB userName hubOwnerID →
  managedClusterRoleBindings (f s) = managedClusterRoleBindings s.
Proof.
  unfold steps. intros IN.
  apply elem_of_app in IN as [IN|IN].
  - apply elem_of_cons in IN as [->|IN]; [done|].
    by apply list_elem_of_singleton in IN as ->.
  - destruct (ClusterRoleRef.Namespaces _) as [namespaces|].
    + by apply list_elem_of_fmap in IN as (ns & -> & _).
    + by apply list_elem_of_singleton in IN as ->.
Qed.

Lemma run_Grants managedCRB userName hubOwnerID written s :
  written `prefix_of` steps managedCRB userName hubOwnerID →
  managedClusterRoleBindings (run written s) = managedClusterRoleBindings s.
Proof.
  intros P.
  assert (∀ f, f ∈ written → f ∈ steps managedCRB userName hubOwnerID) as IN.
  { intros f INf. by eapply elem_of_prefix. }
  clear P. revert s. induction written as [|f written IH]; intros s; [done|].
  rewrite run_cons, IH by (intros g INg; apply IN; by right).
  apply (steps_Grants managedCRB userName hubOwnerID), IN. by left.
Qed.

(** Every invocation that succeeds has loaded the Grant. *)
Lemma Reconcile_ok_loads r req w res w' :
  Reconcile r req w = (Ok res, w') → ∃ managedCRB, loads r req w managedCRB.
Proof.
  intros R.
  destruct (Get (T:=ManagedClusterRoleBinding.t) (HubClient r) (NamespacedName req) (hub w))
    as [resG sG] eqn:G.
  pose proof G as G'.
  apply Get_inv in G' as [-> [(o & -> & _)|[[-> _]|(e & -> & _)]]].
  - by exists o.
  - by rewrite (Reconcile_load_failed _ _ _ _ _ G) in R.
  - by rewrite (Reconcile_load_failed _ _ _ _ _ G) in R.
Qed.

Lemma loads_agree r1 r2 req w1 w2 g1 g2 :
  loads r1 req w1 g1 → loads r2 req w2 g2 → hub w2 = hub w1 → g2 = g1.
Proof.
  intros L1 L2 E. apply loads_inv in L1, L2. rewrite E in L2. congruence.
Qed.

(** A successful run of the materialising branch, whoever loaded the Grant:
    the finalizer step succeeded, and all the writes were performed on the
    spoke it left. *)
Lemma Reconcile_ok_inv r0 r req w managedCRB subject0 others res w' :
  loads r0 req w managedCRB →
  ObjectMeta.DeletionTimestamp (ManagedClusterRoleBinding.ObjectMeta managedCRB) = None →
  ManagedClusterRoleBinding.Subjects managedCRB = subject0 :: others →
  wf_store (spoke w) →
  Reconcile r req w = (Ok res, w') →
  ∃ g' wA,
    addFinalizerIfNeeded r managedCRB w = (Ok g', wA)
    ∧ w' = mkWorld (hub w)
             (materialized managedCRB (Subject.Name subject0)
                (GetUserIDAndHubOwnerIDFromLabelValues managedCRB).2 (spoke wA)).
Proof.
  intros L0 D S Hwf R.
  destruct (Reconcile_ok_loads _ _ _ _ _ R) as [g L].
  assert (g = managedCRB) as -> by (by eapply loads_agree).
  destruct (Reconcile_materialize_inv _ _ _ _ _ _ _ _ L D S Hwf R)
    as [(e & _ & ? & _)|(g' & wA & written & A & P & -> & [[_ ->]|[e ?]])];
    [done| |done].
  exists g', wA. by rewrite run_steps.
Qed.

(** Adding the finalizer after an interrupted run: the spoke's Grant is
    written as before, so the spoke is as the interrupted run left it. *)
Lemma addFinalizerIfNeeded_resume r r' managedCRB w g1 wA1 (p : Store → Store) g2 wA2 :
  addFinalizerIfNeeded r managedCRB w = (Ok g1, wA1) →
  managedClusterRoleBindings (p (spoke wA1)) = managedClusterRoleBindings (spoke wA1) →
  addFinalizerIfNeeded r' managedCRB (mkWorld (hub w) (p (spoke wA1))) = (Ok g2, wA2) →
  wA2 = mkWorld (hub w) (p (spoke wA1)).
Proof.
  intros A1 Hp A2.
  apply addFinalizerIfNeeded_ok_inv in A1 as [-> [[C ->]|(C & _ & ->)]];
    apply addFinalizerIfNeeded_ok_inv in A2 as [-> [[C' ->]|(C' & _ & ->)]];
    try done; try congruence.
  cbn [hub spoke] in *. f_equal.
  set (s1 := p _) in *.
  cbn [managedClusterRoleBindings setTable ManagedClusterRoleBinding_Object] in Hp.
  rewrite Hp, insert_insert_eq, <- Hp.
  exact (setTable_table (T:=ManagedClusterRoleBinding.t) s1).
Qed.

Lemma addFinalizerIfNeeded_agree r r' managedCRB w g1 wA1 g2 wA2 :
  addFinalizerIfNeeded r managedCRB w = (Ok g1, wA1) →
  addFinalizerIfNeeded r' managedCRB w = (Ok g2, wA2) →
  wA2 = wA1.
Proof.
  intros A1 A2.
  apply addFinalizerIfNeeded_ok_inv in A1 as [-> [[C ->]|(C & _ & ->)]];
    apply addFinalizerIfNeeded_ok_inv in A2 as [-> [[C' ->]|(C' & _ & ->)]];
    try done; congruence.
Qed.

(** ** The monad, once more *)

Lemma bind_ok_inv {S A B} (m : M S A) (k : A → M S B) s b s' :
  bind m k s = (Ok b, s') → ∃ a s1, m s = (Ok a, s1) ∧ k a s1 = (Ok b, s').
Proof. rewrite bind_unfold. destruct (m s) as [[a|e|] s1]; [eauto|done..]. Qed.

Lemma bind_ret_ok {S A B} (m : M S A) (b : B) s res s' :
  bind m (λ _, ret b) s = (Ok res, s') → res = b.
Proof. intros E. apply bind_ok_inv in E as (a & s1 & _ & [= <- _]). done. Qed.

Lemma append_assoc (a b c : string) : ((a ++ b) ++ c = a ++ b ++ c)%string.
Proof.
  induction a as [|x a IH]; [done|].
  change (String x ((a ++ b) ++ c) = String x (a ++ b ++ c))%string. by rewrite IH.
Qed.

Lemma ContainsFinalizer_RemoveFinalizer meta finalizer :
  ContainsFinalizer (RemoveFinalizer meta finalizer) finalizer = false.
Proof.
  unfold ContainsFinalizer, RemoveFinalizer. cbn [ObjectMeta.withFinalizers ObjectMeta.Finalizers].
  induction (ObjectMeta.Finalizers meta) as [|f fs IH]; [done|].
  cbn [List.filter]. destruct (bool_decide (f = finalizer)) eqn:E; cbn [negb]; [done|].
  cbn [existsb]. by rewrite E, IH.
Qed.

Lemma keyOf_RemoveFinalizer managedCRB finalizer :
  keyOf (ManagedClusterRoleBinding.withObjectMeta
           (RemoveFinalizer (ManagedClusterRoleBinding.ObjectMeta managedCRB) finalizer)
           managedCRB)
  = keyOf managedCRB.
Proof. done. Qed.

Lemma Matches_refl (labels : gmap string string) : Matches (SelectorFromSet labels) labels.
Proof. intros k v L. exact L. Qed.

(** What a selector matches is gone from a swept table. *)
Lemma swept_lookup_matched (T : Type) `{!Object T} (c : Client)
    (selector : gmap string string) (m : gmap ObjectKey T) k o :
  faults c (mkCall VList (kindOf T) ("", "")) = None →
  m !! k = Some o → Matches selector (labelsOf o) →
  swept T c selector m !! k = None.
Proof.
  intros NF L HM. unfold swept, unmatched. rewrite NF.
  apply map_lookup_filter_None. right. intros o' L' NM. apply NM.
  rewrite L in L'. by injection L' as <-.
Qed.

(** * Further properties, one by one *)

(** X1.  A Grant that is being deleted and does not carry the finalizer is
    left alone: the invocation succeeds at once, calls neither cluster after
    the load, and whatever was derived from the Grant stays on the spoke. *)
Theorem deleted_grant_without_finalizer_is_left_alone r req w managedCRB :
  loads r req w managedCRB →
  is_Some (ObjectMeta.DeletionTimestamp (ManagedClusterRoleBinding.ObjectMeta managedCRB)) →
  ContainsFinalizer (ManagedClusterRoleBinding.ObjectMeta managedCRB)
    SpokeAuthorizationFinalizer = false →
  ManagedClusterRoleBinding.Subjects managedCRB ≠ [] →
  Reconcile r req w = (Ok emptyResult, w).
Proof.
  intros L [t D] C NE.
  destruct (ManagedClusterRoleBinding.Subjects managedCRB) as [|subject0 others] eqn:S;
    [done|clear NE].
  unfold controller.Reconcile.
  rewrite (bind_ok _ _ _ _ _ (onHub_loads _ _ _ _ L)), S.
  rewrite (bind_ok _ _ _ subject0 w) by done. by rewrite D, C.
Qed.

(** X2.  No invocation writes to the hub, whatever the request, the two
    clusters hold and the calls that fail: the hub's store after [Reconcile]
    is the one before it. *)
Theorem reconcile_never_writes_to_the_hub r req w :
  hub (Reconcile r req w).2 = hub w.
Proof. apply keeps_hub_Reconcile. Qed.

(** X3.  An invocation that succeeds returns the empty result: [Reconcile]
    never asks to be run again, neither at once nor after a delay. *)
Theorem reconcile_never_asks_for_a_requeue r req w res w' :
  Reconcile r req w = (Ok res, w') →
  res = emptyResult ∧ Requeue res = false ∧ RequeueAfter res = 0%Z.
Proof.
  intros R. assert (res = emptyResult) as ->; [|done].
  unfold controller.Reconcile in R.
  apply bind_ok_inv in R as (managedCRB & w1 & _ & R).
  apply bind_ok_inv in R as (subject0 & w2 & _ & R).
  destruct (ObjectMeta.DeletionTimestamp _).
  - by apply bind_ret_ok in R.
  - apply bind_ok_inv in R as (g' & w3 & _ & R).
    apply bind_ok_inv in R as (done & w4 & _ & R).
    apply bind_ok_inv in R as (? & w5 & _ & R).
    apply bind_ok_inv in R as (s0 & w6 & _ & R).
    by apply bind_ret_ok in R.
Qed.

(** X4.  A Grant that is not being deleted and does not carry the finalizer
    yet cannot be materialised on a spoke that holds no object of the
    Grant's kind under the Grant's name: the update that adds the finalizer
    is sent to the spoke, so the invocation fails, with the error of that
    call or with not-found, before any derived object is written. *)
Theorem new_grant_needs_a_copy_on_the_spoke r req w managedCRB :
  loads r req w managedCRB →
  ObjectMeta.DeletionTimestamp (ManagedClusterRoleBinding.ObjectMeta managedCRB) = None →
  ContainsFinalizer (ManagedClusterRoleBinding.ObjectMeta managedCRB)
    SpokeAuthorizationFinalizer = false →
  ManagedClusterRoleBinding.Subjects managedCRB ≠ [] →
  managedClusterRoleBindings (spoke w) !! keyOf managedCRB = None →
  Reconcile r req w
  = (Fail (default ErrNotFound
             (faults (SpokeClient r)
                (mkCall VUpdate KManagedClusterRoleBinding (keyOf managedCRB)))), w).
Proof.
  intros L D C NE N.
  destruct (ManagedClusterRoleBinding.Subjects managedCRB) as [|subject0 others] eqn:S;
    [done|clear NE].
  unfold controller.Reconcile.
  rewrite (bind_ok _ _ _ _ _ (onHub_loads _ _ _ _ L)), S.
  rewrite (bind_ok _ _ _ subject0 w) by done. rewrite D.
  apply bind_fail. unfold controller.addFinalizerIfNeeded. rewrite C. cbn [negb].
  apply bind_fail. unfold onSpoke, Update. rewrite bind_unfold. unfold call.
  rewrite keyOf_AddFinalizer. cbn [kindOf ManagedClusterRoleBinding_Object].
  destruct (faults _ _) as [e|]; cbn [default fail ret].
  - by rewrite World_eta.
  - cbn [table ManagedClusterRoleBinding_Object]. rewrite N. by rewrite World_eta.
Qed.

(** X5.  A Grant that is being deleted and carries the finalizer is never
    released on a spoke that holds no object of the Grant's kind under the
    Grant's name: after the sweep, the update that removes the finalizer is
    sent to the spoke and fails, so the invocation ends in an error whatever
    the sweep did. *)
Theorem cleanup_needs_a_copy_on_the_spoke r req w managedCRB :
  loads r req w managedCRB →
  is_Some (ObjectMeta.DeletionTimestamp (ManagedClusterRoleBinding.ObjectMeta managedCRB)) →
  ContainsFinalizer (ManagedClusterRoleBinding.ObjectMeta managedCRB)
    SpokeAuthorizationFinalizer = true →
  ManagedClusterRoleBinding.Subjects managedCRB ≠ [] →
  managedClusterRoleBindings (spoke w) !! keyOf managedCRB = None →
  ∃ e, Reconcile r req w = (Fail e, (deleteAssociatedResources r managedCRB w).2).
Proof.
  intros L [t D] C NE N.
  destruct (ManagedClusterRoleBinding.Subjects managedCRB) as [|subject0 others] eqn:S;
    [done|clear NE].
  unfold controller.Reconcile.
  rewrite (bind_ok _ _ _ _ _ (onHub_loads _ _ _ _ L)), S.
  rewrite (bind_ok _ _ _ subject0 w) by done. rewrite D, C.
  pose proof (no_panic_deleteAssociatedResources r managedCRB w) as NP.
  destruct (deleteAssociatedResources r managedCRB w) as [[[]|e|] w1] eqn:F; [| |done].
  - pose proof (deleteAssociatedResources_frame _ _ _ _ _ F) as (_ & Hs & _).
    cbn [snd]. rewrite bind_unfold, (bind_ok _ _ _ _ _ F).
    unfold onSpoke, Update. rewrite bind_unfold. unfold call.
    rewrite keyOf_RemoveFinalizer. cbn [kindOf ManagedClusterRoleBinding_Object].
    destruct (faults _ _) as [e|]; cbn [fail ret].
    + exists e. by rewrite World_eta.
    + cbn [table ManagedClusterRoleBinding_Object]. rewrite Hs, N.
      exists ErrNotFound. by rewrite World_eta.
  - exists e. apply bind_fail. by apply bind_fail.
Qed.

(** X6.  A sweep that returns nil leaves of the spoke's service accounts,
    cluster roles and cluster role bindings exactly the objects that the
    Grant's labels do not match (all of a kind whose list call failed), and
    leaves the hub, the spoke's Grants and the spoke's role bindings as they
    were. *)
Theorem successful_sweep_takes_exactly_the_matching_objects r managedCRB w w' :
  wf_store (spoke w) →
  deleteAssociatedResources r managedCRB w = (Ok tt, w') →
  let selector :=
    SelectorFromSet (ObjectMeta.Labels (ManagedClusterRoleBinding.ObjectMeta managedCRB)) in
  hub w' = hub w
  ∧ managedClusterRoleBindings (spoke w') = managedClusterRoleBindings (spoke w)
  ∧ serviceAccounts (spoke w')
    = swept ServiceAccount.t (SpokeClient r) selector (serviceAccounts (spoke w))
  ∧ clusterRoles (spoke w')
    = swept ClusterRole.t (SpokeClient r) selector (clusterRoles (spoke w))
  ∧ clusterRoleBindings (spoke w')
    = swept ClusterRoleBinding.t (SpokeClient r) selector (clusterRoleBindings (spoke w))
  ∧ roleBindings (spoke w') = roleBindings (spoke w).
Proof.
  intros Hwf F selector.
  apply deleteAssociatedResources_inv in F as (m1 & m2 & m3 & -> & _ & _ & _ & E);
    [|done].
  destruct (E eq_refl) as (-> & -> & ->). by repeat split.
Qed.

(** X7.  Whatever its outcome, the sweep only deletes, and only objects that
    the Grant's labels match: every service account, cluster role and
    cluster role binding found on the spoke afterwards was there before,
    unchanged, and every one that the labels do not match is still there. *)
Theorem sweep_touches_only_matching_objects r managedCRB w res w' :
  wf_store (spoke w) →
  deleteAssociatedResources r managedCRB w = (res, w') →
  let selector :=
    SelectorFromSet (ObjectMeta.Labels (ManagedClusterRoleBinding.ObjectMeta managedCRB)) in
  only_swept selector (serviceAccounts (spoke w)) (serviceAccounts (spoke w'))
  ∧ only_swept selector (clusterRoles (spoke w)) (clusterRoles (spoke w'))
  ∧ only_swept selector (clusterRoleBindings (spoke w)) (clusterRoleBindings (spoke w')).
Proof.
  intros Hwf F selector.
  apply deleteAssociatedResources_inv in F as (m1 & m2 & m3 & -> & O1 & O2 & O3 & _);
    [|done].
  exact (conj O1 (conj O2 O3)).
Qed.

(** X8.  The selector made of an empty label set matches everything: the
    sweep for a Grant without labels, when it returns nil and its three list
    calls were answered, has deleted every service account, every cluster
    role and every cluster role binding of the spoke. *)
Theorem sweep_for_a_grant_without_labels_takes_everything r managedCRB w w' :
  ObjectMeta.Labels (ManagedClusterRoleBinding.ObjectMeta managedCRB) = ∅ →
  (∀ k, faults (SpokeClient r) (mkCall VList k ("", "")) = None) →
  wf_store (spoke w) →
  deleteAssociatedResources r managedCRB w = (Ok tt, w') →
  serviceAccounts (spoke w') = ∅
  ∧ clusterRoles (spoke w') = ∅
  ∧ clusterRoleBindings (spoke w') = ∅.
Proof.
  intros E NF Hwf F.
  apply deleteAssociatedResources_inv in F as (m1 & m2 & m3 & -> & _ & _ & _ & Hm);
    [|done].
  destruct (Hm eq_refl) as (-> & -> & ->).
  assert (∀ T `(!Object T) (m : gmap ObjectKey T),
            swept T (SpokeClient r)
              (SelectorFromSet
                 (ObjectMeta.Labels (ManagedClusterRoleBinding.ObjectMeta managedCRB))) m
            = ∅) as Hswept.
  { intros T ? m. unfold swept, unmatched. rewrite NF, E.
    apply map_eq. intros k. rewrite lookup_empty.
    apply map_lookup_filter_None. right. intros o _ NM. apply NM.
    unfold Matches, SelectorFromSet. exact (map_Forall_empty _). }
  cbn [spoke serviceAccounts clusterRoles clusterRoleBindings].
  by rewrite !Hswept.
Qed.

(** X9.  Whatever its outcome, an invocation for a Grant that is not being
    deleted changes on the spoke at most the Grant's own entry, the
    impersonation role, the impersonation binding and the Grant's binding
    (cluster-wide, or one in each listed namespace); it changes no service
    account, removes no object, and leaves the hub alone. *)
Theorem materialiser_stays_within_the_grants_objects
    r req w managedCRB subject0 others res w' :
  loads r req w managedCRB →
  ObjectMeta.DeletionTimestamp (ManagedClusterRoleBinding.ObjectMeta managedCRB) = None →
  ManagedClusterRoleBinding.Subjects managedCRB = subject0 :: others →
  wf_store (spoke w) →
  Reconcile r req w = (res, w') →
  let name := ObjectMeta.Name (ManagedClusterRoleBinding.ObjectMeta managedCRB) in
  let namespaces := ClusterRoleRef.Namespaces (ManagedClusterRoleBinding.RoleRef managedCRB) in
  let userName := Subject.Name subject0 in
  let hubOwnerID := (GetUserIDAndHubOwnerIDFromLabelValues managedCRB).2 in
  hub w' = hub w
  ∧ serviceAccounts (spoke w') = serviceAccounts (spoke w)
  ∧ (∀ k, k ≠ keyOf managedCRB →
          managedClusterRoleBindings (spoke w') !! k
          = managedClusterRoleBindings (spoke w) !! k)
  ∧ (∀ k, k ≠ ("", impersonateName userName hubOwnerID) →
          clusterRoles (spoke w') !! k = clusterRoles (spoke w) !! k)
  ∧ (∀ k, k ≠ ("", impersonateBindingName userName hubOwnerID) →
          (namespaces = None → k ≠ ("", name)) →
          clusterRoleBindings (spoke w') !! k = clusterRoleBindings (spoke w) !! k)
  ∧ (∀ k, (∀ listed ns, namespaces = Some listed → ns ∈ listed → k ≠ (ns, name)) →
          roleBindings (spoke w') !! k = roleBindings (spoke w) !! k)
  ∧ (∀ k, is_Some (managedClusterRoleBindings (spoke w) !! k) →
          is_Some (managedClusterRoleBindings (spoke w') !! k))
  ∧ (∀ k, is_Some (clusterRoles (spoke w) !! k) → is_Some (clusterRoles (spoke w') !! k))
  ∧ (∀ k, is_Some (clusterRoleBindings (spoke w) !! k) →
          is_Some (clusterRoleBindings (spoke w') !! k))
  ∧ (∀ k, is_Some (roleBindings (spoke w) !! k) → is_Some (roleBindings (spoke w') !! k)).
Proof.
  intros L D S Hwf R name namespaces userName hubOwnerID.
  destruct (Reconcile_footprint _ _ _ _ _ _ _ _ L D S Hwf R)
    as (Hh & [G1 G2] & SA & [R1 R2] & [B1 B2] & [N1 N2]).
  split; [done|]. split; [done|].
  split; [exact G1|]. split; [exact R1|].
  split; [|split; [|by repeat split]].
  - intros k NE1 NE2. apply B1. intros [?|[? ?]]; [done|by apply NE2].
  - intros k NE. apply N1. intros (listed & ns & ? & ? & ?). by eapply NE.
Qed.

(** X10.  A Grant whose list of namespaces is there but empty gives its user
    nothing: whatever the outcome of the invocation, no role binding of the
    spoke is written and no cluster role binding but the impersonation
    binding, so neither a cluster-wide nor a namespaced binding for the
    Grant appears. *)
Theorem empty_namespace_list_binds_the_user_nowhere
    r req w managedCRB subject0 others res w' :
  loads r req w managedCRB →
  ObjectMeta.DeletionTimestamp (ManagedClusterRoleBinding.ObjectMeta managedCRB) = None →
  ManagedClusterRoleBinding.Subjects managedCRB = subject0 :: others →
  ClusterRoleRef.Namespaces (ManagedClusterRoleBinding.RoleRef managedCRB) = Some [] →
  wf_store (spoke w) →
  Reconcile r req w = (res, w') →
  roleBindings (spoke w') = roleBindings (spoke w)
  ∧ (∀ k, k ≠ ("", impersonateBindingName (Subject.Name subject0)
                     (GetUserIDAndHubOwnerIDFromLabelValues managedCRB).2) →
          clusterRoleBindings (spoke w') !! k = clusterRoleBindings (spoke w) !! k).
Proof.
  intros L D S NS Hwf R.
  destruct (Reconcile_footprint _ _ _ _ _ _ _ _ L D S Hwf R)
    as (_ & _ & _ & _ & [B1 _] & [N1 _]).
  split.
  - apply map_eq. intros k. apply N1. rewrite NS.
    intros (listed & ns & [= <-] & IN & _). by apply elem_of_nil in IN.
  - intros k NE. apply B1. rewrite NS. by intros [?|[? _]].
Qed.

(** X11.  Of the Grant's subjects only the first is bound, and always as a
    user, whatever its kind: after a successful invocation the Grant's
    binding (the cluster-wide one, or the one in each listed namespace,
    however many there are and also when a namespace is listed twice) has
    the single subject (User, the first subject's name) and refers to the
    Grant's role, as a [ClusterRole] cluster-wide and as a [Role] in a
    namespace. *)
Theorem bindings_name_the_first_subject_only r req w managedCRB subject0 others res w' :
  loads r req w managedCRB →
  ObjectMeta.DeletionTimestamp (ManagedClusterRoleBinding.ObjectMeta managedCRB) = None →
  ManagedClusterRoleBinding.Subjects managedCRB = subject0 :: others →
  wf_store (spoke w) →
  Reconcile r req w = (Ok res, w') →
  let name := ObjectMeta.Name (ManagedClusterRoleBinding.ObjectMeta managedCRB) in
  let role := ClusterRoleRef.Name (ManagedClusterRoleBinding.RoleRef managedCRB) in
  (ClusterRoleRef.Namespaces (ManagedClusterRoleBinding.RoleRef managedCRB) = None →
   ∃ given,
     clusterRoleBindings (spoke w') !! ("", name) = Some given
     ∧ ClusterRoleBinding.Subjects given = [Subject.mk "User" "" (Subject.Name subject0) ""]
     ∧ ClusterRoleBinding.RoleRef given = RoleRef.mk rbac_GroupName "ClusterRole" role)
  ∧ (∀ namespaces ns,
       ClusterRoleRef.Namespaces (ManagedClusterRoleBinding.RoleRef managedCRB)
         = Some namespaces →
       ns ∈ namespaces →
       ∃ given,
         roleBindings (spoke w') !! (ns, name) = Some given
         ∧ RoleBinding.Subjects given = [Subject.mk "User" "" (Subject.Name subject0) ""]
         ∧ RoleBinding.RoleRef given = RoleRef.mk rbac_GroupName "Role" role).
Proof.
  intros L D S Hwf R name role.
  destruct (Reconcile_materialize_ok _ _ _ _ _ _ _ _ L D S Hwf R)
    as (_ & _ & sA & Hs & _).
  rewrite Hs. split.
  - intros NS.
    destruct (materialized_clusterBinding managedCRB (Subject.Name subject0)
                (GetUserIDAndHubOwnerIDFromLabelValues managedCRB).2 sA NS)
      as (b & Lb & SU & RR & _).
    by exists b.
  - intros namespaces ns NS IN.
    destruct (materialized_bindings managedCRB (Subject.Name subject0)
                (GetUserIDAndHubOwnerIDFromLabelValues managedCRB).2 sA _ ns NS IN)
      as (rb & Lr & SU & RR & _).
    by exists rb.
Qed.

(** X12.  The names of the impersonation role and binding do not tell the
    subject from the owner: the subject [u-x] of owner [o] and the subject
    [u] of owner [x-o] are given the same role name and the same binding
    name, so their Grants write to the same two objects. *)
Theorem impersonation_names_are_ambiguous (u x o : string) :
  impersonateName (u ++ "-" ++ x) o = impersonateName u (x ++ "-" ++ o)
  ∧ impersonateBindingName (u ++ "-" ++ x) o = impersonateBindingName u (x ++ "-" ++ o).
Proof.
  unfold impersonateName, impersonateBindingName.
  split; f_equal; by rewrite !append_assoc.
Qed.

(** X13.  For a Grant that is not being deleted: an invocation that fails
    part of the way, followed on the world it left by an invocation that
    succeeds, ends in the very world in which a single successful invocation
    would have ended; the calls that fail may differ from one invocation to
    the next. *)
Theorem retry_after_a_failed_attempt_converges r1 r2 r3 req w managedCRB subject0 others e w1 res2 w2 res3 w3 :
  loads r1 req w managedCRB →
  ObjectMeta.DeletionTimestamp (ManagedClusterRoleBinding.ObjectMeta managedCRB) = None →
  ManagedClusterRoleBinding.Subjects managedCRB = subject0 :: others →
  wf_store (spoke w) →
  Reconcile r1 req w = (Fail e, w1) →
  Reconcile r2 req w1 = (Ok res2, w2) →
  Reconcile r3 req w = (Ok res3, w3) →
  w2 = w3.
Proof.
  intros L D S Hwf R1 R2 R3.
  set (userName := Subject.Name subject0) in *.
  set (hubOwnerID := (GetUserIDAndHubOwnerIDFromLabelValues managedCRB).2) in *.
  destruct (Reconcile_ok_inv _ _ _ _ _ _ _ _ _ L D S Hwf R3) as (g3 & wA3 & A3 & ->).
  destruct (Reconcile_materialize_inv _ _ _ _ _ _ _ _ L D S Hwf R1)
    as [(e' & _ & _ & ->)|(g1 & wA1 & written & A1 & P & -> & _)].
  - destruct (Reconcile_ok_inv _ _ _ _ _ _ _ _ _ L D S Hwf R2) as (g2 & wA2 & A2 & ->).
    by rewrite (addFinalizerIfNeeded_agree _ _ _ _ _ _ _ _ A3 A2).
  - assert (wf_store (run written (spoke wA1))) as Hwf1.
    { apply run_wf; [|by eapply addFinalizerIfNeeded_wf].
      intros f s' IN. apply (steps_wf managedCRB userName hubOwnerID).
      by eapply elem_of_prefix. }
    assert (loads r1 req (mkWorld (hub w) (run written (spoke wA1))) managedCRB) as L1
      by exact L.
    destruct (Reconcile_ok_inv _ _ _ _ _ _ _ _ _ L1 D S Hwf1 R2) as (g2 & wA2 & A2 & ->).
    cbn [hub]. f_equal.
    rewrite (addFinalizerIfNeeded_resume _ _ _ _ _ _ (run written) _ _ A1
               (run_Grants _ _ _ _ _ P) A2).
    cbn [spoke]. rewrite materialized_absorbs_prefix by done.
    by rewrite (addFinalizerIfNeeded_agree _ _ _ _ _ _ _ _ A3 A1).
Qed.

(** X14.  What a successful invocation leaves for a Grant that is being
    deleted and carries the finalizer: the spoke held an object of the
    Grant's kind under the Grant's name, and that object is now the Grant
    without the finalizer; the three swept tables hold their unmatched
    objects; the role bindings of the spoke are as before; and the Grant on
    the hub is the one that was loaded, finalizer included. *)
Theorem successful_cleanup_releases_the_spoke_copy_only r req w managedCRB res w' :
  loads r req w managedCRB →
  is_Some (ObjectMeta.DeletionTimestamp (ManagedClusterRoleBinding.ObjectMeta managedCRB)) →
  ContainsFinalizer (ManagedClusterRoleBinding.ObjectMeta managedCRB)
    SpokeAuthorizationFinalizer = true →
  ManagedClusterRoleBinding.Subjects managedCRB ≠ [] →
  wf_store (spoke w) →
  Reconcile r req w = (Ok res, w') →
  let selector :=
    SelectorFromSet (ObjectMeta.Labels (ManagedClusterRoleBinding.ObjectMeta managedCRB)) in
  let released :=
    ManagedClusterRoleBinding.withObjectMeta
      (RemoveFinalizer (ManagedClusterRoleBinding.ObjectMeta managedCRB)
         SpokeAuthorizationFinalizer) managedCRB in
  is_Some (managedClusterRoleBindings (spoke w) !! keyOf managedCRB)
  ∧ managedClusterRoleBindings (spoke w')
    = <[keyOf managedCRB := released]> (managedClusterRoleBindings (spoke w))
  ∧ ContainsFinalizer (ManagedClusterRoleBinding.ObjectMeta released)
      SpokeAuthorizationFinalizer = false
  ∧ serviceAccounts (spoke w')
    = swept ServiceAccount.t (SpokeClient r) selector (serviceAccounts (spoke w))
  ∧ clusterRoles (spoke w')
    = swept ClusterRole.t (SpokeClient r) selector (clusterRoles (spoke w))
  ∧ clusterRoleBindings (spoke w')
    = swept ClusterRoleBinding.t (SpokeClient r) selector (clusterRoleBindings (spoke w))
  ∧ roleBindings (spoke w') = roleBindings (spoke w)
  ∧ hub w' = hub w
  ∧ managedClusterRoleBindings (hub w') !! NamespacedName req = Some managedCRB.
Proof.
  intros L [t D] C NE Hwf R selector released.
  destruct (ManagedClusterRoleBinding.Subjects managedCRB) as [|subject0 others] eqn:S;
    [done|clear NE].
  unfold controller.Reconcile in R.
  rewrite (bind_ok _ _ _ _ _ (onHub_loads _ _ _ _ L)), S in R.
  rewrite (bind_ok _ _ _ subject0 w) in R by done. rewrite D, C in R.
  apply bind_ok_inv in R as (a & w2 & R & [= _ <-]).
  apply bind_ok_inv in R as ([] & w1 & F & U).
  apply deleteAssociatedResources_inv in F as (m1 & m2 & m3 & -> & _ & _ & _ & E);
    [|done].
  destruct (E eq_refl) as (-> & -> & ->).
  apply onSpoke_inv in U as (s' & U & ->).
  apply Update_inv in U as [(_ & IS & ->)|(e & ? & _)]; [|done].
  split; [exact IS|]. split; [done|].
  split; [apply ContainsFinalizer_RemoveFinalizer|].
  do 5 (split; [done|]). exact (loads_inv _ _ _ _ L).
Qed.

(** X15.  A cluster-wide Grant that goes by the name of its own
    impersonation binding takes that binding's place: the two cluster role
    bindings are one object, and after a successful invocation it binds the
    user to the Grant's role, the gateway's service account being no subject
    of it. *)
Theorem grant_named_like_its_impersonation_binding_replaces_it
    r req w managedCRB subject0 others res w' :
  loads r req w managedCRB →
  ObjectMeta.DeletionTimestamp (ManagedClusterRoleBinding.ObjectMeta managedCRB) = None →
  ManagedClusterRoleBinding.Subjects managedCRB = subject0 :: others →
  ClusterRoleRef.Namespaces (ManagedClusterRoleBinding.RoleRef managedCRB) = None →
  ObjectMeta.Name (ManagedClusterRoleBinding.ObjectMeta managedCRB)
  = impersonateBindingName (Subject.Name subject0)
      (GetUserIDAndHubOwnerIDFromLabelValues managedCRB).2 →
  wf_store (spoke w) →
  Reconcile r req w = (Ok res, w') →
  ∃ b,
    clusterRoleBindings (spoke w')
      !! ("", impersonateBindingName (Subject.Name subject0)
                (GetUserIDAndHubOwnerIDFromLabelValues managedCRB).2)
    = Some b
    ∧ ClusterRoleBinding.Subjects b = [Subject.mk "User" "" (Subject.Name subject0) ""]
    ∧ ClusterRoleBinding.RoleRef b
      = RoleRef.mk rbac_GroupName "ClusterRole"
          (ClusterRoleRef.Name (ManagedClusterRoleBinding.RoleRef managedCRB))
    ∧ gatewaySubject ∉ ClusterRoleBinding.Subjects b.
Proof.
  intros L D S NS E Hwf R.
  destruct (Reconcile_materialize_ok _ _ _ _ _ _ _ _ L D S Hwf R)
    as (_ & _ & sA & Hs & _).
  destruct (materialized_clusterBinding managedCRB (Subject.Name subject0)
              (GetUserIDAndHubOwnerIDFromLabelValues managedCRB).2 sA NS)
    as (b & Lb & SU & RR & _).
  exists b. rewrite Hs, <- E. split; [exact Lb|]. split; [exact SU|]. split; [exact RR|].
  rewrite SU. intros IN. by apply list_elem_of_singleton in IN.
Qed.

(** X16.  The Grant's own binding is never written before the impersonation
    role and the impersonation binding are in place: whatever the outcome of
    an invocation for a Grant that is not being deleted, if it changed a
    role binding, or a cluster role binding other than the impersonation
    binding, then the spoke holds the impersonation role and an object under
    the impersonation binding's name; and if it changed any cluster role
    binding, the spoke holds the impersonation role. *)
Theorem grant_bindings_come_after_the_impersonation_objects
    r req w managedCRB subject0 others res w' :
  loads r req w managedCRB →
  ObjectMeta.DeletionTimestamp (ManagedClusterRoleBinding.ObjectMeta managedCRB) = None →
  ManagedClusterRoleBinding.Subjects managedCRB = subject0 :: others →
  wf_store (spoke w) →
  Reconcile r req w = (res, w') →
  let roleKey :=
    ("", impersonateName (Subject.Name subject0)
           (GetUserIDAndHubOwnerIDFromLabelValues managedCRB).2) in
  let bindingKey :=
    ("", impersonateBindingName (Subject.Name subject0)
           (GetUserIDAndHubOwnerIDFromLabelValues managedCRB).2) in
  (clusterRoleBindings (spoke w') ≠ clusterRoleBindings (spoke w) →
   is_Some (clusterRoles (spoke w') !! roleKey))
  ∧ (roleBindings (spoke w') ≠ roleBindings (spoke w) →
     is_Some (clusterRoles (spoke w') !! roleKey)
     ∧ is_Some (clusterRoleBindings (spoke w') !! bindingKey))
  ∧ (∀ k, k ≠ bindingKey →
          clusterRoleBindings (spoke w') !! k ≠ clusterRoleBindings (spoke w) !! k →
          is_Some (clusterRoles (spoke w') !! roleKey)
          ∧ is_Some (clusterRoleBindings (spoke w') !! bindingKey)).
Proof.
  intros L D S Hwf R roleKey bindingKey.
  set (userName := Subject.Name subject0) in *.
  set (hubOwnerID := (GetUserIDAndHubOwnerIDFromLabelValues managedCRB).2) in *.
  destruct (Reconcile_materialize_inv _ _ _ _ _ _ _ _ L D S Hwf R)
    as [(e & _ & _ & ->)|(g' & wA & written & A & P & -> & _)]; [done|].
  fold userName hubOwnerID in P.
  apply addFinalizerIfNeeded_inv in A
    as [(g'' & _ & _ & _ & _ & _ & m & ->)|(e & ? & _)]; [|done].
  cbn [hub spoke]. destruct (spoke w) as [gs sa crs crbs rbs].
  cbn [setTable ManagedClusterRoleBinding_Object managedClusterRoleBindings
       serviceAccounts clusterRoles clusterRoleBindings roleBindings].
  set (cr := desiredClusterRole managedCRB userName hubOwnerID).
  set (crb := desiredImpersonateBinding managedCRB userName hubOwnerID).
  unfold steps in P. fold cr crb in P.
  destruct written as [|f1 written].
  { cbn [run foldl clusterRoleBindings roleBindings]. by repeat split. }
  cbn [app] in P. pose proof (prefix_cons_inv_1 _ _ _ _ P) as ->.
  apply prefix_cons_inv_2 in P.
  destruct written as [|f2 written].
  { unfold run, applied. cbn [foldl]. store_cbn. by repeat split. }
  pose proof (prefix_cons_inv_1 _ _ _ _ P) as ->.
  apply prefix_cons_inv_2 in P.
  rewrite !run_cons.
  set (s2 := applied crb (copyClusterBinding crb)
               (applied cr (copyRules cr) (mkStore m sa crs crbs rbs))).
  assert (∀ f, f ∈ written → f ∈ steps managedCRB userName hubOwnerID) as IN.
  { intros f INf. unfold steps. apply elem_of_app. right. by eapply elem_of_prefix. }
  pose proof (run_footprint_in managedCRB userName hubOwnerID written s2 IN)
    as (_ & _ & [_ KR] & [_ KB] & _).
  assert (is_Some (clusterRoles (run written s2) !! roleKey)
          ∧ is_Some (clusterRoleBindings (run written s2) !! bindingKey)) as [HR HB];
    [|done].
  split.
  - apply KR. unfold s2, applied. store_cbn.
    change roleKey with (keyOf cr). rewrite (upsert_lookup (T:=ClusterRole.t)). eauto.
  - apply KB. unfold s2, applied. store_cbn.
    change bindingKey with (keyOf crb). rewrite (upsert_lookup (T:=ClusterRoleBinding.t)).
    eauto.
Qed.

(** X17.  A cluster-wide Grant can be taken back whole.  When the spoke held
    no object under the names of the impersonation role, the impersonation
    binding and the Grant's binding, and an invocation materialised the
    Grant, then a sweep for a Grant with the same labels that returns nil,
    its list calls answered, leaves none of the three objects behind. *)
Theorem cluster_wide_grant_is_swept_whole
    r1 r2 req w managedCRB subject0 others res w1 deleted w2 :
  loads r1 req w managedCRB →
  ObjectMeta.DeletionTimestamp (ManagedClusterRoleBinding.ObjectMeta managedCRB) = None →
  ManagedClusterRoleBinding.Subjects managedCRB = subject0 :: others →
  ClusterRoleRef.Namespaces (ManagedClusterRoleBinding.RoleRef managedCRB) = None →
  wf_store (spoke w) →
  let name := ObjectMeta.Name (ManagedClusterRoleBinding.ObjectMeta managedCRB) in
  let roleKey :=
    ("", impersonateName (Subject.Name subject0)
           (GetUserIDAndHubOwnerIDFromLabelValues managedCRB).2) in
  let bindingKey :=
    ("", impersonateBindingName (Subject.Name subject0)
           (GetUserIDAndHubOwnerIDFromLabelValues managedCRB).2) in
  clusterRoles (spoke w) !! roleKey = None →
  clusterRoleBindings (spoke w) !! bindingKey = None →
  clusterRoleBindings (spoke w) !! ("", name) = None →
  Reconcile r1 req w = (Ok res, w1) →
  ObjectMeta.Labels (ManagedClusterRoleBinding.ObjectMeta deleted)
  = ObjectMeta.Labels (ManagedClusterRoleBinding.ObjectMeta managedCRB) →
  (∀ k, faults (SpokeClient r2) (mkCall VList k ("", "")) = None) →
  deleteAssociatedResources r2 deleted w1 = (Ok tt, w2) →
  (is_Some (clusterRoles (spoke w1) !! roleKey)
   ∧ is_Some (clusterRoleBindings (spoke w1) !! bindingKey)
   ∧ is_Some (clusterRoleBindings (spoke w1) !! ("", name)))
  ∧ clusterRoles (spoke w2) !! roleKey = None
  ∧ clusterRoleBindings (spoke w2) !! bindingKey = None
  ∧ clusterRoleBindings (spoke w2) !! ("", name) = None.
Proof.
  intros L D S NS Hwf name roleKey bindingKey NR NB NG R EL NF F.
  set (userName := Subject.Name subject0) in *.
  set (hubOwnerID := (GetUserIDAndHubOwnerIDFromLabelValues managedCRB).2) in *.
  set (labels := ObjectMeta.Labels (ManagedClusterRoleBinding.ObjectMeta managedCRB)) in *.
  destruct (Reconcile_materialize_ok _ _ _ _ _ _ _ _ L D S Hwf R)
    as (_ & _ & sA & Hs & HwfA & _ & HCR & HCRB & _ & _).
  fold userName hubOwnerID in Hs.
  assert (wf_store (spoke w1)) as Hwf1 by (rewrite Hs; by apply wf_store_materialized).
  rewrite <- HCR in NR. rewrite <- HCRB in NB, NG.
  destruct (materialized_clusterRole managedCRB userName hubOwnerID sA)
    as (cr & Lc & _ & Mc).
  destruct (materialized_clusterBinding managedCRB userName hubOwnerID sA NS)
    as (b & Lb & _ & _ & Mb).
  fold roleKey in Lc, Mc. fold name in Lb, Mb. rewrite NR in Mc. rewrite NG in Mb.
  assert (∃ crb, clusterRoleBindings (materialized managedCRB userName hubOwnerID sA)
                   !! bindingKey = Some crb
                 ∧ labelsOf crb = labels) as (crb & Lcrb & Mcrb).
  { destruct (decide (name = impersonateBindingName userName hubOwnerID)) as [E|NE].
    - exists b. unfold bindingKey. by rewrite <- E.
    - destruct (materialized_impersonateBinding managedCRB userName hubOwnerID sA)
        as (crb & Lcrb & _ & _ & Mcrb); [done|].
      fold bindingKey in Lcrb, Mcrb. rewrite NB in Mcrb.
      exists crb. split; [exact Lcrb|]. unfold labelsOf. by rewrite Mcrb. }
  rewrite <- Hs in Lc, Lb, Lcrb.
  split; [by rewrite Lc, Lb, Lcrb|].
  apply deleteAssociatedResources_inv in F as (m1 & m2 & m3 & -> & _ & _ & _ & Hm);
    [|done].
  destruct (Hm eq_refl) as (_ & -> & ->).
  cbn [spoke clusterRoles clusterRoleBindings]. rewrite EL. fold labels.
  split; [|split].
  - apply (swept_lookup_matched ClusterRole.t _ _ _ _ cr); [apply NF|exact Lc|].
    unfold labelsOf. rewrite Mc. apply Matches_refl.
  - apply (swept_lookup_matched ClusterRoleBinding.t _ _ _ _ crb); [apply NF|exact Lcrb|].
    rewrite Mcrb. apply Matches_refl.
  - apply (swept_lookup_matched ClusterRoleBinding.t _ _ _ _ b); [apply NF|exact Lb|].
    rewrite Mb. apply Matches_refl.
Qed.

End Controller_facts.

(** * The specification on the example clusters *)

Import example.

(** A decidable statement about concrete data, settled by evaluation. *)
Ltac decide_by_computing :=
  match goal with
  | |- ?P => apply (bool_decide_unpack P); vm_compute; exact I
  end.

(** C3 (counterexample).  The hub holds no Grant [g1]: loading it reports
    not-found, and the invocation ends in that error instead of succeeding. *)
Lemma not_found_is_reported_as_an_error :
  Get (T:=ManagedClusterRoleBinding.t) (HubClient quiet) ("", "g1") (hubOf [g2])
    = (Fail ErrNotFound, hubOf [g2])
  ∧ reconcile quiet "g1" (mkWorld (hubOf [g2]) emptyStore)
    = (Fail ErrNotFound, mkWorld (hubOf [g2]) emptyStore).
Proof. split; vm_compute; reflexivity. Qed.

Lemma load_error_is_returned_witness :
  Get (T:=ManagedClusterRoleBinding.t) (HubClient quiet) ("", "g1") emptyStore
    = (Fail ErrNotFound, emptyStore)
  ∧ reconcile quiet "g1" (mkWorld emptyStore emptyStore)
    = (Fail ErrNotFound, mkWorld emptyStore emptyStore).
Proof.
  assert (Get (T:=ManagedClusterRoleBinding.t) (HubClient quiet) ("", "g1") emptyStore
          = (Fail ErrNotFound, emptyStore)) as G by (vm_compute; reflexivity).
  split; [exact G|].
  exact (load_error_is_returned finalizer owner quiet (request "g1")
           (mkWorld emptyStore emptyStore) ErrNotFound emptyStore G).
Defined.

Lemma first_subject_is_read_before_branching_witness :
  loads quiet (request "g4") world_g4_deleting g4_deleting
  ∧ ObjectMeta.DeletionTimestamp (ManagedClusterRoleBinding.ObjectMeta g4_deleting)
    = Some 1%Z
  ∧ reconcile quiet "g4" world_g4_deleting = (Panic, world_g4_deleting).
Proof.
  assert (loads quiet (request "g4") world_g4_deleting g4_deleting) as L
    by (vm_compute; reflexivity).
  split; [exact L|]. split; [reflexivity|].
  apply (first_subject_is_read_before_branching finalizer owner quiet (request "g4")
           world_g4_deleting g4_deleting L).
  reflexivity.
Defined.

Lemma finalizer_is_kept_until_the_sweep_succeeds_witness :
  clusterRoles (spoke world_g1_deleting) !! ("", "impersonate-alice-hub1")
    = Some (desiredClusterRole g1 "alice" "hub1")
  ∧ (controller.deleteAssociatedResources flaky g1_deleting world_g1_deleting).1
    = Fail (ErrOther "unavailable")
  ∧ clusterRoles
      (spoke (controller.deleteAssociatedResources flaky g1_deleting world_g1_deleting).2)
    = ∅
  ∧ reconcile flaky "g1" world_g1_deleting
    = (Fail (ErrOther "unavailable"),
       (controller.deleteAssociatedResources flaky g1_deleting world_g1_deleting).2)
  ∧ managedClusterRoleBindings
      (hub (controller.deleteAssociatedResources flaky g1_deleting world_g1_deleting).2)
      !! ("", "g1") = Some g1_deleting.
Proof.
  assert (loads flaky (request "g1") world_g1_deleting g1_deleting) as L
    by (vm_compute; reflexivity).
  assert (controller.deleteAssociatedResources flaky g1_deleting world_g1_deleting
          = (Fail (ErrOther "unavailable"),
             (controller.deleteAssociatedResources flaky g1_deleting world_g1_deleting).2))
    as F by (vm_compute; reflexivity).
  destruct (finalizer_is_kept_until_the_sweep_succeeds finalizer owner flaky (request "g1")
              world_g1_deleting g1_deleting L) as [Hfail _].
  - by eexists.
  - vm_compute; reflexivity.
  - discriminate.
  - destruct (Hfail _ _ F) as (R & Hh & _ & _).
    split; [vm_compute; reflexivity|]. split; [by rewrite F|].
    split; [vm_compute; reflexivity|]. split; [exact R|].
    rewrite Hh. vm_compute; reflexivity.
Defined.

Lemma scenario_cluster_wide_grant_witness :
  reconcile quiet "g1" world_g1 = (Ok emptyResult, mkWorld (hubOf [g1]) spokeOf_g1)
  ∧ (∃ cr,
       clusterRoles spokeOf_g1 !! ("", "impersonate-alice-hub1") = Some cr
       ∧ ObjectMeta.Name (ClusterRole.ObjectMeta cr) = "impersonate-alice-hub1"
       ∧ ClusterRole.Rules cr = [PolicyRule.mk ["impersonate"] [""] ["users"] ["alice"]])
  ∧ (∃ crb,
       clusterRoleBindings spokeOf_g1 !! ("", "impersonate-alice-hub1-rolebinding")
         = Some crb
       ∧ ObjectMeta.Name (ClusterRoleBinding.ObjectMeta crb)
         = "impersonate-alice-hub1-rolebinding"
       ∧ ClusterRoleBinding.Subjects crb = [gatewaySubject]
       ∧ ClusterRoleBinding.RoleRef crb
         = RoleRef.mk rbac_GroupName "ClusterRole" "impersonate-alice-hub1")
  ∧ (∃ given,
       clusterRoleBindings spokeOf_g1 !! ("", "g1") = Some given
       ∧ ObjectMeta.Name (ClusterRoleBinding.ObjectMeta given) = "g1"
       ∧ ClusterRoleBinding.Subjects given = [Subject.mk "User" "" "alice" ""]
       ∧ ClusterRoleBinding.RoleRef given
         = RoleRef.mk rbac_GroupName "ClusterRole" "viewer").
Proof.
  assert (reconcile quiet "g1" world_g1 = (Ok emptyResult, mkWorld (hubOf [g1]) spokeOf_g1))
    as R by (vm_compute; reflexivity).
  split; [exact R|].
  assert (loads quiet (request "g1") world_g1 g1) as L by (vm_compute; reflexivity).
  assert (wf_store (spoke world_g1)) as W
    by decide_by_computing.
  destruct (scenario_cluster_wide_grant finalizer owner quiet (request "g1") world_g1 g1
              (userSubject "alice") [] emptyResult (mkWorld (hubOf [g1]) spokeOf_g1)
              L eq_refl eq_refl eq_refl eq_refl eq_refl eq_refl eq_refl W R)
    as (H1 & H2 & H3 & _).
  exact (conj H1 (conj H2 H3)).
Defined.

Lemma namespace_fan_out_witness :
  reconcile quiet "g3" world_g3 = (Ok emptyResult, mkWorld (hubOf [g3]) spokeOf_g3)
  ∧ (∀ ns, ns ∈ ["a"; "b"; "c"] →
       ∃ rb,
         roleBindings spokeOf_g3 !! (ns, "g3") = Some rb
         ∧ ObjectMeta.Name (RoleBinding.ObjectMeta rb) = "g3"
         ∧ ObjectMeta.Namespace (RoleBinding.ObjectMeta rb) = ns
         ∧ RoleBinding.Subjects rb = [Subject.mk "User" "" "alice" ""]
         ∧ RoleBinding.RoleRef rb = RoleRef.mk rbac_GroupName "Role" "viewer")
  ∧ (∀ k, k ∉ [("a", "g3"); ("b", "g3"); ("c", "g3")] → roleBindings spokeOf_g3 !! k = None)
  ∧ clusterRoleBindings spokeOf_g3 !! ("", "g3") = None.
Proof.
  assert (reconcile quiet "g3" world_g3 = (Ok emptyResult, mkWorld (hubOf [g3]) spokeOf_g3))
    as R by (vm_compute; reflexivity).
  split; [exact R|].
  assert (loads quiet (request "g3") world_g3 g3) as L by (vm_compute; reflexivity).
  assert (wf_store (spoke world_g3)) as W
    by decide_by_computing.
  assert ("a" ≠ "b") as AB by discriminate.
  assert ("a" ≠ "c") as AC by discriminate.
  assert ("b" ≠ "c") as BC by discriminate.
  destruct (namespace_fan_out finalizer owner quiet (request "g3") world_g3 g3
              (userSubject "alice") [] "a" "b" "c" emptyResult
              (mkWorld (hubOf [g3]) spokeOf_g3)
              L eq_refl eq_refl eq_refl eq_refl AB AC BC W R)
    as (H1 & _ & H3 & H4).
  split; [exact H1|]. split; [exact H3|]. apply H4. discriminate.
Defined.

Lemma second_reconcile_changes_nothing_witness :
  reconcile quiet "g1" world_g1 = (Ok emptyResult, mkWorld (hubOf [g1]) spokeOf_g1)
  ∧ reconcile quiet "g1" (mkWorld (hubOf [g1]) spokeOf_g1)
    = (Ok emptyResult, mkWorld (hubOf [g1]) spokeOf_g1).
Proof.
  assert (reconcile quiet "g1" world_g1 = (Ok emptyResult, mkWorld (hubOf [g1]) spokeOf_g1))
    as R1 by (vm_compute; reflexivity).
  split; [exact R1|].
  destruct (reconcile quiet "g1" (mkWorld (hubOf [g1]) spokeOf_g1)) as [out2 w2] eqn:R2.
  assert (out2 = Ok emptyResult) as -> by (by vm_compute in R2; injection R2 as <- _).
  assert (loads quiet (request "g1") world_g1 g1) as L by (vm_compute; reflexivity).
  assert (wf_store (spoke world_g1)) as W
    by decide_by_computing.
  destruct (second_reconcile_changes_nothing finalizer owner quiet quiet (request "g1")
              world_g1 g1 (userSubject "alice") [] emptyResult
              (mkWorld (hubOf [g1]) spokeOf_g1) emptyResult w2
              L eq_refl eq_refl eq_refl W R1 R2)
    as [Hs Hh].
  f_equal. destruct w2 as [h2 s2]. cbn [hub spoke] in Hs, Hh. by rewrite Hs, Hh.
Defined.

(** C6 on the example: a second invocation whose last write fails leaves
    the world as the first invocation left it. *)
Example failed_second_reconcile :
  reconcile readOnly "g1" (mkWorld (hubOf [g1]) spokeOf_g1)
  = (Fail (ErrOther "conflict"), mkWorld (hubOf [g1]) spokeOf_g1).
Proof. vm_compute; reflexivity. Qed.

(** C9 (counterexample).  [g1] and [g2] are Grants for the same user and
    owner, with different labels.  Materialising [g2] after [g1] updates the
    impersonation role they share, and the role still carries the labels of
    [g1], which are not those of [g2]. *)
Lemma updated_role_keeps_its_old_labels :
  reconcile quiet "g2" world_g2
  = (Ok emptyResult, (reconcile quiet "g2" world_g2).2)
  ∧ (∃ cr,
       clusterRoles (spoke (reconcile quiet "g2" world_g2).2)
         !! ("", "impersonate-alice-hub1") = Some cr
       ∧ ClusterRole.Rules cr = [PolicyRule.mk ["impersonate"] [""] ["users"] ["alice"]]
       ∧ labelsOf cr = labelsFor "g1"
       ∧ bool_decide
           (labelsOf cr = ObjectMeta.Labels (ManagedClusterRoleBinding.ObjectMeta g2))
         = false).
Proof.
  split; [vm_compute; reflexivity|].
  eexists. split; [vm_compute; reflexivity|]. repeat split; vm_compute; reflexivity.
Qed.

Lemma created_objects_carry_the_grant_labels_witness :
  reconcile quiet "g1" world_g1 = (Ok emptyResult, mkWorld (hubOf [g1]) spokeOf_g1)
  ∧ (∃ cr,
       clusterRoles spokeOf_g1 !! ("", "impersonate-alice-hub1") = Some cr
       ∧ labelsOf cr = labelsFor "g1")
  ∧ (∃ crb,
       clusterRoleBindings spokeOf_g1 !! ("", "impersonate-alice-hub1-rolebinding")
         = Some crb
       ∧ labelsOf crb = labelsFor "g1")
  ∧ (∃ given,
       clusterRoleBindings spokeOf_g1 !! ("", "g1") = Some given
       ∧ labelsOf given = labelsFor "g1").
Proof.
  assert (reconcile quiet "g1" world_g1 = (Ok emptyResult, mkWorld (hubOf [g1]) spokeOf_g1))
    as R by (vm_compute; reflexivity).
  split; [exact R|].
  assert (loads quiet (request "g1") world_g1 g1) as L by (vm_compute; reflexivity).
  assert (wf_store (spoke world_g1)) as W
    by decide_by_computing.
  destruct (created_objects_carry_the_grant_labels finalizer owner quiet (request "g1")
              world_g1 g1 (userSubject "alice") [] emptyResult
              (mkWorld (hubOf [g1]) spokeOf_g1) L eq_refl eq_refl W R)
    as (H1 & H2 & H3 & _).
  split; [exact H1|]. split; [exact H2|]. exact (H3 eq_refl).
Defined.

(** C8 on the example: the list call for cluster roles fails, the sweep
    succeeds all the same, the cluster role stays and the cluster role
    bindings, which come after it, are deleted. *)
Example failed_list_is_skipped :
  List (T:=ClusterRole.t) (SpokeClient shortSighted)
    (SelectorFromSet (labelsFor "g1")) (spoke world_g1_deleting)
  = (Fail (ErrOther "timeout"), spoke world_g1_deleting)
  ∧ (controller.deleteAssociatedResources shortSighted g1_deleting world_g1_deleting).1
    = Ok tt
  ∧ clusterRoles
      (spoke (controller.deleteAssociatedResources shortSighted g1_deleting
                world_g1_deleting).2)
    = clusterRoles spokeOf_g1
  ∧ clusterRoleBindings
      (spoke (controller.deleteAssociatedResources shortSighted g1_deleting
                world_g1_deleting).2)
    = ∅.
Proof. repeat split; vm_compute; reflexivity. Qed.

(** C8 on the example: deleting the cluster role fails; the sweep returns
    that error, the cluster role is still there, and the cluster role
    bindings, whose turn had not come, are all still there. *)
Example failed_delete_aborts :
  List (T:=ClusterRole.t) (SpokeClient stuck)
    (SelectorFromSet (labelsFor "g1")) (spoke world_g1_deleting)
  = (Ok [desiredClusterRole g1 "alice" "hub1"], spoke world_g1_deleting)
  ∧ (controller.deleteAssociatedResources stuck g1_deleting world_g1_deleting).1
    = Fail (ErrOther "forbidden")
  ∧ (controller.deleteAssociatedResources stuck g1_deleting world_g1_deleting).2
    = world_g1_deleting.
Proof. repeat split; vm_compute; reflexivity. Qed.

(** C1 on the example.  The Grant [g3], scoped to the namespaces [a], [b]
    and [c], is being deleted and carries the finalizer; the spoke holds what
    was materialised for it.  The sweep succeeds, and the three role bindings
    made for the Grant, which carry its labels, are still listed under those
    labels afterwards: the sweeper lists service accounts, cluster roles and
    cluster role bindings, never role bindings.  The update that removes the
    finalizer is then sent to the spoke, which holds no Grant, so the
    invocation fails and the Grant on the hub keeps its finalizer. *)
Theorem namespaced_bindings_survive_the_sweep :
  controller.deleteAssociatedResources quiet g3_deleting world_g3_deleting
  = (Ok tt, (controller.deleteAssociatedResources quiet g3_deleting world_g3_deleting).2)
  ∧ (∃ items,
       List (T:=RoleBinding.t) (SpokeClient quiet)
         (SelectorFromSet
            (ObjectMeta.Labels (ManagedClusterRoleBinding.ObjectMeta g3_deleting)))
         (spoke (controller.deleteAssociatedResources quiet g3_deleting
                   world_g3_deleting).2)
       = (Ok items,
          spoke (controller.deleteAssociatedResources quiet g3_deleting
                   world_g3_deleting).2)
       ∧ keyOf <$> items ≡ₚ [("a", "g3"); ("b", "g3"); ("c", "g3")]
       ∧ Forall (λ rb, labelsOf rb
                       = ObjectMeta.Labels (ManagedClusterRoleBinding.ObjectMeta g3_deleting))
           items)
  ∧ reconcile quiet "g3" world_g3_deleting
    = (Fail ErrNotFound,
       (controller.deleteAssociatedResources quiet g3_deleting world_g3_deleting).2)
  ∧ managedClusterRoleBindings
      (hub (controller.deleteAssociatedResources quiet g3_deleting world_g3_deleting).2)
      !! ("", "g3") = Some g3_deleting
  ∧ ContainsFinalizer (ManagedClusterRoleBinding.ObjectMeta g3_deleting) finalizer = true.
Proof.
  split; [vm_compute; reflexivity|]. split.
  - eexists. split; [vm_compute; reflexivity|]. split.
    + vm_compute. apply (Permutation_cons_append [("a", "g3"); ("b", "g3")]).
    + repeat constructor; vm_compute; reflexivity.
  - repeat split; vm_compute; reflexivity.
Qed.

(** C2 on the example.  Adding the finalizer to the new Grant [g1]: the
    update goes to the spoke, which holds no Grant, so the invocation fails
    with not-found and the hub is as before.  Removing the finalizer from the
    deleted Grant [g1], on a spoke that happens to hold an object of that
    kind and name: the update lands on the spoke's object, the invocation
    succeeds, and the Grant on the hub still carries the finalizer. *)
Theorem finalizer_updates_go_to_the_spoke :
  ContainsFinalizer (ManagedClusterRoleBinding.ObjectMeta g1_new) finalizer = false
  ∧ reconcile quiet "g1" world_g1_new = (Fail ErrNotFound, world_g1_new)
  ∧ ContainsFinalizer (ManagedClusterRoleBinding.ObjectMeta g1_deleting) finalizer = true
  ∧ (reconcile quiet "g1" world_g1_mirrored).1 = Ok emptyResult
  ∧ hub (reconcile quiet "g1" world_g1_mirrored).2 = hubOf [g1_deleting]
  ∧ managedClusterRoleBindings (spoke (reconcile quiet "g1" world_g1_mirrored).2)
      !! ("", "g1")
    = Some (grant "g1" [] (Some 1%Z) alice None).
Proof. repeat split; vm_compute; reflexivity. Qed.

(** * Further properties on the example clusters *)

Lemma deleted_grant_without_finalizer_is_left_alone_witness :
  loads quiet (request "g1") world_g1_orphaned g1_orphaned
  ∧ clusterRoleBindings (spoke world_g1_orphaned) !! ("", "g1")
    = Some (desiredClusterBinding g1 "alice")
  ∧ reconcile quiet "g1" world_g1_orphaned = (Ok emptyResult, world_g1_orphaned).
Proof.
  assert (loads quiet (request "g1") world_g1_orphaned g1_orphaned) as L
    by (vm_compute; reflexivity).
  assert (is_Some (ObjectMeta.DeletionTimestamp
                     (ManagedClusterRoleBinding.ObjectMeta g1_orphaned))) as D
    by (by eexists).
  assert (ManagedClusterRoleBinding.Subjects g1_orphaned ≠ []) as NE by discriminate.
  split; [exact L|]. split; [vm_compute; reflexivity|].
  exact (deleted_grant_without_finalizer_is_left_alone finalizer owner quiet (request "g1")
           world_g1_orphaned g1_orphaned L D eq_refl NE).
Defined.

Lemma reconcile_never_asks_for_a_requeue_witness :
  reconcile quiet "g3" world_g3 = (Ok emptyResult, mkWorld (hubOf [g3]) spokeOf_g3)
  ∧ Requeue emptyResult = false
  ∧ RequeueAfter emptyResult = 0%Z.
Proof.
  assert (reconcile quiet "g3" world_g3 = (Ok emptyResult, mkWorld (hubOf [g3]) spokeOf_g3))
    as R by (vm_compute; reflexivity).
  split; [exact R|].
  exact (proj2 (reconcile_never_asks_for_a_requeue finalizer owner quiet (request "g3")
                  world_g3 emptyResult (mkWorld (hubOf [g3]) spokeOf_g3) R)).
Defined.

Lemma new_grant_needs_a_copy_on_the_spoke_witness :
  loads quiet (request "g1") world_g1_new g1_new
  ∧ managedClusterRoleBindings (spoke world_g1_new) !! keyOf g1_new = None
  ∧ reconcile quiet "g1" world_g1_new = (Fail ErrNotFound, world_g1_new).
Proof.
  assert (loads quiet (request "g1") world_g1_new g1_new) as L
    by (vm_compute; reflexivity).
  assert (ManagedClusterRoleBinding.Subjects g1_new ≠ []) as NE by discriminate.
  split; [exact L|]. split; [reflexivity|].
  exact (new_grant_needs_a_copy_on_the_spoke finalizer owner quiet (request "g1")
           world_g1_new g1_new L eq_refl eq_refl NE eq_refl).
Defined.

Lemma cleanup_needs_a_copy_on_the_spoke_witness :
  loads quiet (request "g1") world_g1_deleting g1_deleting
  ∧ managedClusterRoleBindings (spoke world_g1_deleting) !! keyOf g1_deleting = None
  ∧ ∃ e, reconcile quiet "g1" world_g1_deleting
         = (Fail e, (controller.deleteAssociatedResources quiet g1_deleting
                       world_g1_deleting).2).
Proof.
  assert (loads quiet (request "g1") world_g1_deleting g1_deleting) as L
    by (vm_compute; reflexivity).
  assert (is_Some (ObjectMeta.DeletionTimestamp
                     (ManagedClusterRoleBinding.ObjectMeta g1_deleting))) as D
    by (by eexists).
  assert (ManagedClusterRoleBinding.Subjects g1_deleting ≠ []) as NE by discriminate.
  assert (managedClusterRoleBindings (spoke world_g1_deleting) !! keyOf g1_deleting = None)
    as N by (vm_compute; reflexivity).
  split; [exact L|]. split; [exact N|].
  exact (cleanup_needs_a_copy_on_the_spoke finalizer owner quiet (request "g1")
           world_g1_deleting g1_deleting L D eq_refl NE N).
Defined.

Lemma successful_sweep_takes_exactly_the_matching_objects_witness :
  controller.deleteAssociatedResources quiet g1_deleting world_g1_deleting_bystander
  = (Ok tt, mkWorld (hubOf [g1_deleting])
              (mkStore ∅ ∅ {[keyOf bystander := bystander]} ∅ ∅))
  ∧ swept ClusterRole.t noFaults (labelsFor "g1") (clusterRoles spoke_with_bystander)
    = {[keyOf bystander := bystander]}
  ∧ swept ClusterRoleBinding.t noFaults (labelsFor "g1")
      (clusterRoleBindings spoke_with_bystander)
    = ∅.
Proof.
  assert (wf_store (spoke world_g1_deleting_bystander)) as W by decide_by_computing.
  assert (controller.deleteAssociatedResources quiet g1_deleting world_g1_deleting_bystander
          = (Ok tt, mkWorld (hubOf [g1_deleting])
                      (mkStore ∅ ∅ {[keyOf bystander := bystander]} ∅ ∅)))
    as F by (vm_compute; reflexivity).
  split; [exact F|].
  destruct (successful_sweep_takes_exactly_the_matching_objects quiet g1_deleting
              world_g1_deleting_bystander _ W F)
    as (_ & _ & _ & H2 & H3 & _).
  split; [symmetry; exact H2|symmetry; exact H3].
Defined.

Lemma sweep_touches_only_matching_objects_witness :
  (controller.deleteAssociatedResources stuck g1_deleting world_g1_deleting_bystander).1
  = Fail (ErrOther "forbidden")
  ∧ only_swept (labelsFor "g1") (clusterRoles spoke_with_bystander)
      (clusterRoles
         (spoke (controller.deleteAssociatedResources stuck g1_deleting
                   world_g1_deleting_bystander).2))
  ∧ only_swept (labelsFor "g1") (clusterRoleBindings spoke_with_bystander)
      (clusterRoleBindings
         (spoke (controller.deleteAssociatedResources stuck g1_deleting
                   world_g1_deleting_bystander).2)).
Proof.
  assert (wf_store (spoke world_g1_deleting_bystander)) as W by decide_by_computing.
  assert (controller.deleteAssociatedResources stuck g1_deleting world_g1_deleting_bystander
          = (Fail (ErrOther "forbidden"),
             (controller.deleteAssociatedResources stuck g1_deleting
                world_g1_deleting_bystander).2))
    as F by (vm_compute; reflexivity).
  split; [by rewrite F|].
  exact (proj2 (sweep_touches_only_matching_objects stuck g1_deleting
                  world_g1_deleting_bystander _ _ W F)).
Defined.

Lemma sweep_for_a_grant_without_labels_takes_everything_witness :
  clusterRoles (spoke world_g5_deleting) !! ("", "admin") = Some bystander
  ∧ controller.deleteAssociatedResources quiet g5_deleting world_g5_deleting
    = (Ok tt, mkWorld (hubOf [g5_deleting]) emptyStore)
  ∧ clusterRoles emptyStore = ∅.
Proof.
  assert (wf_store (spoke world_g5_deleting)) as W by decide_by_computing.
  assert (controller.deleteAssociatedResources quiet g5_deleting world_g5_deleting
          = (Ok tt, mkWorld (hubOf [g5_deleting]) emptyStore))
    as F by (vm_compute; reflexivity).
  split; [vm_compute; reflexivity|]. split; [exact F|].
  exact (proj1 (proj2 (sweep_for_a_grant_without_labels_takes_everything quiet g5_deleting
                         world_g5_deleting _ eq_refl (λ _, eq_refl) W F))).
Defined.

Lemma materialiser_stays_within_the_grants_objects_witness :
  loads halfway (request "g1") world_g1_bystander g1
  ∧ (reconcile halfway "g1" world_g1_bystander).1 = Fail (ErrOther "quota")
  ∧ hub (reconcile halfway "g1" world_g1_bystander).2 = hubOf [g1]
  ∧ clusterRoles (spoke (reconcile halfway "g1" world_g1_bystander).2) !! ("", "admin")
    = Some bystander
  ∧ is_Some (clusterRoles (spoke (reconcile halfway "g1" world_g1_bystander).2)
               !! ("", "impersonate-alice-hub1")).
Proof.
  assert (loads halfway (request "g1") world_g1_bystander g1) as L
    by (vm_compute; reflexivity).
  assert (wf_store (spoke world_g1_bystander)) as W by decide_by_computing.
  assert (reconcile halfway "g1" world_g1_bystander
          = (Fail (ErrOther "quota"), (reconcile halfway "g1" world_g1_bystander).2))
    as R by (vm_compute; reflexivity).
  destruct (materialiser_stays_within_the_grants_objects finalizer owner halfway
              (request "g1") world_g1_bystander g1 (userSubject "alice") [] _ _
              L eq_refl eq_refl W R)
    as (Hh & _ & _ & HCR & _).
  split; [exact L|]. split; [by rewrite R|]. split; [exact Hh|].
  split; [|vm_compute; by eexists].
  rewrite HCR; [vm_compute; reflexivity|discriminate].
Defined.

Lemma empty_namespace_list_binds_the_user_nowhere_witness :
  loads quiet (request "g6") world_g6 g6
  ∧ (reconcile quiet "g6" world_g6).1 = Ok emptyResult
  ∧ roleBindings (spoke (reconcile quiet "g6" world_g6).2) = ∅
  ∧ clusterRoleBindings (spoke (reconcile quiet "g6" world_g6).2) !! ("", "g6") = None.
Proof.
  assert (loads quiet (request "g6") world_g6 g6) as L by (vm_compute; reflexivity).
  assert (wf_store (spoke world_g6)) as W by decide_by_computing.
  assert (reconcile quiet "g6" world_g6
          = (Ok emptyResult, (reconcile quiet "g6" world_g6).2))
    as R by (vm_compute; reflexivity).
  destruct (empty_namespace_list_binds_the_user_nowhere finalizer owner quiet
              (request "g6") world_g6 g6 (userSubject "alice") [] _ _
              L eq_refl eq_refl eq_refl W R)
    as (HRB & HCRB).
  split; [exact L|]. split; [by rewrite R|]. split; [exact HRB|].
  rewrite HCRB; [reflexivity|discriminate].
Defined.

Lemma bindings_name_the_first_subject_only_witness :
  ManagedClusterRoleBinding.Subjects g7
  = [Subject.mk "Group" rbac_GroupName "devs" ""; Subject.mk "User" "" "bob" ""]
  ∧ (reconcile quiet "g7" world_g7).1 = Ok emptyResult
  ∧ ∃ given,
      clusterRoleBindings (spoke (reconcile quiet "g7" world_g7).2) !! ("", "g7")
        = Some given
      ∧ ClusterRoleBinding.Subjects given = [Subject.mk "User" "" "devs" ""]
      ∧ ClusterRoleBinding.RoleRef given = RoleRef.mk rbac_GroupName "ClusterRole" "viewer".
Proof.
  assert (loads quiet (request "g7") world_g7 g7) as L by (vm_compute; reflexivity).
  assert (wf_store (spoke world_g7)) as W by decide_by_computing.
  assert (reconcile quiet "g7" world_g7
          = (Ok emptyResult, (reconcile quiet "g7" world_g7).2))
    as R by (vm_compute; reflexivity).
  split; [reflexivity|]. split; [by rewrite R|].
  exact (proj1 (bindings_name_the_first_subject_only finalizer owner quiet (request "g7")
                  world_g7 g7 (Subject.mk "Group" rbac_GroupName "devs" "")
                  [userSubject "bob"] _ _ L eq_refl eq_refl W R) eq_refl).
Defined.

Lemma retry_after_a_failed_attempt_converges_witness :
  (reconcile halfway "g1" world_g1).1 = Fail (ErrOther "quota")
  ∧ clusterRoleBindings (spoke (reconcile halfway "g1" world_g1).2) !! ("", "g1") = None
  ∧ is_Some (clusterRoles (spoke (reconcile halfway "g1" world_g1).2)
               !! ("", "impersonate-alice-hub1"))
  ∧ (reconcile quiet "g1" (reconcile halfway "g1" world_g1).2).1 = Ok emptyResult
  ∧ (reconcile quiet "g1" (reconcile halfway "g1" world_g1).2).2
    = mkWorld (hubOf [g1]) spokeOf_g1.
Proof.
  assert (loads halfway (request "g1") world_g1 g1) as L by (vm_compute; reflexivity).
  assert (wf_store (spoke world_g1)) as W by decide_by_computing.
  assert (reconcile halfway "g1" world_g1
          = (Fail (ErrOther "quota"), (reconcile halfway "g1" world_g1).2))
    as R1 by (vm_compute; reflexivity).
  assert (reconcile quiet "g1" (reconcile halfway "g1" world_g1).2
          = (Ok emptyResult, (reconcile quiet "g1" (reconcile halfway "g1" world_g1).2).2))
    as R2 by (vm_compute; reflexivity).
  assert (reconcile quiet "g1" world_g1 = (Ok emptyResult, mkWorld (hubOf [g1]) spokeOf_g1))
    as R3 by (vm_compute; reflexivity).
  split; [by rewrite R1|]. split; [vm_compute; reflexivity|].
  split; [vm_compute; by eexists|]. split; [by rewrite R2|].
  exact (retry_after_a_failed_attempt_converges finalizer owner halfway quiet quiet
           (request "g1") world_g1 g1 (userSubject "alice") [] _ _ _ _ _ _
           L eq_refl eq_refl W R1 R2 R3).
Defined.

Lemma successful_cleanup_releases_the_spoke_copy_only_witness :
  loads quiet (request "g1") world_g1_mirrored g1_deleting
  ∧ (reconcile quiet "g1" world_g1_mirrored).1 = Ok emptyResult
  ∧ managedClusterRoleBindings (spoke (reconcile quiet "g1" world_g1_mirrored).2)
    = {[("", "g1") := grant "g1" [] (Some 1%Z) alice None]}
  ∧ managedClusterRoleBindings (hub (reconcile quiet "g1" world_g1_mirrored).2)
      !! ("", "g1")
    = Some g1_deleting.
Proof.
  assert (loads quiet (request "g1") world_g1_mirrored g1_deleting) as L
    by (vm_compute; reflexivity).
  assert (is_Some (ObjectMeta.DeletionTimestamp
                     (ManagedClusterRoleBinding.ObjectMeta g1_deleting))) as D
    by (by eexists).
  assert (ManagedClusterRoleBinding.Subjects g1_deleting ≠ []) as NE by discriminate.
  assert (wf_store (spoke world_g1_mirrored)) as W by decide_by_computing.
  assert (reconcile quiet "g1" world_g1_mirrored
          = (Ok emptyResult, (reconcile quiet "g1" world_g1_mirrored).2))
    as R by (vm_compute; reflexivity).
  destruct (successful_cleanup_releases_the_spoke_copy_only finalizer owner quiet
              (request "g1") world_g1_mirrored g1_deleting _ _ L D eq_refl NE W R)
    as (_ & HG & _ & _ & _ & _ & _ & _ & HH).
  split; [exact L|]. split; [by rewrite R|]. split; [|exact HH].
  rewrite HG. vm_compute; reflexivity.
Defined.

Lemma grant_named_like_its_impersonation_binding_replaces_it_witness :
  loads quiet (request "impersonate-alice-hub1-rolebinding") world_g8 g8
  ∧ (reconcile quiet "impersonate-alice-hub1-rolebinding" world_g8).1 = Ok emptyResult
  ∧ ∃ b,
      clusterRoleBindings
        (spoke (reconcile quiet "impersonate-alice-hub1-rolebinding" world_g8).2)
        !! ("", "impersonate-alice-hub1-rolebinding")
      = Some b
      ∧ ClusterRoleBinding.Subjects b = [Subject.mk "User" "" "alice" ""]
      ∧ ClusterRoleBinding.RoleRef b = RoleRef.mk rbac_GroupName "ClusterRole" "viewer".
Proof.
  assert (loads quiet (request "impersonate-alice-hub1-rolebinding") world_g8 g8) as L
    by (vm_compute; reflexivity).
  assert (wf_store (spoke world_g8)) as W by decide_by_computing.
  assert (reconcile quiet "impersonate-alice-hub1-rolebinding" world_g8
          = (Ok emptyResult,
             (reconcile quiet "impersonate-alice-hub1-rolebinding" world_g8).2))
    as R by (vm_compute; reflexivity).
  destruct (grant_named_like_its_impersonation_binding_replaces_it finalizer owner quiet
              (request "impersonate-alice-hub1-rolebinding") world_g8 g8
              (userSubject "alice") [] _ _ L eq_refl eq_refl eq_refl eq_refl W R)
    as (b & Lb & SU & RR & _).
  split; [exact L|]. split; [by rewrite R|]. exists b. by repeat split.
Defined.

Lemma grant_bindings_come_after_the_impersonation_objects_witness :
  (reconcile halfway "g1" world_g1).1 = Fail (ErrOther "quota")
  ∧ clusterRoleBindings (spoke world_g1) !! ("", "impersonate-alice-hub1-rolebinding")
    = None
  ∧ is_Some (clusterRoleBindings (spoke (reconcile halfway "g1" world_g1).2)
               !! ("", "impersonate-alice-hub1-rolebinding"))
  ∧ is_Some (clusterRoles (spoke (reconcile halfway "g1" world_g1).2)
               !! ("", "impersonate-alice-hub1")).
Proof.
  assert (loads halfway (request "g1") world_g1 g1) as L by (vm_compute; reflexivity).
  assert (wf_store (spoke world_g1)) as W by decide_by_computing.
  assert (reconcile halfway "g1" world_g1
          = (Fail (ErrOther "quota"), (reconcile halfway "g1" world_g1).2))
    as R by (vm_compute; reflexivity).
  assert (is_Some (clusterRoleBindings (spoke (reconcile halfway "g1" world_g1).2)
                     !! ("", "impersonate-alice-hub1-rolebinding"))) as B
    by (vm_compute; by eexists).
  split; [by rewrite R|]. split; [reflexivity|]. split; [exact B|].
  refine (proj1 (grant_bindings_come_after_the_impersonation_objects finalizer owner
                   halfway (request "g1") world_g1 g1 (userSubject "alice") [] _ _
                   L eq_refl eq_refl W R) _).
  intros E. rewrite E in B. destruct B as [b Hb]. vm_compute in Hb. discriminate.
Defined.

Lemma cluster_wide_grant_is_swept_whole_witness :
  reconcile quiet "g1" world_g1 = (Ok emptyResult, mkWorld (hubOf [g1]) spokeOf_g1)
  ∧ (controller.deleteAssociatedResources quiet g1_deleting
       (mkWorld (hubOf [g1]) spokeOf_g1)).1 = Ok tt
  ∧ is_Some (clusterRoleBindings spokeOf_g1 !! ("", "g1"))
  ∧ clusterRoles
      (spoke (controller.deleteAssociatedResources quiet g1_deleting
                (mkWorld (hubOf [g1]) spokeOf_g1)).2)
      !! ("", "impersonate-alice-hub1") = None
  ∧ clusterRoleBindings
      (spoke (controller.deleteAssociatedResources quiet g1_deleting
                (mkWorld (hubOf [g1]) spokeOf_g1)).2)
      !! ("", "impersonate-alice-hub1-rolebinding") = None
  ∧ clusterRoleBindings
      (spoke (controller.deleteAssociatedResources quiet g1_deleting
                (mkWorld (hubOf [g1]) spokeOf_g1)).2)
      !! ("", "g1") = None.
Proof.
  assert (loads quiet (request "g1") world_g1 g1) as L by (vm_compute; reflexivity).
  assert (wf_store (spoke world_g1)) as W by decide_by_computing.
  assert (reconcile quiet "g1" world_g1 = (Ok emptyResult, mkWorld (hubOf [g1]) spokeOf_g1))
    as R by (vm_compute; reflexivity).
  assert (controller.deleteAssociatedResources quiet g1_deleting
            (mkWorld (hubOf [g1]) spokeOf_g1)
          = (Ok tt, (controller.deleteAssociatedResources quiet g1_deleting
                       (mkWorld (hubOf [g1]) spokeOf_g1)).2))
    as F by (vm_compute; reflexivity).
  destruct (cluster_wide_grant_is_swept_whole finalizer owner quiet quiet (request "g1")
              world_g1 g1 (userSubject "alice") [] _ _ g1_deleting _
              L eq_refl eq_refl eq_refl W eq_refl eq_refl eq_refl R eq_refl
              (λ _, eq_refl) F)
    as ((_ & _ & HG) & H1 & H2 & H3).
  split; [exact R|]. split; [by rewrite F|]. split; [exact HG|].
  exact (conj H1 (conj H2 H3)).
Defined.
